(** * Roster La Protea: the shift calculator

    A shallow embedding of the shift-state logic of the roster
    application (the block marked LOGIC of the application source, and the
    quick-cycle handler of the roster grid), together with the part of the
    ECMAScript runtime that the logic relies on: numbers that may be NaN,
    [String.prototype.split], [Number] on the text of a date field, and
    the [Date] constructor with its local-time conversion. The functions
    are given twice: as functions of the values they are handed, and as
    programs over the heap of the engine, where a call may throw and may
    write. *)

From Stdlib Require Import ZArith Lia Bool Ascii String List.
From stdpp Require Import base option list.
Import ListNotations.

Local Open Scope string_scope.
Local Open Scope list_scope.
Local Open Scope Z_scope.

(** ** ECMAScript numbers

    Every number that the calculator handles is an integer or NaN: the
    fields of a date are read from digits, the time values are whole
    milliseconds, and the only division is immediately floored. *)
Module JS.

Inductive num : Type :=
| NaN
| Int (z : Z).

Definition add (a b : num) : num :=
  match a, b with
  | Int x, Int y => Int (x + y)
  | _, _ => NaN
  end.

Definition sub (a b : num) : num :=
  match a, b with
  | Int x, Int y => Int (x - y)
  | _, _ => NaN
  end.

(** [a % b]: the remainder takes the sign of the dividend, and a zero
    divisor gives NaN (no exception is raised). *)
Definition rem (a b : num) : num :=
  match a, b with
  | Int x, Int y => if y =? 0 then NaN else Int (Z.rem x y)
  | _, _ => NaN
  end.

(** [a < b]: false as soon as one side is NaN. *)
Definition lt (a b : num) : bool :=
  match a, b with
  | Int x, Int y => x <? y
  | _, _ => false
  end.

(** [Math.floor(a / d)] for a positive integer constant [d]. The quotient
    of the source is a double; its floor is the floor of the exact
    quotient as long as that quotient stays below 2^26 in absolute value,
    which holds for the difference in days of any two dates with a
    four-digit year. *)
Definition floor_div (a : num) (d : Z) : num :=
  match a with
  | Int x => Int (x / d)
  | NaN => NaN
  end.

(** Truthiness of an optional text: [undefined] and the empty text are
    falsy. *)
Definition truthy_text (o : option string) : bool :=
  match o with
  | Some s => negb (String.eqb s "")
  | None => false
  end.

(** Truthiness of an optional boolean. *)
Definition truthy_flag (o : option bool) : bool :=
  match o with
  | Some b => b
  | None => false
  end.

(** *** [s.split(sep)] for a one-character separator *)
Fixpoint split_go (sep : ascii) (cur : string) (s : string) : list string :=
  match s with
  | EmptyString => [cur]
  | String c rest =>
      if Ascii.eqb c sep then cur :: split_go sep "" rest
      else split_go sep (String.append cur (String c "")) rest
  end.

Definition split (sep : ascii) (s : string) : list string :=
  split_go sep "" s.

(** *** [Number(text)]

    The value of the source on unsigned decimal numerals of up to
    fifteen digits and on the empty text (which is 0), the fields that
    the texts accepted by [isoDate] below have. Every other text is sent
    to NaN here; the source reads more of them as numbers (surrounding
    blanks, signs, fractions, exponents, radix prefixes), so a statement
    about the calculator on a date says that the date satisfies
    [isoDate], or does not depend on what the fields hold. *)
Definition is_digit (c : ascii) : bool :=
  (48 <=? nat_of_ascii c)%nat && (nat_of_ascii c <=? 57)%nat.

Definition digit_value (c : ascii) : Z :=
  Z.of_nat (nat_of_ascii c) - 48.

Fixpoint digits_go (acc : Z) (s : string) : num :=
  match s with
  | EmptyString => Int acc
  | String c rest =>
      if is_digit c then digits_go (10 * acc + digit_value c) rest
      else NaN
  end.

Definition Number (s : string) : num := digits_go 0 s.

(** *** The [Date] constructor

    [new Date(year, month, date)] builds the local midnight of the given
    day and stores its UTC time value. The names follow the ECMAScript
    specification. *)
Definition msPerDay : Z := 86400000.

Definition DayFromYear (y : Z) : Z :=
  365 * (y - 1970) + (y - 1969) / 4 - (y - 1901) / 100 + (y - 1601) / 400.

Definition InLeapYear (y : Z) : bool :=
  (y mod 4 =? 0) && (negb (y mod 100 =? 0) || (y mod 400 =? 0)).

(** Day within the year of the first day of month [mn] (0 = January). *)
Definition DayOfMonthStart (leap : bool) (mn : Z) : Z :=
  let l := if leap then 1 else 0 in
  match mn with
  | 0 => 0
  | 1 => 31
  | 2 => 59 + l
  | 3 => 90 + l
  | 4 => 120 + l
  | 5 => 151 + l
  | 6 => 181 + l
  | 7 => 212 + l
  | 8 => 243 + l
  | 9 => 273 + l
  | 10 => 304 + l
  | _ => 334 + l
  end.

(** [MakeDay]: months outside 0..11 carry into the year, and the day of
    the month is added without any range check. *)
Definition MakeDay (year month date : Z) : Z :=
  let ym := year + month / 12 in
  let mn := month mod 12 in
  DayFromYear ym + DayOfMonthStart (InLeapYear ym) mn + date - 1.

(** [MakeFullYear]: a year from 0 to 99 means 1900 + year. *)
Definition MakeFullYear (y : Z) : Z :=
  if (0 <=? y) && (y <=? 99) then 1900 + y else y.

Definition TimeClip (t : Z) : num :=
  if 8640000000000000 <? Z.abs t then NaN else Int t.

(** The host's time zone is a function [LocalTZA]: [LocalTZA t] is the
    offset from UTC, in milliseconds, in force at the local time value
    [t]. *)
Definition UTC (LocalTZA : Z -> Z) (t : Z) : Z := t - LocalTZA t.

(** [new Date(year, month, date).getTime()] *)
Definition Date_getTime (LocalTZA : Z -> Z) (year month date : num) : num :=
  match year, month, date with
  | Int y, Int m, Int d =>
      TimeClip (UTC LocalTZA (MakeDay (MakeFullYear y) m d * msPerDay))
  | _, _, _ => NaN
  end.

(** *** Arrays *)

(** [a.findIndex(p)]: the index of the first element that satisfies [p],
    or -1. *)
Fixpoint findIndex {A : Type} (p : A -> bool) (a : list A) : Z :=
  match a with
  | [] => -1
  | x :: rest =>
      if p x then 0
      else let i := findIndex p rest in if i <? 0 then -1 else i + 1
  end.

(** [a.splice(idx, 1)] for [idx >= 0]: the array without its element at
    [idx] (unchanged when [idx] is past the end). *)
Definition splice1 {A : Type} (idx : Z) (a : list A) : list A :=
  delete (Z.to_nat idx) a.

(** [a.push(x)] *)
Definition push {A : Type} (a : list A) (x : A) : list A := a ++ [x].

End JS.

(** ** Types of the application *)

Inductive ShiftType : Type := Normal | Half.

Inductive EmploymentStatus : Type := Permanent | Casual.

Module ShiftOverride.
Record t : Type := mk {
  date : string;
  startTime : option string;
  endTime : option string;
  isDayOff : option bool;
  shiftType : option ShiftType
}.
End ShiftOverride.

(** The two pattern numbers are integers. The source computes on them in
    doubles; the integer arithmetic of [isStaffWorking] below is that
    computation as long as [exactPattern] holds. *)
Module StaffMember.
Record t : Type := mk {
  id : string;
  name : string;
  role : string;
  cycleStartDate : string;
  patternOn : Z;
  patternOff : Z;
  shiftType : ShiftType;
  status : EmploymentStatus;
  overrides : option (list ShiftOverride.t)
}.
End StaffMember.

Module DayStatus.
Record t : Type := mk {
  date : JS.num;
  isWorkDay : bool;
  dayName : string;
  dayNumber : Z;
  fullDateStr : string
}.
End DayStatus.

#[global] Instance ShiftType_eq_dec : EqDecision ShiftType.
Proof. solve_decision. Defined.

(** The union [ShiftType | 'Off'] of the shift state. *)
Inductive ShiftTypeOrOff : Type :=
| Shift (t : ShiftType)
| Off.

#[global] Instance ShiftTypeOrOff_eq_dec : EqDecision ShiftTypeOrOff.
Proof. solve_decision. Defined.

Module VisualType.
Inductive t : Type := Solid | Hollow | None | Dash.
End VisualType.

Module ShiftState.
Record t : Type := mk {
  isWorking : bool;
  shiftType : ShiftTypeOrOff;
  visualType : VisualType.t;
  label : string
}.
End ShiftState.

(** ** The logic *)

Section Logic.

(** The time zone of the host that runs the application. *)
Variable LocalTZA : Z -> Z.

(** [new Date(Y, M - 1, D).getTime()] for [[Y, M, D] =
    text.split('-').map(Number)]; a missing field is [undefined], which
    the arithmetic and the constructor turn into NaN. *)
Definition localMidnight (text : string) : JS.num :=
  let fields := map JS.Number (JS.split "-" text) in
  let Y := nth 0 fields JS.NaN in
  let M := nth 1 fields JS.NaN in
  let D := nth 2 fields JS.NaN in
  JS.Date_getTime LocalTZA Y (JS.sub M (JS.Int 1)) D.

(** The local constants [diffDays], [totalCycleLength] and [dayInCycle]
    of [isStaffWorking], as functions of its arguments. *)
Definition diffDays (staff : StaffMember.t) (targetDateStr : string) : JS.num :=
  let cycleStart := localMidnight (StaffMember.cycleStartDate staff) in
  let target := localMidnight targetDateStr in
  let diffTime := JS.sub target cycleStart in
  JS.floor_div diffTime (1000 * 60 * 60 * 24).

Definition totalCycleLength (staff : StaffMember.t) : JS.num :=
  JS.Int (StaffMember.patternOn staff + StaffMember.patternOff staff).

Definition dayInCycle (staff : StaffMember.t) (targetDateStr : string) : JS.num :=
  JS.rem
    (JS.add (JS.rem (diffDays staff targetDateStr) (totalCycleLength staff))
            (totalCycleLength staff))
    (totalCycleLength staff).

Definition isStaffWorking (staff : StaffMember.t) (targetDateStr : string) : bool :=
  JS.lt (dayInCycle staff targetDateStr) (JS.Int (StaffMember.patternOn staff)).

(** [staff.overrides?.find(o => o.date === dateStr)] *)
Definition findOverride (staff : StaffMember.t) (dateStr : string)
  : option ShiftOverride.t :=
  match StaffMember.overrides staff with
  | Some os => List.find (fun o => String.eqb (ShiftOverride.date o) dateStr) os
  | None => None
  end.

Definition calculateShiftState (staff : StaffMember.t) (day : DayStatus.t)
  : ShiftState.t :=
  let override := findOverride staff (DayStatus.fullDateStr day) in
  if JS.truthy_flag (override ≫= ShiftOverride.isDayOff) then
    ShiftState.mk false Off VisualType.Dash "Day Off (Manual)"
  else
    match override ≫= ShiftOverride.shiftType with
    | Some Half =>
        ShiftState.mk true (Shift Half) VisualType.Hollow "Half Shift (Manual)"
    | Some Normal =>
        ShiftState.mk true (Shift Normal) VisualType.Solid "Normal Shift (Manual)"
    | None =>
        let working := isStaffWorking staff (DayStatus.fullDateStr day) in
        if negb working then
          ShiftState.mk false Off VisualType.Dash "Off"
        else
          ShiftState.mk true (Shift Normal) VisualType.Solid "Normal Shift"
    end.

(** The result [{ start, end }] is the pair of the two texts. *)
Definition getShiftTimes (staff : StaffMember.t) (dateStr : string)
  (shiftType : ShiftType) : string * string :=
  let override := findOverride staff dateStr in
  if JS.truthy_text (override ≫= ShiftOverride.startTime)
     && JS.truthy_text (override ≫= ShiftOverride.endTime)
  then (default "" (override ≫= ShiftOverride.startTime),
        default "" (override ≫= ShiftOverride.endTime))
  else
    match shiftType with
    | Half => ("08:00", "13:00")
    | Normal => ("08:00", "17:00")
    end.

(** *** The quick cycle of the roster grid

    [handleQuickCycle] closes over the [staff] list shown by the grid and
    over the optional callback [onUpdateStaff]; its result here is the
    list handed to that callback, or nothing when there is no callback. *)

Definition nextState (shiftState : ShiftState.t) : ShiftTypeOrOff :=
  if bool_decide (ShiftState.shiftType shiftState = Shift Half) then Off
  else if bool_decide (ShiftState.shiftType shiftState = Off)
          || negb (ShiftState.isWorking shiftState)
  then Shift Normal
  else Shift Half.

(** The override list computed for the member [p] whose cell was
    clicked. *)
Definition cycledOverrides (p : StaffMember.t) (day : DayStatus.t)
  (shiftState : ShiftState.t) : list ShiftOverride.t :=
  let d := DayStatus.fullDateStr day in
  let currentOverrides :=
    match StaffMember.overrides p with
    | Some os => os
    | None => []
    end in
  let idx :=
    JS.findIndex (fun o => String.eqb (ShiftOverride.date o) d) currentOverrides in
  let currentOverrides :=
    if 0 <=? idx then JS.splice1 idx currentOverrides else currentOverrides in
  match nextState shiftState with
  | Off =>
      JS.push currentOverrides
        (ShiftOverride.mk d None None (Some true) None)
  | Shift Half =>
      JS.push currentOverrides
        (ShiftOverride.mk d (Some "08:00") (Some "13:00") (Some false) (Some Half))
  | Shift Normal =>
      let baseWorking := isStaffWorking p d in
      if negb baseWorking then
        JS.push currentOverrides
          (ShiftOverride.mk d (Some "08:00") (Some "17:00") (Some false)
             (Some Normal))
      else currentOverrides
  end.

(** [{ ...p, overrides: os }] *)
Definition withOverrides (p : StaffMember.t) (os : list ShiftOverride.t)
  : StaffMember.t :=
  StaffMember.mk (StaffMember.id p) (StaffMember.name p) (StaffMember.role p)
    (StaffMember.cycleStartDate p) (StaffMember.patternOn p)
    (StaffMember.patternOff p) (StaffMember.shiftType p)
    (StaffMember.status p) (Some os).

Definition handleQuickCycle (staff : list StaffMember.t) (onUpdateStaff : bool)
  (person : StaffMember.t) (day : DayStatus.t) (shiftState : ShiftState.t)
  : option (list StaffMember.t) :=
  if negb onUpdateStaff then None
  else
    Some (map (fun p =>
                 if negb (String.eqb (StaffMember.id p) (StaffMember.id person))
                 then p
                 else withOverrides p (cycledOverrides p day shiftState))
              staff).

(** One click of an administrator on the cell of the member at row [i]:
    the grid passes the member, the day and the state it displays, and
    the list it shows next is the one handed to the callback. *)
Definition clickCell (staff : list StaffMember.t) (i : nat) (day : DayStatus.t)
  : list StaffMember.t :=
  match staff !! i with
  | Some person =>
      match handleQuickCycle staff true person day
              (calculateShiftState person day) with
      | Some newStaff => newStaff
      | None => staff
      end
  | None => staff
  end.

End Logic.

(** ** The civil calendar

    The proleptic Gregorian calendar, by counting: [next] is the day after
    a date and [addDays n] moves [n] days forward. This is the reference
    against which the day numbers of the [Date] constructor are read. *)
Module Calendar.

Record date : Type := mk { year : Z; month : Z; day : Z }.

Definition isLeap (y : Z) : bool :=
  (y mod 4 =? 0) && (negb (y mod 100 =? 0) || (y mod 400 =? 0)).

Definition daysInMonth (y m : Z) : Z :=
  match m with
  | 2 => if isLeap y then 29 else 28
  | 4 | 6 | 9 | 11 => 30
  | _ => 31
  end.

Definition valid (d : date) : bool :=
  (1 <=? month d) && (month d <=? 12)
  && (1 <=? day d) && (day d <=? daysInMonth (year d) (month d)).

Definition next (d : date) : date :=
  if day d <? daysInMonth (year d) (month d) then mk (year d) (month d) (day d + 1)
  else if month d <? 12 then mk (year d) (month d + 1) 1
  else mk (year d + 1) 1 1.

Fixpoint addDays (n : nat) (d : date) : date :=
  match n with
  | O => d
  | S k => addDays k (next d)
  end.

(** The day number that the [Date] constructor gives to a date. *)
Definition dayNumber (d : date) : Z :=
  JS.MakeDay (year d) (month d - 1) (day d).

End Calendar.

(** ** Well-formed dates: the text [YYYY-MM-DD] *)

Fixpoint allDigits (s : string) : bool :=
  match s with
  | EmptyString => true
  | String c rest => JS.is_digit c && allDigits rest
  end.

Definition isoDate (s : string) : bool :=
  match JS.split "-" s with
  | [y; m; d] =>
      allDigits y && (String.length y =? 4)%nat
      && allDigits m && (String.length m =? 2)%nat
      && allDigits d && (String.length d =? 2)%nat
  | _ => false
  end.

(** The calendar date that a well-formed text denotes. *)
Definition dateOf (s : string) : Calendar.date :=
  let n := fun i =>
    match nth i (map JS.Number (JS.split "-" s)) JS.NaN with
    | JS.Int z => z
    | JS.NaN => 0
    end in
  Calendar.mk (n 0%nat) (n 1%nat) (n 2%nat).

(** ** Host time zones used in the examples *)

(** A host two hours ahead of UTC at every instant, as
    Africa/Johannesburg has been since 1944. *)
Definition tzJohannesburg : Z -> Z := fun _ => 7200000.

(** America/New_York during 2024: five hours behind UTC, four hours
    behind from the local time 2024-03-10 03:00 until 2024-11-03
    02:00. *)
Definition tzNewYork2024 : Z -> Z := fun t =>
  if (JS.MakeDay 2024 2 10 * JS.msPerDay + 10800000 <=? t)
     && (t <? JS.MakeDay 2024 10 3 * JS.msPerDay + 7200000)
  then -14400000
  else -18000000.

(** The time zones of real hosts: the offset never exceeds a day. *)
Definition boundedZone (LocalTZA : Z -> Z) : Prop :=
  forall t, Z.abs (LocalTZA t) <= JS.msPerDay.

(** ** Override lists *)

(** [p.overrides ? [...p.overrides] : []] *)
Definition overridesOrEmpty (p : StaffMember.t) : list ShiftOverride.t :=
  match StaffMember.overrides p with
  | Some os => os
  | None => []
  end.

Definition datedFor (d : string) (o : ShiftOverride.t) : bool :=
  String.eqb (ShiftOverride.date o) d.

(** The invariant of the data model: at most one override per date. *)
Definition atMostOneFor (d : string) (p : StaffMember.t) : Prop :=
  (length (List.filter (datedFor d) (overridesOrEmpty p)) <= 1)%nat.

(** [o] is the override of [p] for the date [d]: an entry of the list
    that carries the date, the first one should there be several. *)
Definition overrideFor (d : string) (p : StaffMember.t) (o : ShiftOverride.t)
  : Prop :=
  exists before after,
    overridesOrEmpty p = before ++ o :: after
    /\ (forall x, In x before -> ShiftOverride.date x <> d)
    /\ ShiftOverride.date o = d.

(** [p] has no override for the date [d]. *)
Definition noOverrideFor (d : string) (p : StaffMember.t) : Prop :=
  forall x, In x (overridesOrEmpty p) -> ShiftOverride.date x <> d.

(** The pattern numbers on which the arithmetic of the source, done in
    doubles, is the arithmetic of integers: the cycle length, and the sum
    of a remainder and the cycle length, stay below 2^53. *)
Definition exactPattern (p : StaffMember.t) : Prop :=
  Z.abs (StaffMember.patternOn p) <= 2 ^ 51
  /\ Z.abs (StaffMember.patternOff p) <= 2 ^ 51.

(** The overrides of [p] for the other dates, in their order. *)
Definition otherDates (d : string) (p : StaffMember.t) : list ShiftOverride.t :=
  List.filter (fun o => negb (datedFor d o)) (overridesOrEmpty p).

(** The override that each step of the cycle writes for the date [d]. *)
Definition dayOffEntry (d : string) : ShiftOverride.t :=
  ShiftOverride.mk d None None (Some true) None.

Definition halfEntry (d : string) : ShiftOverride.t :=
  ShiftOverride.mk d (Some "08:00") (Some "13:00") (Some false) (Some Half).

Definition normalEntry (d : string) : ShiftOverride.t :=
  ShiftOverride.mk d (Some "08:00") (Some "17:00") (Some false) (Some Normal).

(** The member after one click on its cell for the day. *)
Definition cycleMember (LocalTZA : Z -> Z) (p : StaffMember.t)
  (day : DayStatus.t) : StaffMember.t :=
  withOverrides p
    (cycledOverrides LocalTZA p day (calculateShiftState LocalTZA p day)).

(** ** The calculator at run time

    The functions as the engine runs them. The staff members, their
    arrays of overrides and the days are objects of a heap, reached
    through references. Whatever the declared types say, a reference may
    be [undefined] (or [null]), the start date of a staff object may be
    missing (a NULL column of the table arrives as [null]) and so may an
    entry of an array; a property read or a method call on [undefined]
    throws a TypeError. The time zone of the host is part of the state of
    the world: the [Date] constructor reads it. *)
Module Runtime.

Record staffObject : Type := mkStaff {
  id : string;
  name : string;
  role : string;
  cycleStartDate : option string;
  patternOn : Z;
  patternOff : Z;
  shiftType : ShiftType;
  status : EmploymentStatus;
  overrides : option nat
}.

Record world : Type := mkWorld {
  staffObjects : list staffObject;
  arrays : list (list (option ShiftOverride.t));
  days : list DayStatus.t;
  zone : Z -> Z
}.

(** How a call ends: with a value, or with a TypeError; either way in
    some state of the world. *)
Inductive outcome (A : Type) : Type :=
| Returns (a : A) (w : world)
| Throws (w : world).

Arguments Returns {A} a w.
Arguments Throws {A} w.

Definition after {A : Type} (o : outcome A) : world :=
  match o with
  | Returns _ w => w
  | Throws w => w
  end.

Definition value {A : Type} (o : outcome A) : option A :=
  match o with
  | Returns a _ => Some a
  | Throws _ => None
  end.

Definition M (A : Type) : Type := world -> outcome A.

Definition ret {A : Type} (a : A) : M A := fun w => Returns a w.

Definition bind {A B : Type} (m : M A) (k : A -> M B) : M B :=
  fun w =>
    match m w with
    | Returns a w' => k a w'
    | Throws w' => Throws w'
    end.

Definition throw {A : Type} : M A := fun w => Throws w.

(** The object behind a reference of the given heap. An address outside
    the heap is never handed out by the engine; it is read as
    [undefined]. *)
Definition deref {A : Type} (heap : world -> list A) (r : option nat) : M A :=
  fun w =>
    match r ≫= (fun l => heap w !! l) with
    | Some x => Returns x w
    | None => Throws w
    end.

(** The receiver of a property read or of a method call. *)
Definition defined {A : Type} (v : option A) : M A :=
  match v with
  | Some x => ret x
  | None => throw
  end.

Definition hostZone : M (Z -> Z) := fun w => Returns (zone w) w.

(** The world with other arrays, and with other staff objects. *)
Definition withArrays (w : world) (a : list (list (option ShiftOverride.t)))
  : world :=
  mkWorld (staffObjects w) a (days w) (zone w).

Definition withStaffObjects (w : world) (s : list staffObject) : world :=
  mkWorld s (arrays w) (days w) (zone w).

(** A new array, and the update in place of an array. *)
Definition newArray (items : list (option ShiftOverride.t)) : M nat :=
  fun w => Returns (length (arrays w)) (withArrays w (arrays w ++ [items])).

Definition setArray (a : nat) (items : list (option ShiftOverride.t)) : M unit :=
  fun w => Returns tt (withArrays w (<[a := items]> (arrays w))).

(** A new staff object. *)
Definition newObject (s : staffObject) : M nat :=
  fun w =>
    Returns (length (staffObjects w)) (withStaffObjects w (staffObjects w ++ [s])).

(** [a.find(p)] and [a.findIndex(p)] with a callback that runs in the
    world. *)
Fixpoint findM {A : Type} (p : A -> M bool) (a : list A) : M (option A) :=
  match a with
  | [] => ret None
  | x :: rest =>
      bind (p x) (fun b => if b then ret (Some x) else findM p rest)
  end.

Fixpoint findIndexM {A : Type} (p : A -> M bool) (a : list A) : M Z :=
  match a with
  | [] => ret (-1)
  | x :: rest =>
      bind (p x) (fun b =>
        if b then ret 0
        else bind (findIndexM p rest) (fun i =>
               ret (if i <? 0 then -1 else i + 1)))
  end.

(** [a.map(f)] with a callback that runs in the world. *)
Fixpoint mapM {A B : Type} (f : A -> M B) (a : list A) : M (list B) :=
  match a with
  | [] => ret []
  | x :: rest =>
      bind (f x) (fun y => bind (mapM f rest) (fun ys => ret (y :: ys)))
  end.

End Runtime.

Notation "x <- m ;; k" := (Runtime.bind m (fun x => k))
  (at level 100, m at next level, right associativity).

Definition isStaffWorkingM (staff : option nat) (targetDateStr : string)
  : Runtime.M bool :=
  s <- Runtime.deref Runtime.staffObjects staff ;;
  text <- Runtime.defined (Runtime.cycleStartDate s) ;;
  tz <- Runtime.hostZone ;;
  let cycleStart := localMidnight tz text in
  tz' <- Runtime.hostZone ;;
  let target := localMidnight tz' targetDateStr in
  let diffTime := JS.sub target cycleStart in
  let diffDays := JS.floor_div diffTime (1000 * 60 * 60 * 24) in
  s1 <- Runtime.deref Runtime.staffObjects staff ;;
  s2 <- Runtime.deref Runtime.staffObjects staff ;;
  let totalCycleLength :=
    JS.Int (Runtime.patternOn s1 + Runtime.patternOff s2) in
  let dayInCycle :=
    JS.rem (JS.add (JS.rem diffDays totalCycleLength) totalCycleLength)
      totalCycleLength in
  s3 <- Runtime.deref Runtime.staffObjects staff ;;
  Runtime.ret (JS.lt dayInCycle (JS.Int (Runtime.patternOn s3))).

(** The callback [o => o.date === dateStr], where [dateStr] is the
    expression of the source for the date: a read of [day.fullDateStr] in
    [calculateShiftState], a variable in [getShiftTimes]. *)
Definition datedM (dateStr : Runtime.M string) (o : option ShiftOverride.t)
  : Runtime.M bool :=
  v <- Runtime.defined o ;;
  d <- dateStr ;;
  Runtime.ret (String.eqb (ShiftOverride.date v) d).

(** [staff.overrides?.find(o => o.date === dateStr)] *)
Definition findOverrideM (staff : option nat)
  (dateStr : Runtime.M string) : Runtime.M (option ShiftOverride.t) :=
  s <- Runtime.deref Runtime.staffObjects staff ;;
  match Runtime.overrides s with
  | None => Runtime.ret None
  | Some a =>
      items <- Runtime.deref Runtime.arrays (Some a) ;;
      found <- Runtime.findM (datedM dateStr) items ;;
      Runtime.ret (mjoin found)
  end.

(** [day.fullDateStr] *)
Definition fullDateStrM (day : option nat) : Runtime.M string :=
  d <- Runtime.deref Runtime.days day ;;
  Runtime.ret (DayStatus.fullDateStr d).

Definition calculateShiftStateM (staff day : option nat)
  : Runtime.M ShiftState.t :=
  override <- findOverrideM staff (fullDateStrM day) ;;
  if JS.truthy_flag (override ≫= ShiftOverride.isDayOff) then
    Runtime.ret (ShiftState.mk false Off VisualType.Dash "Day Off (Manual)")
  else
    match override ≫= ShiftOverride.shiftType with
    | Some Half =>
        Runtime.ret
          (ShiftState.mk true (Shift Half) VisualType.Hollow "Half Shift (Manual)")
    | Some Normal =>
        Runtime.ret
          (ShiftState.mk true (Shift Normal) VisualType.Solid
             "Normal Shift (Manual)")
    | None =>
        d <- fullDateStrM day ;;
        working <- isStaffWorkingM staff d ;;
        if negb working then
          Runtime.ret (ShiftState.mk false Off VisualType.Dash "Off")
        else
          Runtime.ret
            (ShiftState.mk true (Shift Normal) VisualType.Solid "Normal Shift")
    end.

Definition getShiftTimesM (staff : option nat) (dateStr : string)
  (shiftType : ShiftType) : Runtime.M (string * string) :=
  override <- findOverrideM staff (Runtime.ret dateStr) ;;
  if JS.truthy_text (override ≫= ShiftOverride.startTime)
     && JS.truthy_text (override ≫= ShiftOverride.endTime)
  then
    Runtime.ret (default "" (override ≫= ShiftOverride.startTime),
                 default "" (override ≫= ShiftOverride.endTime))
  else
    match shiftType with
    | Half => Runtime.ret ("08:00", "13:00")
    | Normal => Runtime.ret ("08:00", "17:00")
    end.

(** [currentOverrides.push(entry)] *)
Definition pushM (a : nat) (entry : ShiftOverride.t) : Runtime.M unit :=
  items <- Runtime.deref Runtime.arrays (Some a) ;;
  Runtime.setArray a (JS.push items (Some entry)).

(** The body of the callback of [staff.map] in [handleQuickCycle], for
    the member whose id is the id of the person clicked: a copy of the
    array of overrides is made and updated in place, and a new staff
    object is returned. *)
Definition cycleMemberM (p day : option nat) (shiftState : ShiftState.t)
  : Runtime.M (option nat) :=
  s <- Runtime.deref Runtime.staffObjects p ;;
  currentOverrides <-
    match Runtime.overrides s with
    | Some _ =>
        s' <- Runtime.deref Runtime.staffObjects p ;;
        items <- Runtime.deref Runtime.arrays (Runtime.overrides s') ;;
        Runtime.newArray items
    | None => Runtime.newArray []
    end ;;
  items <- Runtime.deref Runtime.arrays (Some currentOverrides) ;;
  idx <- Runtime.findIndexM (datedM (fullDateStrM day)) items ;;
  _ <- (if 0 <=? idx then
          items' <- Runtime.deref Runtime.arrays (Some currentOverrides) ;;
          Runtime.setArray currentOverrides (JS.splice1 idx items')
        else Runtime.ret tt) ;;
  _ <- match nextState shiftState with
       | Off =>
           d <- fullDateStrM day ;;
           pushM currentOverrides (ShiftOverride.mk d None None (Some true) None)
       | Shift Half =>
           d <- fullDateStrM day ;;
           pushM currentOverrides
             (ShiftOverride.mk d (Some "08:00") (Some "13:00") (Some false)
                (Some Half))
       | Shift Normal =>
           d <- fullDateStrM day ;;
           baseWorking <- isStaffWorkingM p d ;;
           if negb baseWorking then
             d' <- fullDateStrM day ;;
             pushM currentOverrides
               (ShiftOverride.mk d' (Some "08:00") (Some "17:00") (Some false)
                  (Some Normal))
           else Runtime.ret tt
       end ;;
  s'' <- Runtime.deref Runtime.staffObjects p ;;
  l <- Runtime.newObject
         (Runtime.mkStaff (Runtime.id s'') (Runtime.name s'') (Runtime.role s'')
            (Runtime.cycleStartDate s'') (Runtime.patternOn s'')
            (Runtime.patternOff s'') (Runtime.shiftType s'')
            (Runtime.status s'') (Some currentOverrides)) ;;
  Runtime.ret (Some l).

(** [handleQuickCycle] over the heap: [staff] is the array of references
    that the grid shows, and the result is the array handed to the
    callback. *)
Definition handleQuickCycleM (staff : list (option nat))
  (onUpdateStaff : bool) (person day : option nat)
  (shiftState : ShiftState.t) : Runtime.M (option (list (option nat))) :=
  if negb onUpdateStaff then Runtime.ret None
  else
    newStaff <-
      Runtime.mapM (fun p =>
        a <- Runtime.deref Runtime.staffObjects p ;;
        b <- Runtime.deref Runtime.staffObjects person ;;
        if negb (String.eqb (Runtime.id a) (Runtime.id b)) then Runtime.ret p
        else cycleMemberM p day shiftState) staff ;;
    Runtime.ret (Some newStaff).

(** The entries of an array when none is missing. *)
Fixpoint present {A : Type} (items : list (option A)) : option (list A) :=
  match items with
  | [] => Some []
  | Some x :: rest =>
      match present rest with
      | Some l => Some (x :: l)
      | None => None
      end
  | None :: _ => None
  end.

(** The staff member that a reference denotes in a world, when the
    object has the declared type: the start date is there, and the array
    of overrides, if any, has all its entries. *)
Definition staffAt (w : Runtime.world) (r : option nat)
  : option StaffMember.t :=
  match r ≫= (fun l => Runtime.staffObjects w !! l) with
  | Some s =>
      let overrides :=
        match Runtime.overrides s with
        | Some a =>
            match Runtime.arrays w !! a ≫= present with
            | Some os => Some (Some os)
            | None => None
            end
        | None => Some None
        end in
      match Runtime.cycleStartDate s, overrides with
      | Some text, Some os =>
          Some
            (StaffMember.mk (Runtime.id s) (Runtime.name s) (Runtime.role s)
               text (Runtime.patternOn s) (Runtime.patternOff s)
               (Runtime.shiftType s) (Runtime.status s) os)
      | _, _ => None
      end
  | None => None
  end.

(** The day that a reference denotes. *)
Definition dayAt (w : Runtime.world) (r : option nat)
  : option DayStatus.t :=
  r ≫= (fun l => Runtime.days w !! l).

(** A program that leaves the world as it found it, however it ends. *)
Definition readOnly {A : Type} (m : Runtime.M A) : Prop :=
  forall w, Runtime.after (m w) = w.

(** The world [w'] holds every object of [w] as it was, at its place;
    the days and the time zone are the same. *)
Definition extends (w w' : Runtime.world) : Prop :=
  Runtime.staffObjects w `prefix_of` Runtime.staffObjects w'
  /\ Runtime.arrays w `prefix_of` Runtime.arrays w'
  /\ Runtime.days w' = Runtime.days w
  /\ Runtime.zone w' = Runtime.zone w.

(** ** Values used in the examples *)

Definition dayOf (fullDateStr : string) : DayStatus.t :=
  DayStatus.mk (localMidnight tzJohannesburg fullDateStr) false "" 0 fullDateStr.

(** Five days on, two days off, from Monday 2024-01-01. *)
Definition weekdayStaff (overrides : option (list ShiftOverride.t))
  : StaffMember.t :=
  StaffMember.mk "1" "Thandi" "Ranger" "2024-01-01" 5 2 Normal Permanent
    overrides.

(** A world with two staff objects, the first with an array of two
    overrides and the second without start date and without array, and
    two days, on a host two hours ahead of UTC; and a second world that
    holds the first member and the first day among other objects, at
    other addresses. *)
Definition exampleWorld : Runtime.world :=
  Runtime.mkWorld
    [Runtime.mkStaff "1" "Thandi" "Ranger" (Some "2024-01-01") 5 2 Normal
       Permanent (Some 0%nat);
     Runtime.mkStaff "2" "Sipho" "Guide" None 4 4 Half Casual None]
    [[Some (halfEntry "2024-01-02"); Some (dayOffEntry "2024-01-03")]]
    [dayOf "2024-01-02"; dayOf "2023-12-25"]
    tzJohannesburg.

Definition otherWorld : Runtime.world :=
  Runtime.mkWorld
    [Runtime.mkStaff "7" "Lerato" "Tracker" (Some "2024-02-01") 4 4 Half Casual
       (Some 0%nat);
     Runtime.mkStaff "1" "Thandi" "Ranger" (Some "2024-01-01") 5 2 Normal
       Permanent (Some 1%nat)]
    [[Some (dayOffEntry "2024-01-02")];
     [Some (halfEntry "2024-01-02"); Some (dayOffEntry "2024-01-03")]]
    [dayOf "2024-01-05"; dayOf "2024-01-02"]
    tzJohannesburg.

(** ** The rest of the roster grid *)

Module SelectedShift.
Record t : Type := mk {
  staffId : string;
  dateStr : string;
  staffName : string;
  shiftType : ShiftTypeOrOff;
  label : string;
  start : string;
  end_ : string;
  isDayOff : bool
}.
End SelectedShift.




(** The cell of the row "On Duty" for a day:
    [staff.filter(p => calculateShiftState(p, day).isWorking).length] *)
Definition onDutyCount (LocalTZA : Z -> Z) (staff : list StaffMember.t)
  (day : DayStatus.t) : nat :=
  length
    (List.filter
       (fun p => ShiftState.isWorking (calculateShiftState LocalTZA p day))
       staff).




(** ** More of the runtime: texts

    Texts are sequences of code units below 256. *)
Module JSText.

(** [String(x)] and [`${x}`] for a number: the digits of the source for
    integers below 2^53 in absolute value (beyond, the source prints the
    shortest digits that read back as the same double, and an exponent
    from 10^21 on). *)
Definition digitChar (d : Z) : ascii := ascii_of_nat (Z.to_nat (48 + d)).

Fixpoint digits (fuel : nat) (n : Z) (acc : string) : string :=
  match fuel with
  | O => acc
  | S f =>
      let acc' := String (digitChar (n mod 10)) acc in
      if n <? 10 then acc' else digits f (n / 10) acc'
  end.

Definition natural (n : Z) : string :=
  digits (S (Z.to_nat (Z.log2 n))) n "".

Definition toString (x : JS.num) : string :=
  match x with
  | JS.NaN => "NaN"
  | JS.Int n => if n <? 0 then String "-" (natural (- n)) else natural n
  end.

(** [s.padStart(target, fill)] for a filler of one character. *)
Fixpoint filler (fill : ascii) (n : nat) : string :=
  match n with
  | O => ""
  | S k => String fill (filler fill k)
  end.

Definition padStart (target : nat) (fill : ascii) (s : string) : string :=
  String.append (filler fill (target - String.length s)) s.

(** [a.join(sep)] *)
Fixpoint join (sep : string) (a : list string) : string :=
  match a with
  | [] => ""
  | [x] => x
  | x :: rest => String.append x (String.append sep (join sep rest))
  end.

(** White space and line terminators below 256: tab, line feed, vertical
    tab, form feed, carriage return, space, no-break space. *)
Definition isWhiteSpace (c : ascii) : bool :=
  let n := nat_of_ascii c in
  ((9 <=? n) && (n <=? 13) || (n =? 32) || (n =? 160))%nat.

Fixpoint trimStart (s : string) : string :=
  match s with
  | EmptyString => ""
  | String c rest => if isWhiteSpace c then trimStart rest else s
  end.

Fixpoint reverse (acc : string) (s : string) : string :=
  match s with
  | EmptyString => acc
  | String c rest => reverse (String c acc) rest
  end.

Definition trimEnd (s : string) : string :=
  reverse "" (trimStart (reverse "" s)).

Definition trim (s : string) : string := trimEnd (trimStart s).

(** [parseInt(text)] without a radix: leading white space, a sign, the
    prefix [0x] or [0X] for radix 16, then the longest run of digits; NaN
    when the run is empty. The value of the source for runs that denote
    an integer below 2^53 (beyond, the source rounds to a double). *)
Definition digitOf (radix : Z) (c : ascii) : option Z :=
  let n := Z.of_nat (nat_of_ascii c) in
  let v :=
    if (48 <=? n) && (n <=? 57) then n - 48
    else if (97 <=? n) && (n <=? 122) then n - 87
    else if (65 <=? n) && (n <=? 90) then n - 55
    else 36 in
  if v <? radix then Some v else None.

Fixpoint digitRun (radix : Z) (acc : Z) (seen : bool) (s : string) : JS.num :=
  match s with
  | EmptyString => if seen then JS.Int acc else JS.NaN
  | String c rest =>
      match digitOf radix c with
      | Some v => digitRun radix (radix * acc + v) true rest
      | None => if seen then JS.Int acc else JS.NaN
      end
  end.

Definition parseInt (text : string) : JS.num :=
  let s := trimStart text in
  let '(negative, s) :=
    match s with
    | String "-" rest => (true, rest)
    | String "+" rest => (false, rest)
    | _ => (false, s)
    end in
  let '(radix, s) :=
    match s with
    | String "0" (String "x" rest) => (16, rest)
    | String "0" (String "X" rest) => (16, rest)
    | _ => (10, s)
    end in
  match digitRun radix 0 false s with
  | JS.Int v => JS.Int (if negative then - v else v)
  | JS.NaN => JS.NaN
  end.

End JSText.

(** ** Export and import of the staff as CSV *)

Definition newline : ascii := "010".

(** [`${s.shiftType}`] and [`${s.status}`] *)
Definition shiftTypeText (t : ShiftType) : string :=
  match t with
  | Normal => "Normal"
  | Half => "Half"
  end.

Definition statusText (t : EmploymentStatus) : string :=
  match t with
  | Permanent => "Permanent"
  | Casual => "Casual"
  end.

(** One row of [handleExport]. *)
Definition exportRow (s : StaffMember.t) : string :=
  String.append (StaffMember.name s)
    (String.append ","
       (String.append (StaffMember.role s)
          (String.append ","
             (String.append (StaffMember.cycleStartDate s)
                (String.append ","
                   (String.append
                      (JSText.toString (JS.Int (StaffMember.patternOn s)))
                      (String.append ","
                         (String.append
                            (JSText.toString (JS.Int (StaffMember.patternOff s)))
                            (String.append ","
                               (String.append
                                  (shiftTypeText (StaffMember.shiftType s))
                                  (String.append ","
                                     (statusText (StaffMember.status s))))))))))))).

(** [csvContent] of [handleExport]: the header and the rows, joined by
    line feeds. *)
Definition csvContent (staff : list StaffMember.t) : string :=
  JSText.join (String newline "")
    ("Name,Role,CycleStartDate,PatternOn,PatternOff,ShiftType,Status"
     :: map exportRow staff).

(** The objects that [handleImport] builds: the casts of the source
    check nothing, so the shift type and the status are whatever text
    the columns hold, the two pattern fields are what [parseInt] returns,
    and there is no override list. *)
Module Imported.
Record t : Type := mk {
  id : string;
  name : string;
  role : string;
  cycleStartDate : string;
  patternOn : JS.num;
  patternOff : JS.num;
  shiftType : string;
  status : string
}.
End Imported.

Definition importedOf (i : Z) (line : string) : option Imported.t :=
  let cols := JS.split "," line in
  if (7 <=? length cols)%nat then
    Some
      (Imported.mk
         (String.append "imported-" (JSText.toString (JS.Int i)))
         (nth 0 cols "") (nth 1 cols "") (nth 2 cols "")
         (JSText.parseInt (nth 3 cols "")) (JSText.parseInt (nth 4 cols ""))
         (nth 5 cols "") (JSText.trim (nth 6 cols "")))
  else None.

(** The loop of [handleImport], at index [i] with the lines from that
    index on. *)
Fixpoint importLoop (i : Z) (lines : list string) : list Imported.t :=
  match lines with
  | [] => []
  | line :: rest =>
      match importedOf i line with
      | Some member => member :: importLoop (i + 1) rest
      | None => importLoop (i + 1) rest
      end
  end.

(** [handleImport] on the text of the file: the list handed to
    [updateStaffData], or nothing when no member was read. *)
Definition handleImport (text : string) : option (list Imported.t) :=
  let lines :=
    List.filter (fun l => (0 <? String.length (JSText.trim l))%nat)
      (JS.split newline text) in
  let newStaff := importLoop 1 (tail lines) in
  if (0 <? length newStaff)%nat then Some newStaff else None.

(** The staff member that an imported object is, when its fields hold
    values of their declared types. *)
Definition asStaffMember (m : Imported.t) : option StaffMember.t :=
  match Imported.patternOn m, Imported.patternOff m with
  | JS.Int on, JS.Int off =>
      let shiftType :=
        if String.eqb (Imported.shiftType m) "Normal" then Some Normal
        else if String.eqb (Imported.shiftType m) "Half" then Some Half
        else None in
      let status :=
        if String.eqb (Imported.status m) "Permanent" then Some Permanent
        else if String.eqb (Imported.status m) "Casual" then Some Casual
        else None in
      match shiftType, status with
      | Some t, Some e =>
          Some
            (StaffMember.mk (Imported.id m) (Imported.name m) (Imported.role m)
               (Imported.cycleStartDate m) on off t e None)
      | _, _ => None
      end
  | _, _ => None
  end.

(** A text without the character [c]. *)
Fixpoint freeOf (c : ascii) (s : string) : bool :=
  match s with
  | EmptyString => true
  | String x rest => negb (Ascii.eqb x c) && freeOf c rest
  end.

(** A member whose texts can stand in a CSV row: no comma and no line
    feed in the name, the role and the start date, and pattern fields
    that are exact as numbers. *)
Definition plainMember (s : StaffMember.t) : bool :=
  freeOf "," (StaffMember.name s) && freeOf newline (StaffMember.name s)
  && freeOf "," (StaffMember.role s) && freeOf newline (StaffMember.role s)
  && freeOf "," (StaffMember.cycleStartDate s)
  && freeOf newline (StaffMember.cycleStartDate s)
  && (Z.abs (StaffMember.patternOn s) <? 2 ^ 53)
  && (Z.abs (StaffMember.patternOff s) <? 2 ^ 53).

(** What the import makes of the exported row of the member at position
    [k] (counted from 0). *)
Definition reimported (k : nat) (s : StaffMember.t) : Imported.t :=
  Imported.mk
    (String.append "imported-" (JSText.toString (JS.Int (Z.of_nat k + 1))))
    (StaffMember.name s) (StaffMember.role s) (StaffMember.cycleStartDate s)
    (JS.Int (StaffMember.patternOn s)) (JS.Int (StaffMember.patternOff s))
    (shiftTypeText (StaffMember.shiftType s)) (statusText (StaffMember.status s)).

(** ** Saving and fetching *)

(** [isValidUUID]: the pattern
    [/^[0-9a-f]{8}-[0-9a-f]{4}-[0-9a-f]{4}-[0-9a-f]{4}-[0-9a-f]{12}$/i],
    matched from left to right. *)
Definition isHexDigit (c : ascii) : bool :=
  match JSText.digitOf 16 c with
  | Some _ => true
  | None => false
  end.

(** Exactly [n] hexadecimal digits, then the rest of the text. *)
Fixpoint hexRun (n : nat) (s : string) : option string :=
  match n with
  | O => Some s
  | S k =>
      match s with
      | String c rest => if isHexDigit c then hexRun k rest else None
      | EmptyString => None
      end
  end.

Definition dashThen (next : string -> bool) (s : option string) : bool :=
  match s with
  | Some (String "-" rest) => next rest
  | _ => false
  end.

Definition isValidUUID (id : string) : bool :=
  dashThen (fun r1 =>
    dashThen (fun r2 =>
      dashThen (fun r3 =>
        dashThen (fun r4 =>
          match hexRun 12 r4 with
          | Some EmptyString => true
          | _ => false
          end)
          (hexRun 4 r3))
        (hexRun 4 r2))
      (hexRun 4 r1))
    (hexRun 8 id).

(** A text with a character that is not white space. *)
Fixpoint hasVisible (s : string) : bool :=
  match s with
  | EmptyString => false
  | String c rest => negb (JSText.isWhiteSpace c) || hasVisible rest
  end.

(** The columns of the exported row of a member. *)
Definition exportColumns (s : StaffMember.t) : list string :=
  [StaffMember.name s; StaffMember.role s; StaffMember.cycleStartDate s;
   JSText.toString (JS.Int (StaffMember.patternOn s));
   JSText.toString (JS.Int (StaffMember.patternOff s));
   shiftTypeText (StaffMember.shiftType s); statusText (StaffMember.status s)].

(** ** More of the runtime: the methods of [Date]

    A date object is its time value. The host's time zone gives the
    offset in force at a UTC time ([atUTC], for reading local fields) and
    at a local time ([atLocal], for building a date from local fields,
    the function that the calculator takes). *)
Module JSDate.

Record Zone : Type := mkZone { atUTC : Z -> Z; atLocal : Z -> Z }.

Definition Day (t : Z) : Z := t / JS.msPerDay.

Definition TimeWithinDay (t : Z) : Z := t mod JS.msPerDay.

(** [YearFromTime]: the year [y] with [DayFromYear y <= Day t <
    DayFromYear (y + 1)], found from an estimate that is off by at most
    one. *)
Definition YearFromDay (day : Z) : Z :=
  let y := 1970 + (400 * day) / 146097 in
  if day <? JS.DayFromYear y then y - 1
  else if JS.DayFromYear (y + 1) <=? day then y + 1
  else y.

Definition YearFromTime (t : Z) : Z := YearFromDay (Day t).

Definition DayWithinYear (t : Z) : Z :=
  Day t - JS.DayFromYear (YearFromTime t).

Definition MonthFromTime (t : Z) : Z :=
  let d := DayWithinYear t in
  let l := if JS.InLeapYear (YearFromTime t) then 1 else 0 in
  if d <? 31 then 0
  else if d <? 59 + l then 1
  else if d <? 90 + l then 2
  else if d <? 120 + l then 3
  else if d <? 151 + l then 4
  else if d <? 181 + l then 5
  else if d <? 212 + l then 6
  else if d <? 243 + l then 7
  else if d <? 273 + l then 8
  else if d <? 304 + l then 9
  else if d <? 334 + l then 10
  else 11.

Definition DateFromTime (t : Z) : Z :=
  DayWithinYear t
  - JS.DayOfMonthStart (JS.InLeapYear (YearFromTime t)) (MonthFromTime t) + 1.

Definition WeekDay (t : Z) : Z := (Day t + 4) mod 7.

Definition LocalTime (zone : Zone) (t : Z) : Z := t + atUTC zone t.

(** [date.getFullYear()], [date.getMonth()], [date.getDate()] *)
Definition getFullYear (zone : Zone) (date : JS.num) : JS.num :=
  match date with
  | JS.Int t => JS.Int (YearFromTime (LocalTime zone t))
  | JS.NaN => JS.NaN
  end.

Definition getMonth (zone : Zone) (date : JS.num) : JS.num :=
  match date with
  | JS.Int t => JS.Int (MonthFromTime (LocalTime zone t))
  | JS.NaN => JS.NaN
  end.

Definition getDate (zone : Zone) (date : JS.num) : JS.num :=
  match date with
  | JS.Int t => JS.Int (DateFromTime (LocalTime zone t))
  | JS.NaN => JS.NaN
  end.

(** [new Date(date)] for a date object. *)
Definition copy (date : JS.num) : JS.num :=
  match date with
  | JS.Int t => JS.TimeClip t
  | JS.NaN => JS.NaN
  end.

(** The time value that [date.setDate(dt)] stores. *)
Definition setDate (zone : Zone) (date : JS.num) (dt : JS.num) : JS.num :=
  match date, dt with
  | JS.Int t, JS.Int d =>
      let local := LocalTime zone t in
      let newDate :=
        JS.MakeDay (YearFromTime local) (MonthFromTime local) d * JS.msPerDay
        + TimeWithinDay local in
      JS.TimeClip (JS.UTC (atLocal zone) newDate)
  | _, _ => JS.NaN
  end.

(** [date.toLocaleDateString('en-US', { weekday: 'short' }).toUpperCase()] *)
Definition weekdayUpper (zone : Zone) (date : JS.num) : string :=
  match date with
  | JS.Int t =>
      match WeekDay (LocalTime zone t) with
      | 0 => "SUN"
      | 1 => "MON"
      | 2 => "TUE"
      | 3 => "WED"
      | 4 => "THU"
      | 5 => "FRI"
      | _ => "SAT"
      end
  | JS.NaN => "INVALID DATE"
  end.

End JSDate.

(** ** The dates of the grid *)

Definition getLocalDateString (zone : JSDate.Zone) (date : JS.num) : string :=
  let year := JSDate.getFullYear zone date in
  let month :=
    JSText.padStart 2 "0"
      (JSText.toString (JS.add (JSDate.getMonth zone date) (JS.Int 1))) in
  let day := JSText.padStart 2 "0" (JSText.toString (JSDate.getDate zone date)) in
  String.append (JSText.toString year)
    (String.append "-" (String.append month (String.append "-" day))).

(** The entry that the loop of [generateDateRange] pushes at index [i].
    [d.getDate()] is NaN only when [d] is an invalid date; the record
    holds an integer there, and 0 stands for NaN. *)
Definition dateEntry (zone : JSDate.Zone) (current : JS.num) (i : Z)
  : DayStatus.t :=
  let d :=
    JSDate.setDate zone (JSDate.copy current)
      (JS.add (JSDate.getDate zone current) (JS.Int i)) in
  match JSDate.getDate zone d with
  | JS.Int n =>
      DayStatus.mk d false (JSDate.weekdayUpper zone d) n
        (getLocalDateString zone d)
  | JS.NaN =>
      DayStatus.mk d false (JSDate.weekdayUpper zone d) 0
        (getLocalDateString zone d)
  end.

Fixpoint dateLoop (zone : JSDate.Zone) (current : JS.num) (i : Z) (n : nat)
  : list DayStatus.t :=
  match n with
  | O => []
  | S k => dateEntry zone current i :: dateLoop zone current (i + 1) k
  end.

Definition generateDateRange (zone : JSDate.Zone) (startDate : JS.num)
  (days : Z) : list DayStatus.t :=
  dateLoop zone (JSDate.copy startDate) 0 (Z.to_nat days).

(** The civil date of a day number. *)
Definition civilOfDay (day : Z) : Calendar.date :=
  let t := day * JS.msPerDay in
  Calendar.mk (JSDate.YearFromTime t) (JSDate.MonthFromTime t + 1)
    (JSDate.DateFromTime t).

(** Johannesburg as a zone. *)
Definition zoneJohannesburg : JSDate.Zone :=
  JSDate.mkZone tzJohannesburg tzJohannesburg.

(** The local calendar date of a time value on the host. *)
Definition localDateOf (zone : JSDate.Zone) (t : Z) : Calendar.date :=
  let local := JSDate.LocalTime zone t in
  Calendar.mk (JSDate.YearFromTime local) (JSDate.MonthFromTime local + 1)
    (JSDate.DateFromTime local).

(** The local time [i] days after the time value [t], at the same time of
    day. *)
Definition localTimeAfter (zone : JSDate.Zone) (t : Z) (i : Z) : Z :=
  (JSDate.Day (JSDate.LocalTime zone t) + i) * JS.msPerDay
  + JSDate.TimeWithinDay (JSDate.LocalTime zone t).

(** The local time [x] stands on the host's clock: the UTC time that the
    runtime gives it reads back as [x]. This fails only inside the hour
    that a clock change skips. *)
Definition settles (zone : JSDate.Zone) (x : Z) : Prop :=
  JSDate.atUTC zone (x - JSDate.atLocal zone x) = JSDate.atLocal zone x.

(** A host whose offset from UTC never changes. *)
Definition fixedZone (zone : JSDate.Zone) (offset : Z) : Prop :=
  Z.abs offset <= JS.msPerDay
  /\ (forall t, JSDate.atUTC zone t = offset)
  /\ (forall t, JSDate.atLocal zone t = offset).

(** ** Facts about the runtime model *)

Lemma digit_value_range c :
  JS.is_digit c = true -> 0 <= JS.digit_value c <= 9.
Proof.
  unfold JS.is_digit, JS.digit_value. intros H.
  apply andb_prop in H as [H1 H2].
  apply Nat.leb_le in H1. apply Nat.leb_le in H2. lia.
Qed.

Lemma digits_go_range s : forall acc,
  allDigits s = true -> 0 <= acc ->
  exists v, JS.digits_go acc s = JS.Int v
            /\ acc * 10 ^ Z.of_nat (String.length s) <= v
            /\ v < (acc + 1) * 10 ^ Z.of_nat (String.length s).
Proof.
  induction s as [|c rest IH]; intros acc Hd Hacc.
  - exists acc. simpl. split; [reflexivity | lia].
  - simpl in Hd. apply andb_prop in Hd as [Hc Hrest].
    cbn [JS.digits_go]. rewrite Hc.
    pose proof (digit_value_range c Hc) as Hv.
    destruct (IH (10 * acc + JS.digit_value c) Hrest ltac:(lia))
      as (v & Hgo & Hlo & Hhi).
    exists v. split; [exact Hgo|].
    cbn [String.length]. rewrite Nat2Z.inj_succ, Z.pow_succ_r by lia.
    set (p := 10 ^ Z.of_nat (String.length rest)) in *.
    assert (0 < p) by (apply Z.pow_pos_nonneg; lia).
    nia.
Qed.

Lemma Number_digits s n :
  allDigits s = true -> String.length s = n ->
  exists v, JS.Number s = JS.Int v /\ 0 <= v < 10 ^ Z.of_nat n.
Proof.
  intros Hd <-. unfold JS.Number.
  destruct (digits_go_range s 0 Hd ltac:(lia)) as (v & Hgo & Hlo & Hhi).
  exists v. split; [exact Hgo | lia].
Qed.

Lemma DayOfMonthStart_bounds leap mn :
  0 <= JS.DayOfMonthStart leap mn <= 335.
Proof.
  unfold JS.DayOfMonthStart.
  destruct leap;
    repeat match goal with
           | |- context [match ?x with _ => _ end] => destruct x
           end; lia.
Qed.

Lemma MakeFullYear_range y :
  0 <= y <= 9999 -> 100 <= JS.MakeFullYear y <= 9999.
Proof.
  intros Hy. unfold JS.MakeFullYear.
  destruct (Z.leb_spec 0 y), (Z.leb_spec y 99); cbn [andb]; lia.
Qed.

Lemma MakeDay_bounds y m d :
  100 <= y <= 9999 -> -1 <= m <= 98 -> 0 <= d <= 99 ->
  -700000 <= JS.MakeDay y m d <= 3000000.
Proof.
  intros Hy Hm Hd. unfold JS.MakeDay, JS.DayFromYear.
  pose proof (DayOfMonthStart_bounds (JS.InLeapYear (y + m / 12)) (m mod 12)).
  Z.div_mod_to_equations. lia.
Qed.

(** Stepping to the next year adds the length of the year. *)
Lemma DayFromYear_succ y :
  JS.DayFromYear (y + 1)
  = JS.DayFromYear y + (if JS.InLeapYear y then 366 else 365).
Proof.
  unfold JS.DayFromYear, JS.InLeapYear.
  destruct (Z.eqb_spec (y mod 4) 0), (Z.eqb_spec (y mod 100) 0),
    (Z.eqb_spec (y mod 400) 0); cbn [negb andb orb];
    Z.div_mod_to_equations; lia.
Qed.

Lemma MakeDay_in_year y mn d :
  0 <= mn <= 11 ->
  JS.MakeDay y mn d
  = JS.DayFromYear y + JS.DayOfMonthStart (Calendar.isLeap y) mn + d - 1.
Proof.
  intros Hmn. unfold JS.MakeDay.
  rewrite Z.div_small, Z.mod_small, Z.add_0_r by lia. reflexivity.
Qed.

Lemma DayOfMonthStart_succ y m :
  1 <= m <= 11 ->
  JS.DayOfMonthStart (Calendar.isLeap y) m
  = JS.DayOfMonthStart (Calendar.isLeap y) (m - 1) + Calendar.daysInMonth y m.
Proof.
  intros Hm.
  assert (Hc : m = 1 \/ m = 2 \/ m = 3 \/ m = 4 \/ m = 5 \/ m = 6 \/ m = 7
               \/ m = 8 \/ m = 9 \/ m = 10 \/ m = 11) by lia.
  repeat (destruct Hc as [-> | Hc]); try subst m;
    unfold Calendar.daysInMonth; generalize (Calendar.isLeap y);
    intros []; reflexivity.
Qed.

(** The day number of the [Date] constructor counts calendar days: the
    day after a valid date has the next number. *)
Lemma dayNumber_next d :
  Calendar.valid d = true ->
  Calendar.dayNumber (Calendar.next d) = Calendar.dayNumber d + 1.
Proof.
  destruct d as [y m dd]. unfold Calendar.valid, Calendar.next, Calendar.dayNumber.
  cbn [Calendar.year Calendar.month Calendar.day]. intros Hv.
  repeat (apply andb_prop in Hv as [Hv ?]).
  apply Z.leb_le in Hv.
  repeat match goal with H : (_ <=? _) = true |- _ => apply Z.leb_le in H end.
  destruct (Z.ltb_spec dd (Calendar.daysInMonth y m)) as [Hlt|Hge].
  - cbn [Calendar.year Calendar.month Calendar.day]. unfold JS.MakeDay. lia.
  - assert (dd = Calendar.daysInMonth y m) as -> by lia.
    destruct (Z.ltb_spec m 12) as [Hm|Hm];
      cbn [Calendar.year Calendar.month Calendar.day].
    + rewrite !MakeDay_in_year by lia.
      replace (m + 1 - 1) with m by lia.
      rewrite (DayOfMonthStart_succ y m) by lia. lia.
    + assert (m = 12) as -> by lia.
      rewrite !MakeDay_in_year by lia.
      rewrite DayFromYear_succ.
      change (JS.InLeapYear y) with (Calendar.isLeap y).
      unfold Calendar.daysInMonth. change (12 - 1) with 11. change (1 - 1) with 0.
      generalize (Calendar.isLeap y). intros []; cbn; lia.
Qed.

Lemma valid_next d :
  Calendar.valid d = true -> Calendar.valid (Calendar.next d) = true.
Proof.
  destruct d as [y m dd]. unfold Calendar.valid, Calendar.next.
  cbn [Calendar.year Calendar.month Calendar.day]. intros Hv.
  repeat (apply andb_prop in Hv as [Hv ?]).
  apply Z.leb_le in Hv.
  repeat match goal with H : (_ <=? _) = true |- _ => apply Z.leb_le in H end.
  assert (Hdim : forall y' m', 28 <= Calendar.daysInMonth y' m').
  { intros y' m'. unfold Calendar.daysInMonth.
    repeat match goal with
           | |- context [match ?x with _ => _ end] => destruct x
           end; lia. }
  destruct (Z.ltb_spec dd (Calendar.daysInMonth y m)) as [Hlt|Hge];
    [|destruct (Z.ltb_spec m 12) as [Hm|Hm]];
    cbn [Calendar.year Calendar.month Calendar.day];
    repeat (apply andb_true_intro; split); apply Z.leb_le;
    try lia.
  - specialize (Hdim y (m + 1)). lia.
  - specialize (Hdim (y + 1) 1). lia.
Qed.

(** Moving [n] days forward from a valid date adds [n] to the day
    number. *)
Lemma dayNumber_addDays n : forall d,
  Calendar.valid d = true ->
  Calendar.dayNumber (Calendar.addDays n d) = Calendar.dayNumber d + Z.of_nat n.
Proof.
  induction n as [|n IH]; intros d Hv.
  - cbn. lia.
  - cbn [Calendar.addDays]. rewrite IH by (apply valid_next; exact Hv).
    rewrite dayNumber_next by exact Hv. lia.
Qed.

Lemma isoDate_fields s :
  isoDate s = true ->
  exists y m d,
    map JS.Number (JS.split "-" s) = [JS.Int y; JS.Int m; JS.Int d]
    /\ 0 <= y <= 9999 /\ 0 <= m <= 99 /\ 0 <= d <= 99.
Proof.
  unfold isoDate.
  destruct (JS.split "-" s) as [|y [|m [|d [|? ?]]]]; try discriminate.
  intros H.
  repeat (apply andb_prop in H as [H ?]).
  repeat match goal with
         | E : (_ =? _)%nat = true |- _ => apply Nat.eqb_eq in E
         end.
  destruct (Number_digits y 4) as (vy & Ey & Hy); [assumption..|].
  destruct (Number_digits m 2) as (vm & Em & Hm); [assumption..|].
  destruct (Number_digits d 2) as (vd & Ed & Hd); [assumption..|].
  exists vy, vm, vd. cbn [map]. rewrite Ey, Em, Ed.
  change (10 ^ Z.of_nat 4) with 10000 in Hy.
  change (10 ^ Z.of_nat 2) with 100 in Hm, Hd.
  repeat split; lia.
Qed.

Lemma localMidnight_iso LocalTZA s :
  boundedZone LocalTZA -> isoDate s = true ->
  exists y m d,
    map JS.Number (JS.split "-" s) = [JS.Int y; JS.Int m; JS.Int d]
    /\ 0 <= y <= 9999 /\ 0 <= m <= 99 /\ 0 <= d <= 99
    /\ localMidnight LocalTZA s
       = JS.Int (JS.UTC LocalTZA
                   (JS.MakeDay (JS.MakeFullYear y) (m - 1) d * JS.msPerDay)).
Proof.
  intros Hz Hs.
  destruct (isoDate_fields s Hs) as (y & m & d & Ef & Hy & Hm & Hd).
  exists y, m, d. repeat (split; [assumption|]).
  unfold localMidnight. rewrite Ef. cbn [nth JS.sub JS.Date_getTime].
  unfold JS.TimeClip, JS.UTC.
  pose proof (MakeFullYear_range y Hy) as Hfy.
  pose proof (MakeDay_bounds (JS.MakeFullYear y) (m - 1) d Hfy
                ltac:(lia) ltac:(lia)) as Hb.
  set (k := JS.MakeDay (JS.MakeFullYear y) (m - 1) d) in *.
  specialize (Hz (k * JS.msPerDay)). unfold JS.msPerDay in *.
  destruct (Z.ltb_spec 8640000000000000
              (Z.abs (k * 86400000 - LocalTZA (k * 86400000)))); [lia|].
  reflexivity.
Qed.

(** The double remainder of the source is the mathematical residue. *)
Lemma rem_add_rem k n :
  0 < n -> Z.rem (Z.rem k n + n) n = k mod n.
Proof.
  intros Hn.
  pose proof (Z.rem_bound_abs k n ltac:(lia)) as Hb.
  assert (Hr : 0 <= Z.rem k n + n) by lia.
  rewrite Z.rem_mod_nonneg by lia.
  rewrite <- (Z.mod_add k 1 n) by lia.
  pose proof (Z.quot_rem k n ltac:(lia)) as Hq.
  replace (k + 1 * n) with (Z.rem k n + n + (k ÷ n) * n) by lia.
  rewrite Z.mod_add by lia. reflexivity.
Qed.

Section LogicFacts.

Variable LocalTZA : Z -> Z.

Lemma dayInCycle_Int staff target k :
  diffDays LocalTZA staff target = JS.Int k ->
  1 <= StaffMember.patternOn staff + StaffMember.patternOff staff ->
  dayInCycle LocalTZA staff target
  = JS.Int (k mod (StaffMember.patternOn staff + StaffMember.patternOff staff)).
Proof.
  intros Hk Hlen. unfold dayInCycle, totalCycleLength. rewrite Hk.
  set (n := StaffMember.patternOn staff + StaffMember.patternOff staff) in *.
  cbn [JS.rem JS.add].
  destruct (Z.eqb_spec n 0) as [?|_]; [lia|].
  cbn [JS.add JS.rem].
  destruct (Z.eqb_spec n 0) as [?|_]; [lia|].
  rewrite rem_add_rem by lia. reflexivity.
Qed.

Lemma diffDays_iso staff target :
  boundedZone LocalTZA ->
  isoDate (StaffMember.cycleStartDate staff) = true ->
  isoDate target = true ->
  exists k, diffDays LocalTZA staff target = JS.Int k.
Proof.
  intros Hz Hs Ht. unfold diffDays.
  destruct (localMidnight_iso LocalTZA _ Hz Hs) as (? & ? & ? & _ & _ & _ & _ & ->).
  destruct (localMidnight_iso LocalTZA _ Hz Ht) as (? & ? & ? & _ & _ & _ & _ & ->).
  cbn [JS.sub JS.floor_div]. eexists. reflexivity.
Qed.

(** In a zone whose offset is the same at the two midnights, and for
    years that the constructor does not remap, the difference is the
    difference of the day numbers. *)
Lemma diffDays_same_offset staff target :
  let s := StaffMember.cycleStartDate staff in
  boundedZone LocalTZA ->
  isoDate s = true -> isoDate target = true ->
  100 <= Calendar.year (dateOf s) -> 100 <= Calendar.year (dateOf target) ->
  LocalTZA (Calendar.dayNumber (dateOf s) * JS.msPerDay)
  = LocalTZA (Calendar.dayNumber (dateOf target) * JS.msPerDay) ->
  diffDays LocalTZA staff target
  = JS.Int (Calendar.dayNumber (dateOf target) - Calendar.dayNumber (dateOf s)).
Proof.
  intros s Hz Hs Ht. unfold diffDays, dateOf, Calendar.dayNumber. fold s.
  destruct (localMidnight_iso LocalTZA _ Hz Hs) as (y1 & m1 & d1 & E1 & ? & ? & ? & ->).
  destruct (localMidnight_iso LocalTZA _ Hz Ht) as (y2 & m2 & d2 & E2 & ? & ? & ? & ->).
  rewrite E1, E2.
  cbn [nth Calendar.year Calendar.month Calendar.day JS.sub JS.floor_div].
  intros Hy1 Hy2 Hoff.
  assert (F : forall y, 100 <= y -> JS.MakeFullYear y = y).
  { intros y Hy. unfold JS.MakeFullYear.
    destruct (Z.leb_spec 0 y), (Z.leb_spec y 99); cbn [andb]; lia. }
  rewrite !F by assumption. unfold JS.UTC. rewrite Hoff.
  f_equal. unfold JS.msPerDay.
  change (1000 * 60 * 60 * 24) with 86400000.
  match goal with
  | |- (?a * _ - ?c - (?b * _ - ?c)) / _ = _ =>
      replace (a * 86400000 - c - (b * 86400000 - c))
        with ((a - b) * 86400000) by lia
  end.
  apply Z.div_mul. lia.
Qed.

End LogicFacts.

(** ** Override lookup *)

Lemma findOverride_dated staff d o :
  findOverride staff d = Some o ->
  ShiftOverride.date o = d /\ In o (overridesOrEmpty staff).
Proof.
  unfold findOverride, overridesOrEmpty.
  destruct (StaffMember.overrides staff) as [os|]; [|discriminate].
  intros H. apply find_some in H as [Hin Heq].
  apply String.eqb_eq in Heq. split; assumption.
Qed.

(** With at most one override per date, whichever override carries the
    date is the one that the lookup returns. *)
Lemma findOverride_unique staff d o :
  atMostOneFor d staff ->
  In o (overridesOrEmpty staff) -> ShiftOverride.date o = d ->
  findOverride staff d = Some o.
Proof.
  unfold atMostOneFor, findOverride, overridesOrEmpty, datedFor.
  destruct (StaffMember.overrides staff) as [os|]; [|intros _ []].
  induction os as [|x os IH]; intros Hone Hin Hd; [destruct Hin|].
  cbn [List.find List.filter] in *.
  destruct (String.eqb (ShiftOverride.date x) d) eqn:Ex.
  - destruct Hin as [->|Hin]; [reflexivity|].
    exfalso. cbn [length] in Hone.
    assert (Hf : In o (List.filter
                         (fun o0 => String.eqb (ShiftOverride.date o0) d) os)).
    { apply filter_In. split; [exact Hin|]. apply String.eqb_eq, Hd. }
    destruct (List.filter _ os); [destruct Hf | cbn in Hone; lia].
  - destruct Hin as [->|Hin].
    + apply String.eqb_neq in Ex. contradiction.
    + apply IH; assumption.
Qed.

(** The lookup returns the override for the date, and nothing when there
    is none. *)
Lemma findOverride_first staff d o :
  overrideFor d staff o -> findOverride staff d = Some o.
Proof.
  intros (before & after & Hl & Hbefore & Hd).
  unfold findOverride, overridesOrEmpty in *.
  destruct (StaffMember.overrides staff) as [os|];
    [|destruct before; discriminate Hl].
  subst os. induction before as [|x before IH]; cbn [app List.find].
  - apply String.eqb_eq in Hd. rewrite Hd. reflexivity.
  - assert (Hx : String.eqb (ShiftOverride.date x) d = false).
    { apply String.eqb_neq, Hbefore. left. reflexivity. }
    rewrite Hx. apply IH. intros y Hy. apply Hbefore. right. exact Hy.
Qed.

Lemma findOverride_none staff d :
  noOverrideFor d staff -> findOverride staff d = None.
Proof.
  unfold noOverrideFor, findOverride, overridesOrEmpty.
  destruct (StaffMember.overrides staff) as [os|]; [|reflexivity].
  induction os as [|x os IH]; intros Hno; [reflexivity|].
  cbn [List.find].
  assert (Hx : String.eqb (ShiftOverride.date x) d = false).
  { apply String.eqb_neq, Hno. left. reflexivity. }
  rewrite Hx. apply IH. intros y Hy. apply Hno. right. exact Hy.
Qed.

(** With at most one override per date, every entry of the list is the
    override for its date. *)
Lemma overrideFor_unique staff d o :
  atMostOneFor d staff ->
  In o (overridesOrEmpty staff) -> ShiftOverride.date o = d ->
  overrideFor d staff o.
Proof.
  intros Hone Hin Hd.
  pose proof (findOverride_unique staff d o Hone Hin Hd) as Hfind.
  unfold overrideFor. unfold findOverride, overridesOrEmpty in *.
  destruct (StaffMember.overrides staff) as [os|]; [|discriminate].
  clear Hone Hin. induction os as [|x os IH]; [discriminate|].
  cbn [List.find] in Hfind.
  destruct (String.eqb (ShiftOverride.date x) d) eqn:Ex.
  - injection Hfind as ->. exists [], os.
    split; [reflexivity|]. split; [intros y [] | exact Hd].
  - destruct (IH Hfind) as (before & after & -> & Hb & _).
    exists (x :: before), after.
    split; [reflexivity|]. split; [|exact Hd].
    intros y [<-|Hy]; [apply String.eqb_neq, Ex | apply Hb, Hy].
Qed.

(** ** The shift state *)

Section ShiftStateFacts.

Variable LocalTZA : Z -> Z.

(** C2. Let [o] be the override of the member for the day's date: an
    entry of the override list whose date is the day's canonical date
    string (the first such entry, should the list hold several). When
    [o] marks the day off, the state is the manual day off, whatever the
    pattern and whatever shift type [o] carries; when [o] does not mark
    the day off but carries a shift type, the state is a working day of
    that type, with the hollow visual and the half-shift label for Half
    and the solid visual and the normal-shift label otherwise, whatever
    the pattern. *)
Theorem calculateShiftState_override (staff : StaffMember.t)
  (day : DayStatus.t) (o : ShiftOverride.t) :
  overrideFor (DayStatus.fullDateStr day) staff o ->
  (ShiftOverride.isDayOff o = Some true ->
   calculateShiftState LocalTZA staff day
   = ShiftState.mk false Off VisualType.Dash "Day Off (Manual)")
  /\ (ShiftOverride.isDayOff o <> Some true ->
      (ShiftOverride.shiftType o = Some Half ->
       calculateShiftState LocalTZA staff day
       = ShiftState.mk true (Shift Half) VisualType.Hollow "Half Shift (Manual)")
      /\ (ShiftOverride.shiftType o = Some Normal ->
          calculateShiftState LocalTZA staff day
          = ShiftState.mk true (Shift Normal) VisualType.Solid
              "Normal Shift (Manual)")).
Proof.
  intros Hfor. apply findOverride_first in Hfor as Hfind.
  unfold calculateShiftState. rewrite Hfind. cbn [mbind option_bind].
  split.
  - intros ->. reflexivity.
  - intros Hoff.
    assert (JS.truthy_flag (ShiftOverride.isDayOff o) = false) as ->.
    { destruct (ShiftOverride.isDayOff o) as [[|]|]; try reflexivity.
      contradiction Hoff. reflexivity. }
    split; intros ->; reflexivity.
Qed.

(** C3. When no entry of the override list carries the day's date, or
    when the override for that date neither marks the day off nor carries
    a shift type, the state follows the pattern: off when the member is
    not working, a normal shift when working. *)
Theorem calculateShiftState_pattern (staff : StaffMember.t) (day : DayStatus.t) :
  noOverrideFor (DayStatus.fullDateStr day) staff
  \/ (exists o, overrideFor (DayStatus.fullDateStr day) staff o
                /\ ShiftOverride.isDayOff o <> Some true
                /\ ShiftOverride.shiftType o = None) ->
  (isStaffWorking LocalTZA staff (DayStatus.fullDateStr day) = false ->
   calculateShiftState LocalTZA staff day
   = ShiftState.mk false Off VisualType.Dash "Off")
  /\ (isStaffWorking LocalTZA staff (DayStatus.fullDateStr day) = true ->
      calculateShiftState LocalTZA staff day
      = ShiftState.mk true (Shift Normal) VisualType.Solid "Normal Shift").
Proof.
  intros H. unfold calculateShiftState.
  destruct H as [Hno | (o & Hfor & Hoff & Hty)].
  - rewrite (findOverride_none _ _ Hno). cbn [mbind option_bind JS.truthy_flag].
    split; intros ->; reflexivity.
  - rewrite (findOverride_first _ _ _ Hfor). cbn [mbind option_bind].
    rewrite Hty.
    assert (JS.truthy_flag (ShiftOverride.isDayOff o) = false) as ->.
    { destruct (ShiftOverride.isDayOff o) as [[|]|]; try reflexivity.
      contradiction Hoff. reflexivity. }
    split; intros ->; reflexivity.
Qed.

(** The five results that the calculator can return. *)
Lemma calculateShiftState_cases staff day :
  let st := calculateShiftState LocalTZA staff day in
  st = ShiftState.mk false Off VisualType.Dash "Day Off (Manual)"
  \/ st = ShiftState.mk true (Shift Half) VisualType.Hollow "Half Shift (Manual)"
  \/ st = ShiftState.mk true (Shift Normal) VisualType.Solid "Normal Shift (Manual)"
  \/ st = ShiftState.mk false Off VisualType.Dash "Off"
  \/ st = ShiftState.mk true (Shift Normal) VisualType.Solid "Normal Shift".
Proof.
  unfold calculateShiftState.
  destruct (JS.truthy_flag _); [tauto|].
  destruct (_ ≫= ShiftOverride.shiftType) as [[|]|]; [tauto..|].
  destruct (isStaffWorking _ _ _); cbn [negb]; tauto.
Qed.

(** C9. The state is coherent: working exactly when the type is not Off;
    the dash exactly when not working, the hollow visual exactly for a
    half shift, the solid visual exactly for a working normal shift; and
    the visual None is never produced. *)
Theorem calculateShiftState_coherent (staff : StaffMember.t) (day : DayStatus.t) :
  let st := calculateShiftState LocalTZA staff day in
  (ShiftState.isWorking st = true <-> ShiftState.shiftType st <> Off)
  /\ (ShiftState.visualType st = VisualType.Dash
      <-> ShiftState.isWorking st = false)
  /\ (ShiftState.visualType st = VisualType.Hollow
      <-> ShiftState.shiftType st = Shift Half)
  /\ (ShiftState.visualType st = VisualType.Solid
      <-> ShiftState.isWorking st = true
          /\ ShiftState.shiftType st = Shift Normal)
  /\ ShiftState.visualType st <> VisualType.None.
Proof.
  intros st. subst st.
  destruct (calculateShiftState_cases staff day) as [E|[E|[E|[E|E]]]];
    rewrite E; cbn;
    repeat split; intros; try discriminate; try congruence;
    try (match goal with H : _ /\ _ |- _ => destruct H end; discriminate).
Qed.

End ShiftStateFacts.

(** ** Shift times *)

(** C6. When the override for the date (the entry of the override list
    that carries the date string, the first should there be several) has
    a start time and an end time (a text that is present and not empty,
    as the code tests it), the result is exactly those two times; when
    the list has no entry for the date, or the override for the date
    lacks one of the two times, the result is the default window of the
    requested shift type alone: 08:00 to 13:00 for Half and 08:00 to
    17:00 otherwise. The pair is the [start] and the [end] of the
    result. *)
Theorem getShiftTimes_spec (staff : StaffMember.t) (dateStr : string)
  (shiftType : ShiftType) :
  (forall o s e,
      overrideFor dateStr staff o ->
      ShiftOverride.startTime o = Some s -> s <> "" ->
      ShiftOverride.endTime o = Some e -> e <> "" ->
      getShiftTimes staff dateStr shiftType = (s, e))
  /\ ((noOverrideFor dateStr staff
       \/ exists o, overrideFor dateStr staff o
                    /\ (JS.truthy_text (ShiftOverride.startTime o) = false
                        \/ JS.truthy_text (ShiftOverride.endTime o) = false)) ->
      (shiftType = Half -> getShiftTimes staff dateStr shiftType = ("08:00", "13:00"))
      /\ (shiftType <> Half ->
          getShiftTimes staff dateStr shiftType = ("08:00", "17:00"))).
Proof.
  unfold getShiftTimes. split.
  - intros o s e Hfor Hs Hs' He He'.
    rewrite (findOverride_first _ _ _ Hfor). cbn [mbind option_bind].
    rewrite Hs, He. cbn [JS.truthy_text default].
    apply String.eqb_neq in Hs'. apply String.eqb_neq in He'.
    rewrite Hs', He'. reflexivity.
  - intros H.
    assert (JS.truthy_text (findOverride staff dateStr ≫= ShiftOverride.startTime)
            && JS.truthy_text (findOverride staff dateStr ≫= ShiftOverride.endTime)
            = false) as ->.
    { destruct H as [Hno | (o & Hfor & [E|E])].
      - rewrite (findOverride_none _ _ Hno). reflexivity.
      - rewrite (findOverride_first _ _ _ Hfor). cbn [mbind option_bind].
        rewrite E. reflexivity.
      - rewrite (findOverride_first _ _ _ Hfor). cbn [mbind option_bind].
        rewrite E. apply andb_false_r. }
    split.
    + intros ->. reflexivity.
    + destruct shiftType; [reflexivity | contradiction].
Qed.

(** ** Fields that the calculator ignores *)

(** C10. The state does not depend on the member's default shift type nor
    on the employment status: two records that differ at most in these
    two fields give the same state on every day. In particular a member
    whose default is Half, with no override for the date, has a Normal
    working day on a working day of the pattern. *)
Theorem calculateShiftState_ignores_defaults (LocalTZA : Z -> Z)
  (a b : StaffMember.t) (day : DayStatus.t) :
  StaffMember.id a = StaffMember.id b ->
  StaffMember.name a = StaffMember.name b ->
  StaffMember.role a = StaffMember.role b ->
  StaffMember.cycleStartDate a = StaffMember.cycleStartDate b ->
  StaffMember.patternOn a = StaffMember.patternOn b ->
  StaffMember.patternOff a = StaffMember.patternOff b ->
  StaffMember.overrides a = StaffMember.overrides b ->
  calculateShiftState LocalTZA a day = calculateShiftState LocalTZA b day
  /\ (StaffMember.shiftType a = Half ->
      findOverride a (DayStatus.fullDateStr day) = None ->
      isStaffWorking LocalTZA a (DayStatus.fullDateStr day) = true ->
      calculateShiftState LocalTZA a day
      = ShiftState.mk true (Shift Normal) VisualType.Solid "Normal Shift").
Proof.
  intros _ _ _ Hcs Hon Hoff Hos. split.
  - unfold calculateShiftState, findOverride, isStaffWorking, dayInCycle,
      totalCycleLength, diffDays.
    rewrite Hcs, Hon, Hoff, Hos. reflexivity.
  - intros _ Hnone Hw. unfold calculateShiftState.
    rewrite Hnone, Hw. reflexivity.
Qed.

(** ** The cycle *)

(** Whenever the day difference is a number and the cycle is not empty,
    the day in the cycle is the residue of the difference, it lies in the
    cycle, and the member works exactly when it is below [patternOn]. *)
Lemma isStaffWorking_cycle LocalTZA staff target k :
  let n := StaffMember.patternOn staff + StaffMember.patternOff staff in
  diffDays LocalTZA staff target = JS.Int k -> 1 <= n ->
  dayInCycle LocalTZA staff target = JS.Int (k mod n)
  /\ 0 <= k mod n < n
  /\ (isStaffWorking LocalTZA staff target = true
      <-> k mod n < StaffMember.patternOn staff).
Proof.
  intros n Hk Hn. pose proof (dayInCycle_Int LocalTZA staff target k Hk Hn) as E.
  fold n in E. split; [exact E|]. split; [apply Z.mod_pos_bound; lia|].
  unfold isStaffWorking. rewrite E. cbn [JS.lt]. apply Z.ltb_lt.
Qed.

(** On a host at a constant two hours ahead of UTC, the difference of
    two dates from the year 100 on is the number of calendar days between
    them. *)
Lemma diffDays_Johannesburg staff target :
  let s := StaffMember.cycleStartDate staff in
  isoDate s = true -> isoDate target = true ->
  100 <= Calendar.year (dateOf s) -> 100 <= Calendar.year (dateOf target) ->
  diffDays tzJohannesburg staff target
  = JS.Int (Calendar.dayNumber (dateOf target) - Calendar.dayNumber (dateOf s)).
Proof.
  intros s Hs Ht Hy1 Hy2.
  apply diffDays_same_offset; try assumption; [|reflexivity].
  intros t. unfold tzJohannesburg, JS.msPerDay. lia.
Qed.

(** C1. The day difference is not always the number of calendar days. On
    a host in New York, for the member whose cycle of five days on and two
    days off starts on 2024-01-01, the date 2024-03-11 lies 70 calendar
    days after the start, a working day by the rule of the cycle
    (residue 0, below 5); the code finds 69 days, day 6 of the cycle, and
    answers not working, because the clocks moved forward on 2024-03-10.
    The same call on a host in Johannesburg finds 70 days and answers
    working. *)
Theorem isStaffWorking_daylight_saving :
  let staff := weekdayStaff None in
  Calendar.valid (dateOf "2024-01-01") = true
  /\ Calendar.addDays 70 (dateOf "2024-01-01") = dateOf "2024-03-11"
  /\ ((70 mod 7 + 7) mod 7 <? StaffMember.patternOn staff) = true
  /\ diffDays tzNewYork2024 staff "2024-03-11" = JS.Int 69
  /\ dayInCycle tzNewYork2024 staff "2024-03-11" = JS.Int 6
  /\ isStaffWorking tzNewYork2024 staff "2024-03-11" = false
  /\ diffDays tzJohannesburg staff "2024-03-11" = JS.Int 70
  /\ isStaffWorking tzJohannesburg staff "2024-03-11" = true.
Proof. vm_compute. repeat split. Qed.

(** The roster of the examples on a host in Johannesburg: Monday
    2024-01-01 to Friday 2024-01-05 are worked, the weekend is off, and
    the pattern continues backwards before the start of the cycle. *)
Lemma weekdayStaff_pattern :
  map (isStaffWorking tzJohannesburg (weekdayStaff None))
    ["2024-01-01"; "2024-01-02"; "2024-01-03"; "2024-01-04"; "2024-01-05";
     "2024-01-06"; "2024-01-07"; "2024-01-08"; "2023-12-25"; "2023-12-30";
     "2023-12-31"]
  = [true; true; true; true; true; false; false; true; true; false; false].
Proof. vm_compute. reflexivity. Qed.

(** The years 0 to 99 are read as 1900 to 1999 by the constructor: on a
    host at a constant offset the day after 0099-12-31 is found 693959
    days before it. *)
Lemma diffDays_two_digit_year :
  let staff :=
    StaffMember.mk "1" "Thandi" "Ranger" "0099-12-31" 5 2 Normal Permanent None in
  Calendar.next (dateOf "0099-12-31") = dateOf "0100-01-01"
  /\ diffDays tzJohannesburg staff "0100-01-01" = JS.Int (-693959).
Proof. vm_compute. repeat split. Qed.

(** ** The calculator at run time *)

Lemma bind_returns {A B : Type} (m : Runtime.M A) (k : A -> Runtime.M B) w a w' :
  m w = Runtime.Returns a w' -> Runtime.bind m k w = k a w'.
Proof. intros H. unfold Runtime.bind. rewrite H. reflexivity. Qed.

Lemma bind_throws {A B : Type} (m : Runtime.M A) (k : A -> Runtime.M B) w w' :
  m w = Runtime.Throws w' -> Runtime.bind m k w = Runtime.Throws w'.
Proof. intros H. unfold Runtime.bind. rewrite H. reflexivity. Qed.

Lemma deref_returns {A : Type} (heap : Runtime.world -> list A) r w x :
  r ≫= (fun l => heap w !! l) = Some x ->
  Runtime.deref heap r w = Runtime.Returns x w.
Proof. intros H. unfold Runtime.deref. rewrite H. reflexivity. Qed.

Lemma deref_throws {A : Type} (heap : Runtime.world -> list A) r w :
  r ≫= (fun l => heap w !! l) = None ->
  Runtime.deref heap r w = Runtime.Throws w.
Proof. intros H. unfold Runtime.deref. rewrite H. reflexivity. Qed.

(** *** Programs that only read *)

Lemma readOnly_ret {A : Type} (a : A) : readOnly (Runtime.ret a).
Proof. intros w. reflexivity. Qed.

Lemma readOnly_throw {A : Type} : readOnly (@Runtime.throw A).
Proof. intros w. reflexivity. Qed.

Lemma readOnly_deref {A : Type} (heap : Runtime.world -> list A) r :
  readOnly (Runtime.deref heap r).
Proof. intros w. unfold Runtime.deref. destruct (_ ≫= _); reflexivity. Qed.

Lemma readOnly_defined {A : Type} (v : option A) : readOnly (Runtime.defined v).
Proof. intros w. destruct v; reflexivity. Qed.

Lemma readOnly_hostZone : readOnly Runtime.hostZone.
Proof. intros w. reflexivity. Qed.

Lemma readOnly_bind {A B : Type} (m : Runtime.M A) (k : A -> Runtime.M B) :
  readOnly m -> (forall a, readOnly (k a)) -> readOnly (Runtime.bind m k).
Proof.
  intros Hm Hk w. unfold Runtime.bind. specialize (Hm w).
  destruct (m w) as [a w'|w']; cbn [Runtime.after] in *; subst w'.
  - apply Hk.
  - reflexivity.
Qed.

Lemma readOnly_findM {A : Type} (p : A -> Runtime.M bool) a :
  (forall x, readOnly (p x)) -> readOnly (Runtime.findM p a).
Proof.
  intros Hp. induction a as [|x a IH]; cbn [Runtime.findM].
  - apply readOnly_ret.
  - apply readOnly_bind; [apply Hp|]. intros [|]; [apply readOnly_ret | exact IH].
Qed.

Ltac read_only :=
  repeat first
    [ apply readOnly_ret
    | apply readOnly_throw
    | apply readOnly_deref
    | apply readOnly_defined
    | apply readOnly_hostZone
    | assumption
    | apply readOnly_bind; [|intros ?]
    | apply readOnly_findM; intros ?
    | match goal with
      | |- readOnly (if ?b then _ else _) => destruct b
      | |- readOnly (match ?x with _ => _ end) => destruct x
      end ].

Lemma isStaffWorkingM_readOnly staff target :
  readOnly (isStaffWorkingM staff target).
Proof. unfold isStaffWorkingM. read_only. Qed.

Lemma fullDateStrM_readOnly day : readOnly (fullDateStrM day).
Proof. unfold fullDateStrM. read_only. Qed.

Lemma findOverrideM_readOnly staff dateStr :
  readOnly dateStr -> readOnly (findOverrideM staff dateStr).
Proof. intros Hd. unfold findOverrideM, datedM. read_only. Qed.

Lemma calculateShiftStateM_readOnly staff day :
  readOnly (calculateShiftStateM staff day).
Proof.
  unfold calculateShiftStateM.
  apply readOnly_bind; [apply findOverrideM_readOnly, fullDateStrM_readOnly|].
  intros override. destruct (JS.truthy_flag _); [apply readOnly_ret|].
  destruct (_ ≫= ShiftOverride.shiftType) as [[|]|]; try apply readOnly_ret.
  apply readOnly_bind; [apply fullDateStrM_readOnly|]. intros d.
  apply readOnly_bind; [apply isStaffWorkingM_readOnly|]. intros b.
  destruct (negb b); apply readOnly_ret.
Qed.

Lemma getShiftTimesM_readOnly staff dateStr shiftType :
  readOnly (getShiftTimesM staff dateStr shiftType).
Proof.
  unfold getShiftTimesM.
  apply readOnly_bind; [apply findOverrideM_readOnly, readOnly_ret|].
  intros override. destruct (_ && _); [apply readOnly_ret|].
  destruct shiftType; apply readOnly_ret.
Qed.

(** *** The value on objects of the declared types *)

Lemma present_map {A : Type} (items : list (option A)) os :
  present items = Some os <-> items = map Some os.
Proof.
  revert os. induction items as [|[x|] items IH]; intros os; cbn [present].
  - split; [intros [= <-]; reflexivity | destruct os; [reflexivity|discriminate]].
  - destruct (present items) as [l|] eqn:E.
    + split.
      * intros [= <-]. cbn [map]. f_equal. apply IH. reflexivity.
      * destruct os as [|y os]; [discriminate|]. cbn [map]. intros [= -> H].
        apply IH in H. injection H as ->. reflexivity.
    + split; [discriminate|].
      destruct os as [|y os]; [discriminate|]. cbn [map]. intros [= -> H].
      apply IH in H. discriminate.
  - split; [discriminate|]. destruct os; discriminate.
Qed.

(** What [staffAt] says of the object behind the reference. *)
Lemma staffAt_object w r p :
  staffAt w r = Some p ->
  exists s,
    r ≫= (fun l => Runtime.staffObjects w !! l) = Some s
    /\ Runtime.cycleStartDate s = Some (StaffMember.cycleStartDate p)
    /\ Runtime.patternOn s = StaffMember.patternOn p
    /\ Runtime.patternOff s = StaffMember.patternOff p
    /\ Runtime.id s = StaffMember.id p
    /\ match Runtime.overrides s with
       | Some a =>
           StaffMember.overrides p <> None
           /\ Runtime.arrays w !! a = Some (map Some (overridesOrEmpty p))
       | None => StaffMember.overrides p = None
       end.
Proof.
  unfold staffAt. destruct (r ≫= _) as [s|]; [|discriminate].
  destruct (Runtime.cycleStartDate s) as [text|] eqn:Et; [|discriminate].
  intros H. exists s. split; [reflexivity|].
  destruct (Runtime.overrides s) as [a|].
  - destruct (Runtime.arrays w !! a) as [items|] eqn:Ea; [|discriminate].
    cbn [mbind option_bind] in H.
    destruct (present items) as [os|] eqn:Ep; [|discriminate].
    apply present_map in Ep. subst items.
    injection H as <-. cbn. repeat split; try assumption; discriminate.
  - injection H as <-. cbn. repeat split; assumption.
Qed.

Lemma isStaffWorkingM_run w staff p target :
  staffAt w staff = Some p ->
  isStaffWorkingM staff target w
  = Runtime.Returns (isStaffWorking (Runtime.zone w) p target) w.
Proof.
  intros H. destruct (staffAt_object w staff p H) as (s & Hs & Hcs & Hon & Hoff & _).
  pose proof (deref_returns Runtime.staffObjects staff w s Hs) as Hd.
  unfold isStaffWorkingM.
  rewrite (bind_returns _ _ _ _ _ Hd). rewrite Hcs.
  unfold Runtime.defined, Runtime.hostZone.
  unfold Runtime.bind at 1 2 3. unfold Runtime.ret at 1.
  rewrite (bind_returns _ _ _ _ _ Hd).
  rewrite (bind_returns _ _ _ _ _ Hd).
  rewrite (bind_returns _ _ _ _ _ Hd).
  rewrite Hon, Hoff. reflexivity.
Qed.

Lemma findM_present dateStr d w os :
  dateStr w = Runtime.Returns d w ->
  exists found,
    Runtime.findM (datedM dateStr) (map Some os) w = Runtime.Returns found w
    /\ mjoin found
       = List.find (fun o => String.eqb (ShiftOverride.date o) d) os.
Proof.
  intros Hd. induction os as [|o os IH]; cbn [map Runtime.findM List.find].
  - exists None. split; reflexivity.
  - assert (Hp : datedM dateStr (Some o) w
                 = Runtime.Returns (String.eqb (ShiftOverride.date o) d) w).
    { unfold datedM. cbn [Runtime.defined].
      unfold Runtime.bind at 1. unfold Runtime.ret at 1.
      rewrite (bind_returns _ _ _ _ _ Hd). reflexivity. }
    rewrite (bind_returns _ _ _ _ _ Hp).
    destruct (String.eqb (ShiftOverride.date o) d).
    + exists (Some (Some o)). split; reflexivity.
    + exact IH.
Qed.

Lemma findOverrideM_run w staff p dateStr d :
  staffAt w staff = Some p ->
  dateStr w = Runtime.Returns d w ->
  findOverrideM staff dateStr w = Runtime.Returns (findOverride p d) w.
Proof.
  intros H Hd.
  destruct (staffAt_object w staff p H) as (s & Hs & _ & _ & _ & _ & Hos).
  unfold findOverrideM.
  rewrite (bind_returns _ _ _ _ _ (deref_returns _ _ _ _ Hs)).
  unfold findOverride.
  destruct (Runtime.overrides s) as [a|].
  - destruct Hos as [Hsome Harr].
    rewrite (bind_returns _ _ _ _ _ (deref_returns Runtime.arrays (Some a) w _ Harr)).
    destruct (findM_present dateStr d w (overridesOrEmpty p) Hd) as (found & Hf & Hj).
    rewrite (bind_returns _ _ _ _ _ Hf). unfold Runtime.ret. rewrite Hj.
    unfold overridesOrEmpty.
    destruct (StaffMember.overrides p); [reflexivity | contradiction].
  - rewrite Hos. reflexivity.
Qed.

Lemma fullDateStrM_run w day d :
  dayAt w day = Some d ->
  fullDateStrM day w = Runtime.Returns (DayStatus.fullDateStr d) w.
Proof.
  intros H. unfold fullDateStrM.
  rewrite (bind_returns _ _ _ _ _ (deref_returns Runtime.days day w d H)).
  reflexivity.
Qed.

Lemma fullDateStrM_throws w day :
  dayAt w day = None -> fullDateStrM day w = Runtime.Throws w.
Proof.
  intros H. unfold fullDateStrM.
  rewrite (bind_throws _ _ _ _ (deref_throws Runtime.days day w H)).
  reflexivity.
Qed.

Lemma calculateShiftStateM_run w staff day p d :
  staffAt w staff = Some p -> dayAt w day = Some d ->
  calculateShiftStateM staff day w
  = Runtime.Returns (calculateShiftState (Runtime.zone w) p d) w.
Proof.
  intros Hp Hd. unfold calculateShiftStateM, calculateShiftState.
  rewrite (bind_returns _ _ _ _ _
             (findOverrideM_run w staff p _ _ Hp (fullDateStrM_run w day d Hd))).
  destruct (JS.truthy_flag _); [reflexivity|].
  destruct (_ ≫= ShiftOverride.shiftType) as [[|]|]; [reflexivity..|].
  rewrite (bind_returns _ _ _ _ _ (fullDateStrM_run w day d Hd)).
  rewrite (bind_returns _ _ _ _ _ (isStaffWorkingM_run w staff p _ Hp)).
  destruct (isStaffWorking _ _ _); reflexivity.
Qed.

Lemma getShiftTimesM_run w staff p dateStr shiftType :
  staffAt w staff = Some p ->
  getShiftTimesM staff dateStr shiftType w
  = Runtime.Returns (getShiftTimes p dateStr shiftType) w.
Proof.
  intros Hp. unfold getShiftTimesM, getShiftTimes.
  rewrite (bind_returns _ _ _ _ _
             (findOverrideM_run w staff p (Runtime.ret dateStr) dateStr Hp eq_refl)).
  destruct (_ && _); [reflexivity|]. destruct shiftType; reflexivity.
Qed.

(** ** Totality *)

(** C7. On well-formed input the three functions never throw. In a world
    where the staff reference and the day reference denote a staff
    member and a day of the declared types, [isStaffWorking],
    [calculateShiftState] and [getShiftTimes] each end by returning a
    value, none ends in a TypeError (which the same programs do throw
    when a reference or the start date is missing). When moreover the
    dates are written [YYYY-MM-DD], the cycle has at least one day, the
    pattern numbers are exact as doubles and the host's offset from UTC
    is within a day, no step produces NaN: the day in the cycle is a
    number inside the cycle, [isStaffWorking] returns whether it is below
    [patternOn], and the other two return the values that the member and
    the day determine. *)
Theorem calculator_total (w : Runtime.world) (staff day : option nat)
  (p : StaffMember.t) (d : DayStatus.t) (shiftType : ShiftType) :
  let target := DayStatus.fullDateStr d in
  let n := StaffMember.patternOn p + StaffMember.patternOff p in
  staffAt w staff = Some p -> dayAt w day = Some d ->
  (exists working st times,
      isStaffWorkingM staff target w = Runtime.Returns working w
      /\ calculateShiftStateM staff day w = Runtime.Returns st w
      /\ getShiftTimesM staff target shiftType w = Runtime.Returns times w)
  /\ (isoDate (StaffMember.cycleStartDate p) = true -> isoDate target = true ->
      1 <= n -> exactPattern p -> boundedZone (Runtime.zone w) ->
      exists k,
        dayInCycle (Runtime.zone w) p target = JS.Int k
        /\ 0 <= k < n
        /\ isStaffWorkingM staff target w
           = Runtime.Returns (k <? StaffMember.patternOn p) w
        /\ calculateShiftStateM staff day w
           = Runtime.Returns (calculateShiftState (Runtime.zone w) p d) w
        /\ getShiftTimesM staff target shiftType w
           = Runtime.Returns (getShiftTimes p target shiftType) w).
Proof.
  intros target n Hp Hd.
  pose proof (isStaffWorkingM_run w staff p target Hp) as Hw.
  pose proof (calculateShiftStateM_run w staff day p d Hp Hd) as Hst.
  pose proof (getShiftTimesM_run w staff p target shiftType Hp) as Ht.
  split.
  - eexists _, _, _. repeat split; eassumption.
  - intros Hs Hiso Hn _ Hz.
    destruct (diffDays_iso (Runtime.zone w) p target Hz Hs Hiso) as (j & Hj).
    destruct (isStaffWorking_cycle (Runtime.zone w) p target j Hj Hn)
      as (E & Hr & _).
    eexists. split; [exact E|]. split; [exact Hr|].
    split; [|split; assumption].
    rewrite Hw. f_equal. unfold isStaffWorking. rewrite E. reflexivity.
Qed.

(** ** Purity *)

(** C8. [calculateShiftState] changes nothing and depends on nothing but
    its inputs. However a call ends, the world after it is the world
    before it: the staff object, its array of overrides, every other
    object and the host's settings are as they were. When the references
    denote a staff member and a day, the call returns a state, and a call
    in any other world, at any other addresses, where the references
    denote the same member and the same day on a host with the same time
    zone, returns the same state. Two calls in a row that both return,
    return the same state. *)
Theorem calculateShiftState_pure (w : Runtime.world)
  (staff day : option nat) :
  Runtime.after (calculateShiftStateM staff day w) = w
  /\ (forall p d w' staff' day',
        staffAt w staff = Some p -> dayAt w day = Some d ->
        staffAt w' staff' = Some p -> dayAt w' day' = Some d ->
        Runtime.zone w' = Runtime.zone w ->
        exists st,
          calculateShiftStateM staff day w = Runtime.Returns st w
          /\ calculateShiftStateM staff' day' w' = Runtime.Returns st w')
  /\ (forall st1 st2 w',
        (x <- calculateShiftStateM staff day ;;
         y <- calculateShiftStateM staff day ;;
         Runtime.ret (x, y)) w
        = Runtime.Returns (st1, st2) w' ->
        st1 = st2 /\ w' = w).
Proof.
  split; [apply calculateShiftStateM_readOnly|]. split.
  - intros p d w' staff' day' Hp Hd Hp' Hd' Hz.
    exists (calculateShiftState (Runtime.zone w) p d). split.
    + apply calculateShiftStateM_run; assumption.
    + rewrite <- Hz. apply calculateShiftStateM_run; assumption.
  - intros st1 st2 w'. unfold Runtime.bind.
    pose proof (calculateShiftStateM_readOnly staff day w) as Hro.
    destruct (calculateShiftStateM staff day w) as [x w1|w1] eqn:E;
      [|discriminate].
    cbn [Runtime.after] in Hro. subst w1. rewrite E.
    unfold Runtime.ret. intros [= <- <- <-]. split; reflexivity.
Qed.

(** ** What the calculator throws *)

(** X18. Where the calculator throws. With an [undefined] staff
    reference the three functions throw a TypeError; with an [undefined]
    day, [calculateShiftState] throws whatever the staff reference is.
    For a staff object without start date, [isStaffWorking] throws, and
    so does [calculateShiftState] when the object has no array of
    overrides, while [getShiftTimes], which never reads the start date,
    returns the default window. In every case the world is left as it
    was. *)
Theorem calculator_throws (w : Runtime.world) (staff day : option nat)
  (dateStr : string) (shiftType : ShiftType) :
  (staff = None ->
   isStaffWorkingM staff dateStr w = Runtime.Throws w
   /\ calculateShiftStateM staff day w = Runtime.Throws w
   /\ getShiftTimesM staff dateStr shiftType w = Runtime.Throws w)
  /\ (day = None -> calculateShiftStateM staff day w = Runtime.Throws w)
  /\ (forall s,
        staff ≫= (fun l => Runtime.staffObjects w !! l) = Some s ->
        Runtime.cycleStartDate s = None ->
        isStaffWorkingM staff dateStr w = Runtime.Throws w
        /\ (Runtime.overrides s = None ->
            calculateShiftStateM staff day w = Runtime.Throws w
            /\ getShiftTimesM staff dateStr shiftType w
               = Runtime.Returns
                   (match shiftType with
                    | Half => ("08:00", "13:00")
                    | Normal => ("08:00", "17:00")
                    end) w)).
Proof.
  split; [|split].
  - intros ->. repeat split; reflexivity.
  - intros ->.
    pose proof (calculateShiftStateM_readOnly staff None w) as Hro.
    destruct (calculateShiftStateM staff None w) as [st w'|w'] eqn:E;
      cbn [Runtime.after] in Hro; subst w'; [exfalso|reflexivity].
    revert E. unfold calculateShiftStateM, findOverrideM.
    unfold Runtime.bind at 1 2.
    destruct (Runtime.deref Runtime.staffObjects staff w) as [s w1|w1] eqn:Es;
      [|discriminate].
    assert (w1 = w) as ->.
    { pose proof (readOnly_deref Runtime.staffObjects staff w) as H.
      rewrite Es in H. exact H. }
    destruct (Runtime.overrides s) as [a|].
    + unfold Runtime.bind at 1.
      destruct (Runtime.deref Runtime.arrays (Some a) w) as [items w1|w1] eqn:Ea;
        [|discriminate].
      assert (w1 = w) as ->.
      { pose proof (readOnly_deref Runtime.arrays (Some a) w) as H.
        rewrite Ea in H. exact H. }
      destruct items as [|[o|] items].
      * cbn. intros E. discriminate E.
      * cbn. intros E. discriminate E.
      * cbn. intros E. discriminate E.
    + cbn. intros E. discriminate E.
  - intros s Hs Hcs.
    pose proof (deref_returns Runtime.staffObjects staff w s Hs) as Hd.
    assert (Hthrow : forall t, isStaffWorkingM staff t w = Runtime.Throws w).
    { intros t. unfold isStaffWorkingM.
      rewrite (bind_returns _ _ _ _ _ Hd), Hcs. reflexivity. }
    split; [apply Hthrow|].
    intros Hos.
    assert (Hnone : forall e,
               findOverrideM staff e w = Runtime.Returns None w).
    { intros e. unfold findOverrideM.
      rewrite (bind_returns _ _ _ _ _ Hd), Hos. reflexivity. }
    split.
    + unfold calculateShiftStateM.
      rewrite (bind_returns _ _ _ _ _ (Hnone (fullDateStrM day))).
      cbn [mbind option_bind JS.truthy_flag].
      destruct (dayAt w day) as [d|] eqn:Ed.
      * rewrite (bind_returns _ _ _ _ _ (fullDateStrM_run w day d Ed)).
        rewrite (bind_throws _ _ _ _ (Hthrow _)). reflexivity.
      * rewrite (bind_throws _ _ _ _ (fullDateStrM_throws w day Ed)).
        reflexivity.
    + unfold getShiftTimesM.
      rewrite (bind_returns _ _ _ _ _ (Hnone (Runtime.ret dateStr))).
      destruct shiftType; reflexivity.
Qed.

(** ** The quick cycle at run time *)

Lemma delete_map {A B : Type} (f : A -> B) l : forall i,
  delete i (map f l) = map f (delete i l).
Proof.
  induction l as [|x l IH]; intros [|i]; cbn; try reflexivity.
  rewrite IH. reflexivity.
Qed.

Lemma lookup_last {A : Type} (l : list A) x : (l ++ [x]) !! length l = Some x.
Proof. apply list_lookup_middle. reflexivity. Qed.

Lemma insert_last {A : Type} (l : list A) x y :
  <[length l := y]> (l ++ [x]) = l ++ [y].
Proof.
  rewrite insert_app_r_alt by lia.
  replace (length l - length l)%nat with 0%nat by lia. reflexivity.
Qed.

Lemma extends_refl w : extends w w.
Proof. repeat split; reflexivity. Qed.

Lemma extends_trans w1 w2 w3 : extends w1 w2 -> extends w2 w3 -> extends w1 w3.
Proof.
  intros (S1 & A1 & D1 & Z1) (S2 & A2 & D2 & Z2). repeat split.
  - etransitivity; eassumption.
  - etransitivity; eassumption.
  - congruence.
  - congruence.
Qed.

(** What a reference denotes is kept by every larger world. *)
Lemma staffAt_extends w w' r m :
  extends w w' -> staffAt w r = Some m -> staffAt w' r = Some m.
Proof.
  intros (HS & HA & _ & _). unfold staffAt.
  destruct r as [l|]; [|discriminate]. cbn [mbind option_bind].
  destruct (Runtime.staffObjects w !! l) as [s|] eqn:Es; [|discriminate].
  rewrite (prefix_lookup_Some _ _ _ _ Es HS).
  destruct (Runtime.overrides s) as [a|]; [|auto].
  destruct (Runtime.arrays w !! a) as [items|] eqn:Ea.
  - rewrite (prefix_lookup_Some _ _ _ _ Ea HA). auto.
  - cbn [mbind option_bind]. destruct (Runtime.cycleStartDate s); discriminate.
Qed.

Lemma dayAt_extends w w' r : extends w w' -> dayAt w' r = dayAt w r.
Proof. intros (_ & _ & HD & _). unfold dayAt. rewrite HD. reflexivity. Qed.

Lemma extends_withArrays w x :
  extends w (Runtime.withArrays w (Runtime.arrays w ++ [x])).
Proof.
  repeat split; cbn; [reflexivity|]. apply prefix_app_r. reflexivity.
Qed.

Lemma findIndexM_present dateStr d w os :
  dateStr w = Runtime.Returns d w ->
  Runtime.findIndexM (datedM dateStr) (map Some os) w
  = Runtime.Returns
      (JS.findIndex (fun o => String.eqb (ShiftOverride.date o) d) os) w.
Proof.
  intros Hd. induction os as [|o os IH]; cbn [map Runtime.findIndexM JS.findIndex].
  - reflexivity.
  - assert (Hp : datedM dateStr (Some o) w
                 = Runtime.Returns (String.eqb (ShiftOverride.date o) d) w).
    { unfold datedM. cbn [Runtime.defined].
      unfold Runtime.bind at 1. unfold Runtime.ret at 1.
      rewrite (bind_returns _ _ _ _ _ Hd). reflexivity. }
    rewrite (bind_returns _ _ _ _ _ Hp).
    destruct (String.eqb (ShiftOverride.date o) d); [reflexivity|].
    rewrite (bind_returns _ _ _ _ _ IH). reflexivity.
Qed.

(** The array under construction is the last of the heap. *)
Lemma deref_last w x :
  Runtime.deref Runtime.arrays (Some (length (Runtime.arrays w)))
    (Runtime.withArrays w (Runtime.arrays w ++ [x]))
  = Runtime.Returns x (Runtime.withArrays w (Runtime.arrays w ++ [x])).
Proof. apply deref_returns. cbn. apply lookup_last. Qed.

Lemma setArray_last w x y :
  Runtime.setArray (length (Runtime.arrays w)) y
    (Runtime.withArrays w (Runtime.arrays w ++ [x]))
  = Runtime.Returns tt (Runtime.withArrays w (Runtime.arrays w ++ [y])).
Proof.
  unfold Runtime.setArray, Runtime.withArrays. cbn.
  rewrite insert_last. reflexivity.
Qed.

Lemma pushM_last w os e :
  pushM (length (Runtime.arrays w)) e
    (Runtime.withArrays w (Runtime.arrays w ++ [map Some os]))
  = Runtime.Returns tt
      (Runtime.withArrays w (Runtime.arrays w ++ [map Some (JS.push os e)])).
Proof.
  unfold pushM. rewrite (bind_returns _ _ _ _ _ (deref_last w _)).
  rewrite setArray_last. unfold JS.push. rewrite map_app. reflexivity.
Qed.

(** The fields of the object behind a reference that denotes [m]. *)
Lemma staffAt_fields w r m s :
  staffAt w r = Some m ->
  r ≫= (fun l => Runtime.staffObjects w !! l) = Some s ->
  Runtime.id s = StaffMember.id m
  /\ Runtime.name s = StaffMember.name m
  /\ Runtime.role s = StaffMember.role m
  /\ Runtime.cycleStartDate s = Some (StaffMember.cycleStartDate m)
  /\ Runtime.patternOn s = StaffMember.patternOn m
  /\ Runtime.patternOff s = StaffMember.patternOff m
  /\ Runtime.shiftType s = StaffMember.shiftType m
  /\ Runtime.status s = StaffMember.status m.
Proof.
  unfold staffAt. intros H Hs. rewrite Hs in H.
  destruct (Runtime.cycleStartDate s) as [text|]; [|discriminate].
  destruct (match Runtime.overrides s with Some _ => _ | None => _ end);
    [|discriminate].
  injection H as <-. cbn. repeat split.
Qed.

(** A new staff object whose array of overrides is the last array of
    the heap. *)
Lemma staffAt_new w s text os :
  Runtime.cycleStartDate s = Some text ->
  staffAt
    (Runtime.withStaffObjects
       (Runtime.withArrays w (Runtime.arrays w ++ [map Some os]))
       (Runtime.staffObjects w
        ++ [Runtime.mkStaff (Runtime.id s) (Runtime.name s) (Runtime.role s)
              (Runtime.cycleStartDate s) (Runtime.patternOn s)
              (Runtime.patternOff s) (Runtime.shiftType s) (Runtime.status s)
              (Some (length (Runtime.arrays w)))]))
    (Some (length (Runtime.staffObjects w)))
  = Some
      (StaffMember.mk (Runtime.id s) (Runtime.name s) (Runtime.role s) text
         (Runtime.patternOn s) (Runtime.patternOff s) (Runtime.shiftType s)
         (Runtime.status s) (Some os)).
Proof.
  intros Ht. unfold staffAt, Runtime.withStaffObjects, Runtime.withArrays.
  cbn [mbind option_bind Runtime.staffObjects Runtime.arrays].
  rewrite lookup_last.
  cbn [Runtime.overrides Runtime.cycleStartDate Runtime.id Runtime.name
         Runtime.role Runtime.patternOn Runtime.patternOff Runtime.shiftType
         Runtime.status].
  rewrite lookup_last. cbn [mbind option_bind].
  rewrite (proj2 (present_map (map Some os) os) eq_refl), Ht. reflexivity.
Qed.

(** One member cycled: the new object denotes the member that the
    function of the grid computes, in a larger world. *)
Lemma cycleMemberM_run w p day shiftState m d :
  staffAt w p = Some m -> dayAt w day = Some d ->
  exists l w',
    cycleMemberM p day shiftState w = Runtime.Returns (Some l) w'
    /\ extends w w'
    /\ length (Runtime.staffObjects w') = S (length (Runtime.staffObjects w))
    /\ staffAt w' (Some l)
       = Some (withOverrides m (cycledOverrides (Runtime.zone w) m d shiftState)).
Proof.
  intros Hm Hd.
  destruct (staffAt_object w p m Hm) as (s & Hs & _ & _ & _ & _ & Hos).
  destruct (staffAt_fields w p m s Hm Hs)
    as (Fid & Fname & Frole & Fcs & Fon & Foff & Fty & Fst).
  pose proof (deref_returns Runtime.staffObjects p w s Hs) as Hp.
  set (la := length (Runtime.arrays w)).
  set (W := fun os => Runtime.withArrays w (Runtime.arrays w ++ [map Some os])).
  assert (Hext : forall os, extends w (W os)) by (intros os; apply extends_withArrays).
  assert (HpW : forall os,
             Runtime.deref Runtime.staffObjects p (W os) = Runtime.Returns s (W os)).
  { intros os. apply deref_returns. exact Hs. }
  assert (HdW : forall os,
             fullDateStrM day (W os)
             = Runtime.Returns (DayStatus.fullDateStr d) (W os)).
  { intros os. apply fullDateStrM_run. exact Hd. }
  assert (Hpush : forall os e,
            pushM la e (W os) = Runtime.Returns tt (W (JS.push os e))).
  { intros os e. apply pushM_last. }
  (* the end of the callback, from any contents of the new array *)
  assert (Hend : forall os (phase : Runtime.M unit) os',
            phase (W os) = Runtime.Returns tt (W os') ->
            exists l w',
              (_ <- phase ;;
               s'' <- Runtime.deref Runtime.staffObjects p ;;
               l <- Runtime.newObject
                      (Runtime.mkStaff (Runtime.id s'') (Runtime.name s'')
                         (Runtime.role s'') (Runtime.cycleStartDate s'')
                         (Runtime.patternOn s'') (Runtime.patternOff s'')
                         (Runtime.shiftType s'') (Runtime.status s'')
                         (Some la)) ;;
               Runtime.ret (Some l)) (W os)
              = Runtime.Returns (Some l) w'
              /\ extends w w'
              /\ length (Runtime.staffObjects w')
                 = S (length (Runtime.staffObjects w))
              /\ staffAt w' (Some l) = Some (withOverrides m os')).
  { intros os phase os' Hphase.
    rewrite (bind_returns _ _ _ _ _ Hphase).
    rewrite (bind_returns _ _ _ _ _ (HpW os')).
    eexists _, _. split; [reflexivity|]. split; [|split].
    - repeat split; cbn; apply prefix_app_r; reflexivity.
    - cbn. rewrite List.length_app. cbn. lia.
    - etransitivity; [exact (staffAt_new w s _ os' Fcs)|].
      unfold withOverrides.
      rewrite Fid, Fname, Frole, Fon, Foff, Fty, Fst. reflexivity. }
  (* the copy of the array *)
  assert (Hcopy :
            (match Runtime.overrides s with
             | Some _ =>
                 s' <- Runtime.deref Runtime.staffObjects p ;;
                 items <- Runtime.deref Runtime.arrays (Runtime.overrides s') ;;
                 Runtime.newArray items
             | None => Runtime.newArray []
             end) w = Runtime.Returns la (W (overridesOrEmpty m))).
  { destruct (Runtime.overrides s) as [a|] eqn:Eo.
    - destruct Hos as [_ Harr]. rewrite (bind_returns _ _ _ _ _ Hp), Eo.
      rewrite (bind_returns _ _ _ _ _
                 (deref_returns Runtime.arrays (Some a) w _ Harr)).
      reflexivity.
    - unfold overridesOrEmpty. rewrite Hos. reflexivity. }
  unfold cycleMemberM. rewrite (bind_returns _ _ _ _ _ Hp).
  rewrite (bind_returns _ _ _ _ _ Hcopy). clear Hcopy.
  unfold W at 1. rewrite (bind_returns _ _ _ _ _ (deref_last w _)).
  fold (W (overridesOrEmpty m)).
  rewrite (bind_returns _ _ _ _ _
             (findIndexM_present _ _ _ (overridesOrEmpty m) (HdW _))).
  unfold cycledOverrides. fold (overridesOrEmpty m).
  set (dstr := DayStatus.fullDateStr d) in *.
  set (idx := JS.findIndex _ (overridesOrEmpty m)).
  set (os1 := if 0 <=? idx then JS.splice1 idx (overridesOrEmpty m)
              else overridesOrEmpty m).
  assert (Hsplice :
            (if 0 <=? idx
             then items' <- Runtime.deref Runtime.arrays (Some la) ;;
                  Runtime.setArray la (JS.splice1 idx items')
             else Runtime.ret tt) (W (overridesOrEmpty m))
            = Runtime.Returns tt (W os1)).
  { unfold os1. destruct (0 <=? idx); [|reflexivity].
    unfold W at 1. rewrite (bind_returns _ _ _ _ _ (deref_last w _)).
    unfold la. rewrite setArray_last. unfold JS.splice1.
    rewrite delete_map. reflexivity. }
  rewrite (bind_returns _ _ _ _ _ Hsplice). clear Hsplice.
  destruct (nextState shiftState) as [[|]|].
  - assert (Hw : isStaffWorkingM p dstr (W os1)
                 = Runtime.Returns (isStaffWorking (Runtime.zone w) m dstr) (W os1)).
    { apply (isStaffWorkingM_run (W os1) p m dstr).
      apply (staffAt_extends w); [apply Hext | exact Hm]. }
    apply Hend.
    rewrite (bind_returns _ _ _ _ _ (HdW os1)).
    rewrite (bind_returns _ _ _ _ _ Hw).
    destruct (isStaffWorking (Runtime.zone w) m dstr); cbn [negb].
    + reflexivity.
    + rewrite (bind_returns _ _ _ _ _ (HdW os1)). apply Hpush.
  - apply Hend. rewrite (bind_returns _ _ _ _ _ (HdW os1)). apply Hpush.
  - apply Hend. rewrite (bind_returns _ _ _ _ _ (HdW os1)). apply Hpush.
Qed.

Lemma mapM_run (f : option nat -> Runtime.M (option nat))
  (g : StaffMember.t -> StaffMember.t) (sel : StaffMember.t -> bool) w0 :
  (forall w r m,
      extends w0 w -> staffAt w r = Some m ->
      exists r' w',
        f r w = Runtime.Returns r' w' /\ extends w w'
        /\ length (Runtime.staffObjects w')
           = (length (Runtime.staffObjects w) + if sel m then 1 else 0)%nat
        /\ staffAt w' r' = Some (g m)) ->
  forall staff members w,
    extends w0 w ->
    Forall2 (fun r m => staffAt w r = Some m) staff members ->
    exists newStaff w',
      Runtime.mapM f staff w = Runtime.Returns newStaff w'
      /\ extends w w'
      /\ length (Runtime.staffObjects w')
         = (length (Runtime.staffObjects w)
            + length (List.filter sel members))%nat
      /\ Forall2 (fun r m => staffAt w' r = Some m) newStaff (map g members).
Proof.
  intros Hf staff. induction staff as [|r staff IH]; intros members w Hw Hall.
  - inversion Hall; subst. exists [], w. split; [reflexivity|].
    split; [apply extends_refl|]. split; [cbn; lia | constructor].
  - inversion Hall as [|? m ? members' Hr Hrest]; subst.
    destruct (Hf w r m Hw Hr) as (r' & w1 & Hrun & H1 & Hlen1 & Hr').
    assert (Hrest1 : Forall2 (fun r m => staffAt w1 r = Some m) staff members').
    { eapply Forall2_impl; [exact Hrest|]. cbn. intros x y Hxy.
      apply (staffAt_extends w); assumption. }
    destruct (IH members' w1 (extends_trans _ _ _ Hw H1) Hrest1)
      as (newStaff & w2 & Hrun2 & H2 & Hlen2 & Hall2).
    exists (r' :: newStaff), w2. cbn [Runtime.mapM map].
    rewrite (bind_returns _ _ _ _ _ Hrun), (bind_returns _ _ _ _ _ Hrun2).
    split; [reflexivity|]. split; [eapply extends_trans; eassumption|].
    split.
    + rewrite Hlen2, Hlen1. cbn [List.filter].
      destruct (sel m); cbn [length]; lia.
    + constructor; [|exact Hall2]. apply (staffAt_extends w1); assumption.
Qed.

(** X19. The quick cycle updates by copy. Run over a heap where the
    references of the grid denote staff members and the day reference
    denotes a day, [handleQuickCycle] returns normally, and the world it
    leaves is the old one with new objects added, one staff object for
    every member that has the id of the person clicked: every object and
    every array that existed before the click is as it was, so every
    reference denotes after the click what it denoted before, the list
    on display included; the days and the time zone are the same. When
    the dates are written [YYYY-MM-DD], the pattern numbers are exact as
    doubles and the host's offset is within a day, the references
    returned denote exactly the list that the function of the grid
    computes. *)
Theorem handleQuickCycleM_copies (w : Runtime.world)
  (staff : list (option nat)) (person day : option nat)
  (shiftState : ShiftState.t) (members : list StaffMember.t)
  (q : StaffMember.t) (d : DayStatus.t) :
  Forall2 (fun r m => staffAt w r = Some m) staff members ->
  staffAt w person = Some q -> dayAt w day = Some d ->
  exists newStaff w',
    handleQuickCycleM staff true person day shiftState w
    = Runtime.Returns (Some newStaff) w'
    /\ length newStaff = length staff
    /\ extends w w'
    /\ length (Runtime.staffObjects w')
       = (length (Runtime.staffObjects w)
          + length
              (List.filter
                 (fun m => String.eqb (StaffMember.id m) (StaffMember.id q))
                 members))%nat
    /\ (forall r m, staffAt w r = Some m -> staffAt w' r = Some m)
    /\ (forall r, dayAt w' r = dayAt w r)
    /\ (boundedZone (Runtime.zone w) ->
        isoDate (DayStatus.fullDateStr d) = true ->
        (forall m, In m members ->
                   isoDate (StaffMember.cycleStartDate m) = true
                   /\ exactPattern m) ->
        exists newMembers,
          handleQuickCycle (Runtime.zone w) members true q d shiftState
          = Some newMembers
          /\ Forall2 (fun r m => staffAt w' r = Some m) newStaff newMembers).
Proof.
  intros Hall Hq Hd.
  set (sel := fun m => String.eqb (StaffMember.id m) (StaffMember.id q)).
  set (g := fun p =>
              if negb (String.eqb (StaffMember.id p) (StaffMember.id q)) then p
              else withOverrides p (cycledOverrides (Runtime.zone w) p d shiftState)).
  set (f := fun p =>
              a <- Runtime.deref Runtime.staffObjects p ;;
              b <- Runtime.deref Runtime.staffObjects person ;;
              if negb (String.eqb (Runtime.id a) (Runtime.id b)) then Runtime.ret p
              else cycleMemberM p day shiftState).
  assert (Hf : forall w1 r m,
             extends w w1 -> staffAt w1 r = Some m ->
             exists r' w',
               f r w1 = Runtime.Returns r' w' /\ extends w1 w'
               /\ length (Runtime.staffObjects w')
                  = (length (Runtime.staffObjects w1) + if sel m then 1 else 0)%nat
               /\ staffAt w' r' = Some (g m)).
  { intros w1 r m Hw1 Hr.
    destruct (staffAt_object w1 r m Hr) as (a & Ha & _ & _ & _ & Ida & _).
    pose proof (staffAt_extends w w1 person q Hw1 Hq) as Hq1.
    destruct (staffAt_object w1 person q Hq1) as (b & Hb & _ & _ & _ & Idb & _).
    unfold f, g, sel.
    rewrite (bind_returns _ _ _ _ _ (deref_returns _ _ _ _ Ha)).
    rewrite (bind_returns _ _ _ _ _ (deref_returns _ _ _ _ Hb)).
    rewrite Ida, Idb.
    destruct (String.eqb (StaffMember.id m) (StaffMember.id q)); cbn [negb].
    - destruct (cycleMemberM_run w1 r day shiftState m d Hr)
        as (l & w' & Hrun & He & Hlen & Hl).
      { rewrite (dayAt_extends w w1 day Hw1). exact Hd. }
      exists (Some l), w'. split; [exact Hrun|]. split; [exact He|].
      split; [lia|].
      rewrite Hl. destruct Hw1 as (_ & _ & _ & ->). reflexivity.
    - exists r, w1. split; [reflexivity|]. split; [apply extends_refl|].
      split; [lia | exact Hr]. }
  destruct (mapM_run f g sel w Hf staff members w (extends_refl w) Hall)
    as (newStaff & w' & Hrun & Hext & Hlen & Hnew).
  exists newStaff, w'.
  split; [|split; [|split; [|split; [|split; [|split]]]]].
  - unfold handleQuickCycleM. cbn [negb]. fold f.
    rewrite (bind_returns _ _ _ _ _ Hrun). reflexivity.
  - apply Forall2_length in Hnew. apply Forall2_length in Hall.
    rewrite length_map in Hnew. lia.
  - exact Hext.
  - exact Hlen.
  - intros r m. apply staffAt_extends. exact Hext.
  - intros r. apply dayAt_extends. exact Hext.
  - intros _ _ _. exists (map g members). split; [reflexivity | exact Hnew].
Qed.

(** ** The quick cycle *)

Lemma findIndex_lower {A : Type} (P : A -> bool) l : -1 <= JS.findIndex P l.
Proof.
  induction l as [|x l IH]; cbn [JS.findIndex]; [lia|].
  destruct (P x); [lia|]. destruct (Z.ltb_spec (JS.findIndex P l) 0); lia.
Qed.

Lemma filter_negb_all {A : Type} (P : A -> bool) l :
  List.filter P l = [] -> List.filter (fun x => negb (P x)) l = l.
Proof.
  induction l as [|x l IH]; cbn [List.filter]; [reflexivity|].
  destruct (P x); [discriminate|]. intros H. cbn [negb]. f_equal. apply IH, H.
Qed.

(** Removing the first match removes every match when there is at most
    one. *)
Lemma splice_findIndex {A : Type} (P : A -> bool) l :
  (length (List.filter P l) <= 1)%nat ->
  (if 0 <=? JS.findIndex P l then JS.splice1 (JS.findIndex P l) l else l)
  = List.filter (fun x => negb (P x)) l.
Proof.
  induction l as [|x l IH]; [reflexivity|].
  cbn [List.filter JS.findIndex]. destruct (P x) eqn:Px; cbn [negb length].
  - intros Hone.
    assert (E : List.filter P l = [])
      by (destruct (List.filter P l); [reflexivity | cbn in Hone; lia]).
    rewrite (filter_negb_all P l E). reflexivity.
  - intros Hone. specialize (IH Hone).
    pose proof (findIndex_lower P l) as Hlo.
    destruct (Z.ltb_spec (JS.findIndex P l) 0) as [Hneg|Hpos].
    + destruct (Z.leb_spec 0 (JS.findIndex P l)) as [?|_]; [lia|].
      cbn. f_equal. exact IH.
    + destruct (Z.leb_spec 0 (JS.findIndex P l)) as [_|?]; [|lia].
      destruct (Z.leb_spec 0 (JS.findIndex P l + 1)) as [_|?]; [|lia].
      unfold JS.splice1 in *.
      replace (Z.to_nat (JS.findIndex P l + 1))
        with (S (Z.to_nat (JS.findIndex P l))) by lia.
      cbn. f_equal. exact IH.
Qed.

Lemma find_filter_negb_app {A : Type} (P : A -> bool) l l' :
  List.find P (List.filter (fun x => negb (P x)) l ++ l') = List.find P l'.
Proof.
  induction l as [|x l IH]; cbn [List.filter]; [reflexivity|].
  destruct (P x) eqn:Px; cbn [negb]; [exact IH|].
  cbn [app List.find]. rewrite Px. exact IH.
Qed.

Lemma filter_filter_negb_app {A : Type} (P : A -> bool) l l' :
  List.filter P (List.filter (fun x => negb (P x)) l ++ l') = List.filter P l'.
Proof.
  induction l as [|x l IH]; cbn [List.filter]; [reflexivity|].
  destruct (P x) eqn:Px; cbn [negb]; [exact IH|].
  cbn [app List.filter]. rewrite Px. exact IH.
Qed.



Lemma lookup_map {A B : Type} (f : A -> B) (l : list A) (i : nat) :
  map f l !! i = f <$> (l !! i).
Proof.
  revert i. induction l as [|x l IH]; intros [|i]; cbn; try reflexivity.
  apply IH.
Qed.

Section QuickCycleFacts.

Variable LocalTZA : Z -> Z.

Lemma cycledOverrides_unique p day shiftState :
  let d := DayStatus.fullDateStr day in
  atMostOneFor d p ->
  cycledOverrides LocalTZA p day shiftState
  = otherDates d p
    ++ match nextState shiftState with
       | Off => [dayOffEntry d]
       | Shift Half => [halfEntry d]
       | Shift Normal =>
           if isStaffWorking LocalTZA p d then [] else [normalEntry d]
       end.
Proof.
  intros d Hone. unfold cycledOverrides. fold d. fold (overridesOrEmpty p).
  change (fun o => String.eqb (ShiftOverride.date o) d) with (datedFor d).
  rewrite (splice_findIndex (datedFor d) (overridesOrEmpty p) Hone).
  fold (otherDates d p).
  destruct (nextState shiftState) as [[|]|]; try reflexivity.
  destruct (isStaffWorking LocalTZA p d); cbn [negb];
    [symmetry; apply app_nil_r | reflexivity].
Qed.

Lemma findOverride_written p d l :
  findOverride (withOverrides p (otherDates d p ++ l)) d
  = List.find (datedFor d) l.
Proof.
  unfold findOverride, withOverrides, otherDates. cbn [StaffMember.overrides].
  apply (find_filter_negb_app (datedFor d)).
Qed.

Lemma atMostOneFor_written p d l :
  (length (List.filter (datedFor d) l) <= 1)%nat ->
  atMostOneFor d (withOverrides p (otherDates d p ++ l)).
Proof.
  unfold atMostOneFor, withOverrides, otherDates, overridesOrEmpty at 1.
  cbn [StaffMember.overrides].
  rewrite (filter_filter_negb_app (datedFor d)). trivial.
Qed.


Lemma datedFor_refl d f1 f2 f3 f4 :
  datedFor d (ShiftOverride.mk d f1 f2 f3 f4) = true.
Proof. unfold datedFor. cbn. apply String.eqb_refl. Qed.

End QuickCycleFacts.

(** Lookups and counts over the entries that the cycle writes. *)
Ltac written :=
  unfold dayOffEntry, halfEntry, normalEntry;
  cbn [List.filter List.find];
  rewrite ?datedFor_refl;
  cbn [negb length app List.filter].

Lemma filter_filter_length {A : Type} (P Q : A -> bool) l :
  (length (List.filter P (List.filter Q l)) <= length (List.filter P l))%nat.
Proof.
  induction l as [|x l IH]; cbn [List.filter]; [lia|].
  destruct (Q x), (P x) eqn:Px; cbn [List.filter length]; rewrite ?Px;
    cbn [length]; lia.
Qed.

(** The quick cycle keeps the invariant of the data model: a member with
    at most one override per date still has at most one override per date
    after a click. *)
Lemma cycleMember_invariant LocalTZA p day :
  (forall d, atMostOneFor d p) ->
  forall d, atMostOneFor d (cycleMember LocalTZA p day).
Proof.
  intros Hinv d'. unfold cycleMember.
  rewrite (cycledOverrides_unique LocalTZA p day _
             (Hinv (DayStatus.fullDateStr day))).
  set (d := DayStatus.fullDateStr day).
  destruct (String.eqb_spec d d') as [<-|Hne].
  - apply atMostOneFor_written.
    destruct (nextState _) as [[|]|];
      [destruct (isStaffWorking LocalTZA p d)|..]; written; lia.
  - unfold atMostOneFor, withOverrides, overridesOrEmpty at 1.
    cbn [StaffMember.overrides]. rewrite List.filter_app, List.length_app.
    pose proof (filter_filter_length (datedFor d')
                  (fun o => negb (datedFor d o)) (overridesOrEmpty p)) as Hle.
    fold (otherDates d p) in Hle. specialize (Hinv d'). unfold atMostOneFor in Hinv.
    assert (Hnew : forall f1 f2 f3 f4,
               datedFor d' (ShiftOverride.mk d f1 f2 f3 f4) = false).
    { intros. unfold datedFor. cbn. apply String.eqb_neq, Hne. }
    destruct (nextState _) as [[|]|];
      [destruct (isStaffWorking LocalTZA p d)|..];
      unfold dayOffEntry, halfEntry, normalEntry; cbn [List.filter];
      rewrite ?Hnew; cbn [length]; lia.
Qed.


(** C4. The quick cycle advances a working Normal state to Half, Half to
    Off, and Off or a state that is not working to Normal, and hands the
    callback the staff list in which the members with another id are
    untouched and the clicked member, holding at most one override for
    the date, has the overrides of the other dates followed by: the
    day-off entry when advancing to Off; the Half entry with the Half
    default times when advancing to Half; nothing when advancing to
    Normal on a day that the pattern already works; and otherwise the
    entry that makes the day a working Normal day by hand. *)
Theorem handleQuickCycle_spec (LocalTZA : Z -> Z) (staff : list StaffMember.t)
  (person : StaffMember.t) (day : DayStatus.t) (shiftState : ShiftState.t)
  (i : nat) (p : StaffMember.t) :
  let d := DayStatus.fullDateStr day in
  staff !! i = Some p ->
  atMostOneFor d p ->
  ((ShiftState.shiftType shiftState = Shift Normal ->
    ShiftState.isWorking shiftState = true -> nextState shiftState = Shift Half)
   /\ (ShiftState.shiftType shiftState = Shift Half -> nextState shiftState = Off)
   /\ (ShiftState.shiftType shiftState = Off ->
       nextState shiftState = Shift Normal)
   /\ (ShiftState.isWorking shiftState = false ->
       ShiftState.shiftType shiftState <> Shift Half ->
       nextState shiftState = Shift Normal))
  /\ exists newStaff,
      handleQuickCycle LocalTZA staff true person day shiftState = Some newStaff
      /\ length newStaff = length staff
      /\ (StaffMember.id p <> StaffMember.id person -> newStaff !! i = Some p)
      /\ (StaffMember.id p = StaffMember.id person ->
          exists os,
            newStaff !! i = Some (withOverrides p os)
            /\ atMostOneFor d (withOverrides p os)
            /\ (nextState shiftState = Off ->
                os = otherDates d p ++ [dayOffEntry d])
            /\ (nextState shiftState = Shift Half ->
                os = otherDates d p ++ [halfEntry d])
            /\ (nextState shiftState = Shift Normal ->
                isStaffWorking LocalTZA p d = true ->
                os = otherDates d p
                /\ findOverride (withOverrides p os) d = None)
            /\ (nextState shiftState = Shift Normal ->
                isStaffWorking LocalTZA p d = false ->
                os = otherDates d p ++ [normalEntry d]
                /\ calculateShiftState LocalTZA (withOverrides p os) day
                   = ShiftState.mk true (Shift Normal) VisualType.Solid
                       "Normal Shift (Manual)")).
Proof.
  intros d Hp Hone. split.
  - unfold nextState.
    destruct shiftState as [[|] [[|]|] v l]; vm_compute;
      repeat split; intros; congruence.
  - unfold handleQuickCycle. cbn [negb]. eexists. split; [reflexivity|].
    split; [apply length_map|].
    rewrite lookup_map, Hp. cbn [fmap option_fmap option_map]. split.
    + intros Hid. apply String.eqb_neq in Hid. rewrite Hid. reflexivity.
    + intros Hid. rewrite Hid, String.eqb_refl. cbn [negb].
      eexists. split; [reflexivity|].
      rewrite (cycledOverrides_unique LocalTZA p day shiftState Hone). fold d.
      split.
      { apply atMostOneFor_written.
        destruct (nextState shiftState) as [[|]|];
          [destruct (isStaffWorking LocalTZA p d)|..]; written; lia. }
      split; [intros ->; reflexivity|].
      split; [intros ->; reflexivity|].
      split; intros -> ->; cbn [negb]; split.
      * apply app_nil_r.
      * rewrite findOverride_written. reflexivity.
      * reflexivity.
      * unfold calculateShiftState. fold d.
        rewrite findOverride_written. written. reflexivity.
Qed.


(** ** The theorems at work on the roster of the examples *)

(** Tuesday 2024-01-02 is a working day of the pattern; the override
    that marks it off wins, over the shift type it carries and past the
    entry of another date that stands before it in the list. Saturday
    2024-01-06 is an off day of the pattern; an override with the Half
    type makes it a working half shift. *)
Lemma calculateShiftState_override_witness :
  calculateShiftState tzJohannesburg
    (weekdayStaff
       (Some [ShiftOverride.mk "2024-01-03" None None None (Some Half);
              ShiftOverride.mk "2024-01-02" None None (Some true) (Some Half)]))
    (dayOf "2024-01-02")
  = ShiftState.mk false Off VisualType.Dash "Day Off (Manual)"
  /\ calculateShiftState tzJohannesburg
       (weekdayStaff
          (Some [ShiftOverride.mk "2024-01-06" None None None (Some Half)]))
       (dayOf "2024-01-06")
     = ShiftState.mk true (Shift Half) VisualType.Hollow "Half Shift (Manual)".
Proof.
  split.
  - apply (calculateShiftState_override tzJohannesburg _ (dayOf "2024-01-02")
             (ShiftOverride.mk "2024-01-02" None None (Some true) (Some Half))).
    + exists [ShiftOverride.mk "2024-01-03" None None None (Some Half)], [].
      split; [reflexivity|]. split; [|reflexivity].
      intros x [<-|[]]. discriminate.
    + reflexivity.
  - apply (calculateShiftState_override tzJohannesburg _ (dayOf "2024-01-06")
             (ShiftOverride.mk "2024-01-06" None None None (Some Half))).
    + exists [], []. split; [reflexivity|]. split; [intros x []|reflexivity].
    + discriminate.
    + reflexivity.
Defined.

(** With a day off by hand on Wednesday only, Friday 2024-01-05 is a
    normal shift and Saturday 2024-01-06 is off, as the pattern says. *)
Lemma calculateShiftState_pattern_witness :
  let staff := weekdayStaff (Some [dayOffEntry "2024-01-03"]) in
  calculateShiftState tzJohannesburg staff (dayOf "2024-01-05")
  = ShiftState.mk true (Shift Normal) VisualType.Solid "Normal Shift"
  /\ calculateShiftState tzJohannesburg staff (dayOf "2024-01-06")
     = ShiftState.mk false Off VisualType.Dash "Off".
Proof.
  intros staff. split.
  - apply (calculateShiftState_pattern tzJohannesburg staff (dayOf "2024-01-05")).
    + left. intros x [<-|[]]. discriminate.
    + vm_compute. reflexivity.
  - apply (calculateShiftState_pattern tzJohannesburg staff (dayOf "2024-01-06")).
    + left. intros x [<-|[]]. discriminate.
    + vm_compute. reflexivity.
Defined.

(** An override with both times gives them back, also when an entry of
    another date stands before it; the times of another date are not
    used; without an override the defaults apply. *)
Lemma getShiftTimes_spec_witness :
  let staff :=
    weekdayStaff
      (Some [ShiftOverride.mk "2024-01-03" (Some "10:00") (Some "12:00")
               None None;
             ShiftOverride.mk "2024-01-02" (Some "09:30") (Some "15:00")
               None None]) in
  getShiftTimes staff "2024-01-02" Half = ("09:30", "15:00")
  /\ getShiftTimes staff "2024-01-05" Half = ("08:00", "13:00")
  /\ getShiftTimes (weekdayStaff None) "2024-01-02" Normal = ("08:00", "17:00").
Proof.
  intros staff. split; [|split].
  - apply (getShiftTimes_spec staff "2024-01-02" Half)
      with (o := ShiftOverride.mk "2024-01-02" (Some "09:30") (Some "15:00")
                   None None);
      try reflexivity; try discriminate.
    exists [ShiftOverride.mk "2024-01-03" (Some "10:00") (Some "12:00")
              None None], [].
    split; [reflexivity|]. split; [|reflexivity].
    intros x [<-|[]]. discriminate.
  - apply (getShiftTimes_spec staff "2024-01-05" Half).
    + left. intros x [<-|[<-|[]]]; discriminate.
    + reflexivity.
  - apply (getShiftTimes_spec (weekdayStaff None) "2024-01-02" Normal).
    + left. intros x [].
    + discriminate.
Defined.

(** A click on the manual half shift of 2024-01-02 replaces the Half
    entry by the day-off entry. *)
Lemma handleQuickCycle_spec_witness :
  let person := weekdayStaff (Some [halfEntry "2024-01-02"]) in
  exists newStaff,
    handleQuickCycle tzJohannesburg [person] true person (dayOf "2024-01-02")
      (calculateShiftState tzJohannesburg person (dayOf "2024-01-02"))
    = Some newStaff
    /\ newStaff !! 0%nat
       = Some (withOverrides person [dayOffEntry "2024-01-02"]).
Proof.
  intros person.
  destruct (handleQuickCycle_spec tzJohannesburg [person] person
              (dayOf "2024-01-02")
              (calculateShiftState tzJohannesburg person (dayOf "2024-01-02"))
              0%nat person)
    as (_ & newStaff & Hrun & _ & _ & Hsame).
  - reflexivity.
  - vm_compute. lia.
  - exists newStaff. split; [exact Hrun|].
    destruct (Hsame eq_refl) as (os & Hlook & _ & Hoff & _).
    rewrite Hlook, (Hoff eq_refl). reflexivity.
Defined.


(** The calculation for 2023-12-25, a week before the start of the
    cycle, for the first member of the example world. *)
Lemma calculator_total_witness :
  isStaffWorkingM (Some 0%nat) "2023-12-25" exampleWorld
  = Runtime.Returns true exampleWorld
  /\ calculateShiftStateM (Some 0%nat) (Some 1%nat) exampleWorld
     = Runtime.Returns
         (ShiftState.mk true (Shift Normal) VisualType.Solid "Normal Shift")
         exampleWorld
  /\ getShiftTimesM (Some 0%nat) "2023-12-25" Normal exampleWorld
     = Runtime.Returns ("08:00", "17:00") exampleWorld.
Proof.
  destruct (calculator_total exampleWorld (Some 0%nat) (Some 1%nat)
              (weekdayStaff
                 (Some [halfEntry "2024-01-02"; dayOffEntry "2024-01-03"]))
              (dayOf "2023-12-25") Normal eq_refl eq_refl)
    as (_ & Hvalues).
  destruct Hvalues as (k & Hk & _ & Hw & Hst & Ht).
  - reflexivity.
  - reflexivity.
  - cbn. lia.
  - split; cbn; lia.
  - intros t. cbn. unfold tzJohannesburg, JS.msPerDay. lia.
  - vm_compute in Hk. injection Hk as <-.
    split; [exact Hw|]. split; [exact Hst | exact Ht].
Defined.

(** The state of the first member on Tuesday 2024-01-02 is the same in
    the two example worlds, and a call leaves each of them as it was. *)
Lemma calculateShiftState_pure_witness :
  exists st,
    calculateShiftStateM (Some 0%nat) (Some 0%nat) exampleWorld
    = Runtime.Returns st exampleWorld
    /\ calculateShiftStateM (Some 1%nat) (Some 1%nat) otherWorld
       = Runtime.Returns st otherWorld.
Proof.
  destruct (calculateShiftState_pure exampleWorld (Some 0%nat) (Some 0%nat))
    as (_ & Hsame & _).
  apply (Hsame
           (weekdayStaff (Some [halfEntry "2024-01-02"; dayOffEntry "2024-01-03"]))
           (dayOf "2024-01-02") otherWorld (Some 1%nat) (Some 1%nat));
    reflexivity.
Defined.

(** A member whose default shift type is Half works a Normal shift on
    Tuesday 2024-01-02. *)
Lemma calculateShiftState_ignores_defaults_witness :
  let a :=
    StaffMember.mk "1" "Thandi" "Ranger" "2024-01-01" 5 2 Half Casual None in
  calculateShiftState tzJohannesburg a (dayOf "2024-01-02")
  = calculateShiftState tzJohannesburg (weekdayStaff None) (dayOf "2024-01-02")
  /\ calculateShiftState tzJohannesburg a (dayOf "2024-01-02")
     = ShiftState.mk true (Shift Normal) VisualType.Solid "Normal Shift".
Proof.
  intros a.
  destruct (calculateShiftState_ignores_defaults tzJohannesburg a
              (weekdayStaff None) (dayOf "2024-01-02"))
    as (Hsame & Hhalf); try reflexivity.
  split; [exact Hsame|].
  apply Hhalf; [reflexivity | reflexivity | vm_compute; reflexivity].
Defined.

(** * Further properties of the code *)

(** ** The cycle against the calendar *)

Lemma MakeFullYear_id y : 100 <= y -> JS.MakeFullYear y = y.
Proof.
  intros Hy. unfold JS.MakeFullYear.
  destruct (Z.leb_spec 0 y), (Z.leb_spec y 99); cbn [andb]; lia.
Qed.

(** The time value of a well-formed date from the year 100 on is the
    local midnight of its day number. *)
Lemma localMidnight_dayNumber LocalTZA s :
  boundedZone LocalTZA -> isoDate s = true ->
  100 <= Calendar.year (dateOf s) ->
  localMidnight LocalTZA s
  = JS.Int (JS.UTC LocalTZA (Calendar.dayNumber (dateOf s) * JS.msPerDay)).
Proof.
  intros Hz Hs. unfold dateOf, Calendar.dayNumber.
  destruct (localMidnight_iso LocalTZA s Hz Hs)
    as (y & m & d & E & _ & _ & _ & ->).
  rewrite E. cbn [nth Calendar.year Calendar.month Calendar.day].
  intros Hy. rewrite MakeFullYear_id by exact Hy. reflexivity.
Qed.

Lemma floor_days_shift delta e :
  (- JS.msPerDay < e <= 0 ->
   (delta * JS.msPerDay - e) / (1000 * 60 * 60 * 24) = delta)
  /\ (0 < e <= JS.msPerDay ->
      (delta * JS.msPerDay - e) / (1000 * 60 * 60 * 24) = delta - 1).
Proof.
  unfold JS.msPerDay. change (1000 * 60 * 60 * 24) with 86400000.
  split; intros He; Z.div_mod_to_equations; lia.
Qed.

Section CalendarFacts.

Variable LocalTZA : Z -> Z.

(** The offset in force at the local midnight of a date. *)
Let offsetAt (s : string) : Z :=
  LocalTZA (Calendar.dayNumber (dateOf s) * JS.msPerDay).

(** X1. How the day difference depends on the host's offsets: when the
    offset at the target's midnight is not larger than the offset at the
    start's midnight (and less than a day smaller), the difference is the
    difference of the day numbers; when it is larger (by at most a day),
    as after the clocks moved forward, the difference is one day
    short. *)
Theorem diffDays_offset_change (staff : StaffMember.t) (target : string) :
  let s := StaffMember.cycleStartDate staff in
  let delta :=
    Calendar.dayNumber (dateOf target) - Calendar.dayNumber (dateOf s) in
  boundedZone LocalTZA ->
  isoDate s = true -> isoDate target = true ->
  100 <= Calendar.year (dateOf s) -> 100 <= Calendar.year (dateOf target) ->
  (- JS.msPerDay < offsetAt target - offsetAt s <= 0 ->
   diffDays LocalTZA staff target = JS.Int delta)
  /\ (0 < offsetAt target - offsetAt s <= JS.msPerDay ->
      diffDays LocalTZA staff target = JS.Int (delta - 1)).
Proof.
  intros s delta Hz Hs Ht Hys Hyt. unfold diffDays. fold s.
  rewrite (localMidnight_dayNumber LocalTZA s Hz Hs Hys).
  rewrite (localMidnight_dayNumber LocalTZA target Hz Ht Hyt).
  cbn [JS.sub JS.floor_div]. unfold JS.UTC. fold (offsetAt s) (offsetAt target).
  set (a := Calendar.dayNumber (dateOf target)) in *.
  set (b := Calendar.dayNumber (dateOf s)) in *.
  replace (a * JS.msPerDay - offsetAt target - (b * JS.msPerDay - offsetAt s))
    with (delta * JS.msPerDay - (offsetAt target - offsetAt s))
    by (unfold delta; lia).
  destruct (floor_days_shift delta (offsetAt target - offsetAt s)) as [H1 H2].
  split; intros He; f_equal; auto.
Qed.

(** X2. On a host whose offset is the same at the two midnights, for
    well-formed dates from the year 100 on and pattern numbers that are
    exact as doubles, the function follows the rule of the calendar: a
    target that lies [k] days after a valid start date is worked exactly
    when [k mod cycleLength < patternOn], and a target [k] days before
    the start exactly when [(-k) mod cycleLength < patternOn]. *)
Theorem isStaffWorking_calendar (staff : StaffMember.t) (target : string)
  (k : nat) :
  let s := StaffMember.cycleStartDate staff in
  let n := StaffMember.patternOn staff + StaffMember.patternOff staff in
  boundedZone LocalTZA ->
  isoDate s = true -> isoDate target = true ->
  100 <= Calendar.year (dateOf s) -> 100 <= Calendar.year (dateOf target) ->
  offsetAt s = offsetAt target ->
  1 <= n -> exactPattern staff ->
  (Calendar.valid (dateOf s) = true ->
   Calendar.addDays k (dateOf s) = dateOf target ->
   isStaffWorking LocalTZA staff target
   = (Z.of_nat k mod n <? StaffMember.patternOn staff))
  /\ (Calendar.valid (dateOf target) = true ->
      Calendar.addDays k (dateOf target) = dateOf s ->
      isStaffWorking LocalTZA staff target
      = ((- Z.of_nat k) mod n <? StaffMember.patternOn staff)).
Proof.
  intros s n Hz Hs Ht Hys Hyt Hoff Hn _.
  assert (Hd : diffDays LocalTZA staff target
               = JS.Int (Calendar.dayNumber (dateOf target)
                         - Calendar.dayNumber (dateOf s))).
  { apply diffDays_same_offset; assumption. }
  pose proof (dayInCycle_Int LocalTZA staff target _ Hd Hn) as E. fold n in E.
  unfold isStaffWorking. rewrite E. cbn [JS.lt].
  split; intros Hv Hk.
  - rewrite <- Hk, dayNumber_addDays by exact Hv. do 2 f_equal. lia.
  - fold s. rewrite <- Hk, dayNumber_addDays by exact Hv. do 2 f_equal. lia.
Qed.

(** X3. The pattern repeats: on a host whose offset is the same at the
    midnights involved, two targets that lie a whole number of cycles
    apart get the same answer. *)
Theorem isStaffWorking_periodic (staff : StaffMember.t) (t1 t2 : string)
  (cycles : nat) :
  let s := StaffMember.cycleStartDate staff in
  let n := StaffMember.patternOn staff + StaffMember.patternOff staff in
  boundedZone LocalTZA ->
  isoDate s = true -> isoDate t1 = true -> isoDate t2 = true ->
  100 <= Calendar.year (dateOf s) ->
  100 <= Calendar.year (dateOf t1) -> 100 <= Calendar.year (dateOf t2) ->
  offsetAt s = offsetAt t1 -> offsetAt s = offsetAt t2 ->
  1 <= n ->
  Calendar.valid (dateOf t1) = true ->
  Calendar.addDays (cycles * Z.to_nat n) (dateOf t1) = dateOf t2 ->
  isStaffWorking LocalTZA staff t1 = isStaffWorking LocalTZA staff t2.
Proof.
  intros s n Hz Hs H1 H2 Hys Hy1 Hy2 Ho1 Ho2 Hn Hv Hk.
  assert (D1 := diffDays_same_offset LocalTZA staff t1 Hz Hs H1 Hys Hy1 Ho1).
  assert (D2 := diffDays_same_offset LocalTZA staff t2 Hz Hs H2 Hys Hy2 Ho2).
  pose proof (dayInCycle_Int LocalTZA staff t1 _ D1 Hn) as E1.
  pose proof (dayInCycle_Int LocalTZA staff t2 _ D2 Hn) as E2.
  unfold isStaffWorking. rewrite E1, E2. cbn [JS.lt]. fold n. f_equal.
  rewrite <- Hk, dayNumber_addDays by exact Hv.
  replace (Z.of_nat (cycles * Z.to_nat n)) with (Z.of_nat cycles * n) by lia.
  match goal with
  | |- ?a mod n = (?b + ?c * n - ?d) mod n =>
      replace (b + c * n - d) with (a + c * n) by lia
  end.
  symmetry. apply Z.mod_add. lia.
Qed.

(** X4. Degenerate patterns and texts. With an empty cycle
    ([patternOn + patternOff = 0]) the remainder is NaN and the answer is
    false on every day, without any exception; so it is when [patternOn]
    is zero or negative and the cycle is not negative; so it is when the
    start date or the target has fewer than three fields between dashes,
    as a date written with slashes has. With [patternOff = 0] and a
    positive [patternOn] every well-formed day is worked. *)
Theorem isStaffWorking_degenerate (staff : StaffMember.t) (target : string) :
  let n := StaffMember.patternOn staff + StaffMember.patternOff staff in
  (n = 0 -> isStaffWorking LocalTZA staff target = false)
  /\ (StaffMember.patternOn staff <= 0 -> 0 <= n ->
      isStaffWorking LocalTZA staff target = false)
  /\ ((length (JS.split "-" (StaffMember.cycleStartDate staff)) < 3)%nat
      \/ (length (JS.split "-" target) < 3)%nat ->
      isStaffWorking LocalTZA staff target = false)
  /\ (StaffMember.patternOff staff = 0 -> 1 <= StaffMember.patternOn staff ->
      boundedZone LocalTZA ->
      isoDate (StaffMember.cycleStartDate staff) = true ->
      isoDate target = true ->
      isStaffWorking LocalTZA staff target = true).
Proof.
  intros n.
  assert (Hzero : n = 0 -> isStaffWorking LocalTZA staff target = false).
  { intros Hn. unfold isStaffWorking, dayInCycle, totalCycleLength. fold n.
    rewrite Hn. destruct (diffDays LocalTZA staff target); reflexivity. }
  split; [exact Hzero|]. split; [|split].
  - intros Hon Hn.
    destruct (Z.eq_dec n 0) as [H0|H0]; [exact (Hzero H0)|].
    unfold isStaffWorking.
    destruct (diffDays LocalTZA staff target) as [|k] eqn:Hk.
    + unfold dayInCycle. rewrite Hk. reflexivity.
    + rewrite (dayInCycle_Int LocalTZA staff target k Hk) by (fold n; lia).
      fold n. cbn [JS.lt]. apply Z.ltb_ge.
      pose proof (Z.mod_pos_bound k n ltac:(lia)). lia.
  - assert (Hnan : forall text, (length (JS.split "-" text) < 3)%nat ->
                     localMidnight LocalTZA text = JS.NaN).
    { intros text Hl. unfold localMidnight.
      rewrite <- (length_map JS.Number) in Hl.
      replace (nth 2 (map JS.Number (JS.split "-" text)) JS.NaN) with JS.NaN
        by (symmetry; apply nth_overflow; lia).
      destruct (nth 0 _ _); [reflexivity|].
      destruct (JS.sub _ _); reflexivity. }
    intros H. unfold isStaffWorking, dayInCycle, diffDays.
    destruct H as [H|H]; rewrite (Hnan _ H).
    + destruct (localMidnight LocalTZA target); reflexivity.
    + reflexivity.
  - intros Hoff Hon Hz Hs Ht.
    destruct (diffDays_iso LocalTZA staff target Hz Hs Ht) as (k & Hk).
    unfold isStaffWorking.
    rewrite (dayInCycle_Int LocalTZA staff target k Hk) by (fold n; lia).
    cbn [JS.lt]. apply Z.ltb_lt. fold n.
    pose proof (Z.mod_pos_bound k n ltac:(lia)). lia.
Qed.

End CalendarFacts.

(** ** The quick cycle on the whole grid *)

Lemma find_splice_other {A : Type} (P Q : A -> bool) l :
  (forall x, P x = true -> Q x = false) ->
  List.find Q (if 0 <=? JS.findIndex P l
               then JS.splice1 (JS.findIndex P l) l else l)
  = List.find Q l.
Proof.
  intros HPQ. induction l as [|x l IH]; [reflexivity|].
  cbn [JS.findIndex]. destruct (P x) eqn:Px.
  - cbn. rewrite (HPQ x Px). reflexivity.
  - pose proof (findIndex_lower P l) as Hlo.
    destruct (Z.ltb_spec (JS.findIndex P l) 0) as [Hneg|Hpos].
    + reflexivity.
    + destruct (Z.leb_spec 0 (JS.findIndex P l)) as [_|?]; [|lia].
      destruct (Z.leb_spec 0 (JS.findIndex P l + 1)) as [_|?]; [|lia].
      unfold JS.splice1 in *.
      replace (Z.to_nat (JS.findIndex P l + 1))
        with (S (Z.to_nat (JS.findIndex P l))) by lia.
      cbn. destruct (Q x); [reflexivity | exact IH].
Qed.

Lemma find_push_miss {A : Type} (Q : A -> bool) l x :
  Q x = false -> List.find Q (JS.push l x) = List.find Q l.
Proof.
  intros Hx. unfold JS.push. induction l as [|y l IH]; cbn.
  - rewrite Hx. reflexivity.
  - destruct (Q y); [reflexivity | exact IH].
Qed.

Lemma datedFor_other d d' f1 f2 f3 f4 :
  d <> d' -> datedFor d' (ShiftOverride.mk d f1 f2 f3 f4) = false.
Proof. intros Hne. unfold datedFor. cbn. apply String.eqb_neq, Hne. Qed.

(** A click never touches the lookup for another date, whatever the
    override list holds. *)
Lemma cycledOverrides_other_date LocalTZA p day shiftState d' :
  DayStatus.fullDateStr day <> d' ->
  findOverride (withOverrides p (cycledOverrides LocalTZA p day shiftState)) d'
  = findOverride p d'.
Proof.
  intros Hne. set (d := DayStatus.fullDateStr day) in *.
  assert (Hrem : List.find (datedFor d')
                   (if 0 <=? JS.findIndex (datedFor d) (overridesOrEmpty p)
                    then JS.splice1 (JS.findIndex (datedFor d) (overridesOrEmpty p))
                           (overridesOrEmpty p)
                    else overridesOrEmpty p)
                 = findOverride p d').
  { rewrite find_splice_other.
    - unfold findOverride, overridesOrEmpty.
      destruct (StaffMember.overrides p); reflexivity.
    - intros x Hx. unfold datedFor in *. apply String.eqb_eq in Hx.
      apply String.eqb_neq. congruence. }
  unfold findOverride at 1, withOverrides. cbn [StaffMember.overrides].
  unfold cycledOverrides. fold d. fold (overridesOrEmpty p).
  change (fun o => String.eqb (ShiftOverride.date o) d) with (datedFor d).
  change (fun o => String.eqb (ShiftOverride.date o) d') with (datedFor d').
  destruct (nextState shiftState) as [[|]|];
    [destruct (negb (isStaffWorking LocalTZA p d))|..];
    rewrite ?find_push_miss by (apply datedFor_other; exact Hne);
    exact Hrem.
Qed.

(** The calculator reads the overrides only through the lookup for the
    day. *)
Lemma calculateShiftState_lookup LocalTZA p q day :
  StaffMember.cycleStartDate p = StaffMember.cycleStartDate q ->
  StaffMember.patternOn p = StaffMember.patternOn q ->
  StaffMember.patternOff p = StaffMember.patternOff q ->
  findOverride p (DayStatus.fullDateStr day)
  = findOverride q (DayStatus.fullDateStr day) ->
  calculateShiftState LocalTZA p day = calculateShiftState LocalTZA q day.
Proof.
  intros Hc Hon Hoff Hf.
  unfold calculateShiftState, isStaffWorking, dayInCycle, totalCycleLength,
    diffDays.
  rewrite Hc, Hon, Hoff, Hf. reflexivity.
Qed.

Lemma clickCell_row LocalTZA staff i day j p :
  staff !! j = Some p ->
  clickCell LocalTZA staff i day !! j = Some p
  \/ exists shiftState,
       clickCell LocalTZA staff i day !! j
       = Some (withOverrides p (cycledOverrides LocalTZA p day shiftState)).
Proof.
  intros Hp. unfold clickCell.
  destruct (staff !! i) as [person|]; [|left; exact Hp].
  unfold handleQuickCycle. cbn [negb]. rewrite lookup_map, Hp.
  cbn [fmap option_fmap option_map].
  destruct (negb (String.eqb (StaffMember.id p) (StaffMember.id person)));
    [left | right; eexists]; reflexivity.
Qed.

(** X5. A click on the cell of one date changes nothing that is shown
    for another date: in every row, the member keeps its identity and
    pattern, and its shift state and shift times on any day with another
    date string are what they were. *)
Theorem clickCell_other_date (LocalTZA : Z -> Z) (staff : list StaffMember.t)
  (i : nat) (day day' : DayStatus.t) (j : nat) (p : StaffMember.t) :
  DayStatus.fullDateStr day <> DayStatus.fullDateStr day' ->
  staff !! j = Some p ->
  exists p',
    clickCell LocalTZA staff i day !! j = Some p'
    /\ StaffMember.id p' = StaffMember.id p
    /\ StaffMember.name p' = StaffMember.name p
    /\ calculateShiftState LocalTZA p' day' = calculateShiftState LocalTZA p day'
    /\ forall shiftType,
         getShiftTimes p' (DayStatus.fullDateStr day') shiftType
         = getShiftTimes p (DayStatus.fullDateStr day') shiftType.
Proof.
  intros Hne Hp.
  destruct (clickCell_row LocalTZA staff i day j p Hp) as [E | (st & E)];
    rewrite E; eexists; (split; [reflexivity|]).
  - repeat split; reflexivity.
  - pose proof (cycledOverrides_other_date LocalTZA p day st _ Hne) as Hf.
    split; [reflexivity|]. split; [reflexivity|]. split.
    + apply calculateShiftState_lookup; try reflexivity. exact Hf.
    + intros ty. unfold getShiftTimes. rewrite Hf. reflexivity.
Qed.

(** The quick cycle keeps the invariant whatever state it is given. *)
Lemma cycledOverrides_invariant LocalTZA p day shiftState :
  (forall d, atMostOneFor d p) ->
  forall d,
    atMostOneFor d (withOverrides p (cycledOverrides LocalTZA p day shiftState)).
Proof.
  intros Hinv d'.
  rewrite (cycledOverrides_unique LocalTZA p day _
             (Hinv (DayStatus.fullDateStr day))).
  set (d := DayStatus.fullDateStr day).
  destruct (String.eqb_spec d d') as [<-|Hne].
  - apply atMostOneFor_written.
    destruct (nextState _) as [[|]|];
      [destruct (isStaffWorking LocalTZA p d)|..]; written; lia.
  - unfold atMostOneFor, withOverrides, overridesOrEmpty at 1.
    cbn [StaffMember.overrides]. rewrite List.filter_app, List.length_app.
    pose proof (filter_filter_length (datedFor d')
                  (fun o => negb (datedFor d o)) (overridesOrEmpty p)) as Hle.
    fold (otherDates d p) in Hle. specialize (Hinv d'). unfold atMostOneFor in Hinv.
    destruct (nextState _) as [[|]|];
      [destruct (isStaffWorking LocalTZA p d)|..];
      unfold dayOffEntry, halfEntry, normalEntry; cbn [List.filter];
      rewrite ?(datedFor_other d d') by exact Hne; cbn [length]; lia.
Qed.

(** X6. The grid keeps the invariant of the data model: if every member
    holds at most one override per date, so does every member of the
    list after a click, with the same number of rows. *)
Theorem clickCell_keeps_invariant (LocalTZA : Z -> Z)
  (staff : list StaffMember.t) (i : nat) (day : DayStatus.t) :
  (forall j p d, staff !! j = Some p -> atMostOneFor d p) ->
  length (clickCell LocalTZA staff i day) = length staff
  /\ forall j p' d,
       clickCell LocalTZA staff i day !! j = Some p' -> atMostOneFor d p'.
Proof.
  intros Hinv. split.
  - unfold clickCell. destruct (staff !! i); [|reflexivity].
    unfold handleQuickCycle. cbn [negb]. apply length_map.
  - intros j p' d Hp'.
    destruct (staff !! j) as [p|] eqn:Hp.
    + destruct (clickCell_row LocalTZA staff i day j p Hp) as [E | (st & E)];
        rewrite E in Hp'; injection Hp' as <-.
      * exact (Hinv j p d Hp).
      * apply cycledOverrides_invariant. intros d0. exact (Hinv j p d0 Hp).
    + exfalso. apply lookup_ge_None in Hp.
      assert (Hlen : length (clickCell LocalTZA staff i day) = length staff).
      { unfold clickCell. destruct (staff !! i); [|reflexivity].
        unfold handleQuickCycle. cbn [negb]. apply length_map. }
      apply lookup_lt_Some in Hp'. lia.
Qed.

(** ** Any number of clicks *)


Section ManyClicks.

Variable LocalTZA : Z -> Z.
Variable p : StaffMember.t.
Variable day : DayStatus.t.

Let d := DayStatus.fullDateStr day.

Hypothesis no_override : findOverride p d = None.













End ManyClicks.



(** ** The click of a visitor and the row of totals *)


Lemma filter_length_middle {A : Type} (g : A -> bool) l1 x l2 :
  length (List.filter g (l1 ++ x :: l2))
  = (length (List.filter g l1) + (if g x then 1 else 0)
     + length (List.filter g l2))%nat.
Proof.
  rewrite List.filter_app, List.length_app. cbn [List.filter].
  destruct (g x); cbn [length]; lia.
Qed.

(** The state shown for the clicked member after the click. *)
Lemma cycleMember_state LocalTZA p day :
  atMostOneFor (DayStatus.fullDateStr day) p ->
  ShiftState.isWorking
    (calculateShiftState LocalTZA (cycleMember LocalTZA p day) day)
  = match ShiftState.shiftType (calculateShiftState LocalTZA p day) with
    | Shift Half => false
    | _ => true
    end.
Proof.
  intros Hone. unfold cycleMember.
  rewrite (cycledOverrides_unique LocalTZA p day _ Hone).
  set (d := DayStatus.fullDateStr day).
  assert (Hst : forall es,
             calculateShiftState LocalTZA
               (withOverrides p (otherDates d p ++ es)) day
             = calculateShiftState LocalTZA (withOverrides p es) day).
  { intros es. apply calculateShiftState_lookup; try reflexivity. fold d.
    rewrite findOverride_written. reflexivity. }
  assert (Hent : forall e, ShiftOverride.date e = d ->
             findOverride (withOverrides p [e]) d = Some e).
  { intros e He. unfold findOverride, withOverrides.
    cbn [StaffMember.overrides List.find]. rewrite He, String.eqb_refl.
    reflexivity. }
  destruct (calculateShiftState_cases LocalTZA p day) as [E|[E|[E|[E|E]]]];
    rewrite E;
    match goal with
    | |- context [nextState ?st] =>
        let v := eval vm_compute in (nextState st) in
        change (nextState st) with v
    end;
    cbn [ShiftState.shiftType]; rewrite ?Hst.
  - destruct (isStaffWorking LocalTZA p d) eqn:Hw.
    + unfold calculateShiftState. fold d.
      change (findOverride (withOverrides p []) d) with (@None ShiftOverride.t).
      cbn [mbind option_bind JS.truthy_flag].
      change (isStaffWorking LocalTZA (withOverrides p []) d)
        with (isStaffWorking LocalTZA p d).
      rewrite Hw. reflexivity.
    + unfold calculateShiftState. fold d.
      rewrite (Hent (normalEntry d) eq_refl). reflexivity.
  - unfold calculateShiftState. fold d.
    rewrite (Hent (dayOffEntry d) eq_refl). reflexivity.
  - unfold calculateShiftState. fold d.
    rewrite (Hent (halfEntry d) eq_refl). reflexivity.
  - destruct (isStaffWorking LocalTZA p d) eqn:Hw.
    + unfold calculateShiftState. fold d.
      change (findOverride (withOverrides p []) d) with (@None ShiftOverride.t).
      cbn [mbind option_bind JS.truthy_flag].
      change (isStaffWorking LocalTZA (withOverrides p []) d)
        with (isStaffWorking LocalTZA p d).
      rewrite Hw. reflexivity.
    + unfold calculateShiftState. fold d.
      rewrite (Hent (normalEntry d) eq_refl). reflexivity.
  - unfold calculateShiftState. fold d.
    rewrite (Hent (halfEntry d) eq_refl). reflexivity.
Qed.

(** X10. The total of the row "On Duty" follows the click. When the
    clicked member is the only one with its id and holds at most one
    override for the date, a click on a normal shift leaves the day's
    total as it is, a click on a half shift takes one off, and a click
    on a cell that is off adds one. *)
Theorem onDutyCount_after_click (LocalTZA : Z -> Z)
  (staff : list StaffMember.t) (i : nat) (p : StaffMember.t)
  (day : DayStatus.t) :
  staff !! i = Some p ->
  (forall j q, staff !! j = Some q ->
               StaffMember.id q = StaffMember.id p -> j = i) ->
  atMostOneFor (DayStatus.fullDateStr day) p ->
  match ShiftState.shiftType (calculateShiftState LocalTZA p day) with
  | Shift Normal =>
      onDutyCount LocalTZA (clickCell LocalTZA staff i day) day
      = onDutyCount LocalTZA staff day
  | Shift Half =>
      S (onDutyCount LocalTZA (clickCell LocalTZA staff i day) day)
      = onDutyCount LocalTZA staff day
  | Off =>
      onDutyCount LocalTZA (clickCell LocalTZA staff i day) day
      = S (onDutyCount LocalTZA staff day)
  end.
Proof.
  intros Hp Hid Hone.
  assert (Hnew : clickCell LocalTZA staff i day
                 = take i staff ++ cycleMember LocalTZA p day :: drop (S i) staff).
  { rewrite <- (insert_take_drop staff i) by (eapply lookup_lt_Some; exact Hp).
    apply list_eq. intros j. unfold clickCell, handleQuickCycle.
    rewrite Hp. cbn [negb]. rewrite lookup_map.
    destruct (decide (j = i)) as [->|Hne].
    - rewrite list_lookup_insert_eq by (eapply lookup_lt_Some; exact Hp).
      rewrite Hp. cbn [fmap option_fmap option_map].
      rewrite String.eqb_refl. reflexivity.
    - rewrite list_lookup_insert_ne by congruence.
      destruct (staff !! j) as [q|] eqn:Hq; [|reflexivity].
      cbn [fmap option_fmap option_map].
      destruct (String.eqb_spec (StaffMember.id q) (StaffMember.id p)) as [E|_];
        [|reflexivity].
      exfalso. apply Hne. exact (Hid j q Hq E). }
  unfold onDutyCount. rewrite Hnew.
  generalize (take_drop_middle staff i p Hp).
  generalize (take i staff) (drop (S i) staff). intros l1 l2 <-.
  rewrite !filter_length_middle, (cycleMember_state LocalTZA p day Hone).
  destruct (calculateShiftState_cases LocalTZA p day) as [E|[E|[E|[E|E]]]];
    rewrite E; cbn [ShiftState.shiftType ShiftState.isWorking]; lia.
Qed.

(** ** Export and import *)

(** ** Texts *)

Lemma append_assoc (a b c : string) :
  String.append (String.append a b) c = String.append a (String.append b c).
Proof. induction a as [|x a IH]; cbn; [reflexivity | rewrite IH; reflexivity]. Qed.

Lemma append_empty_r (a : string) : String.append a "" = a.
Proof. induction a as [|x a IH]; cbn; [reflexivity | rewrite IH; reflexivity]. Qed.

Lemma freeOf_append c a b :
  freeOf c (String.append a b) = freeOf c a && freeOf c b.
Proof.
  induction a as [|x a IH]; cbn; [reflexivity|].
  rewrite IH. apply andb_assoc.
Qed.

Lemma split_go_free c s : forall cur,
  freeOf c s = true -> JS.split_go c cur s = [String.append cur s].
Proof.
  induction s as [|x s IH]; intros cur Hf; cbn in *.
  - rewrite append_empty_r. reflexivity.
  - apply andb_prop in Hf as [Hx Hs]. apply negb_true_iff in Hx. rewrite Hx.
    rewrite IH by exact Hs. rewrite append_assoc. reflexivity.
Qed.

Lemma split_go_sep c s rest : forall cur,
  freeOf c s = true ->
  JS.split_go c cur (String.append s (String c rest))
  = String.append cur s :: JS.split_go c "" rest.
Proof.
  induction s as [|x s IH]; intros cur Hf; cbn in *.
  - rewrite Ascii.eqb_refl, append_empty_r. reflexivity.
  - apply andb_prop in Hf as [Hx Hs]. apply negb_true_iff in Hx. rewrite Hx.
    rewrite IH by exact Hs. rewrite append_assoc. reflexivity.
Qed.

(** Splitting a joined list gives the list back, when no element holds
    the separator. *)
Lemma split_join c (a : list string) :
  a <> [] -> forallb (freeOf c) a = true ->
  JS.split c (JSText.join (String c "") a) = a.
Proof.
  unfold JS.split. induction a as [|x a IH]; intros Hne Hf; [contradiction|].
  cbn [forallb] in Hf. apply andb_prop in Hf as [Hx Ha].
  destruct a as [|y a].
  - cbn [JSText.join]. apply split_go_free. exact Hx.
  - change (JSText.join (String c "") (x :: y :: a))
      with (String.append x (String c (JSText.join (String c "") (y :: a)))).
    rewrite split_go_sep by exact Hx. cbn [String.append]. f_equal.
    apply IH; [discriminate | exact Ha].
Qed.

(** *** Printing and reading numbers *)

Lemma digitChar_digit d :
  0 <= d <= 9 ->
  JS.is_digit (JSText.digitChar d) = true
  /\ JS.digit_value (JSText.digitChar d) = d.
Proof.
  intros Hd.
  assert (Hc : d = 0 \/ d = 1 \/ d = 2 \/ d = 3 \/ d = 4 \/ d = 5 \/ d = 6
               \/ d = 7 \/ d = 8 \/ d = 9) by lia.
  repeat (destruct Hc as [-> | Hc]); try subst d; split; reflexivity.
Qed.

Lemma digits_allDigits fuel : forall n acc,
  0 <= n -> allDigits acc = true ->
  allDigits (JSText.digits fuel n acc) = true.
Proof.
  induction fuel as [|f IH]; intros n acc Hn Hacc; cbn [JSText.digits];
    [exact Hacc|].
  assert (Hd : allDigits (String (JSText.digitChar (n mod 10)) acc) = true).
  { cbn [allDigits]. rewrite Hacc, andb_true_r.
    apply digitChar_digit. pose proof (Z.mod_pos_bound n 10). lia. }
  destruct (n <? 10); [exact Hd|].
  apply IH; [apply Z.div_pos; lia | exact Hd].
Qed.

Lemma digits_read fuel : forall n acc,
  0 <= n -> n < 10 ^ Z.of_nat fuel ->
  JS.digits_go 0 (JSText.digits fuel n acc) = JS.digits_go n acc.
Proof.
  induction fuel as [|f IH]; intros n acc Hn Hlt.
  - cbn in Hlt. assert (n = 0) as -> by lia. reflexivity.
  - cbn [JSText.digits].
    assert (Hm : 0 <= n mod 10 <= 9) by (pose proof (Z.mod_pos_bound n 10); lia).
    destruct (digitChar_digit (n mod 10) Hm) as [Hd Hv].
    destruct (Z.ltb_spec n 10) as [Hsmall|Hbig].
    + cbn [JS.digits_go]. rewrite Hd, Hv, Z.mod_small by lia. reflexivity.
    + rewrite IH.
      * cbn [JS.digits_go]. rewrite Hd, Hv. f_equal.
        pose proof (Z.div_mod n 10 ltac:(lia)). lia.
      * apply Z.div_pos; lia.
      * rewrite Nat2Z.inj_succ, Z.pow_succ_r in Hlt by lia.
        apply Z.div_lt_upper_bound; lia.
Qed.

Lemma natural_fuel n : 0 <= n -> n < 10 ^ Z.of_nat (S (Z.to_nat (Z.log2 n))).
Proof.
  intros Hn. destruct (Z.eq_dec n 0) as [->|Hne]; [cbn; lia|].
  pose proof (Z.log2_nonneg n) as Hl.
  pose proof (Z.log2_spec n ltac:(lia)) as [_ Hhi].
  rewrite Nat2Z.inj_succ, Z2Nat.id by lia.
  eapply Z.lt_le_trans; [exact Hhi|].
  apply Z.pow_le_mono_l. lia.
Qed.

(** Reading what was printed gives the number back. *)
Lemma Number_natural n : 0 <= n -> JS.Number (JSText.natural n) = JS.Int n.
Proof.
  intros Hn. unfold JS.Number, JSText.natural.
  rewrite digits_read by (try apply natural_fuel; lia). reflexivity.
Qed.

Lemma natural_allDigits n : 0 <= n -> allDigits (JSText.natural n) = true.
Proof. intros Hn. apply digits_allDigits; [exact Hn | reflexivity]. Qed.

Lemma natural_inj a b :
  0 <= a -> 0 <= b -> JSText.natural a = JSText.natural b -> a = b.
Proof.
  intros Ha Hb E.
  pose proof (Number_natural a Ha) as Na. rewrite E, Number_natural in Na by exact Hb.
  congruence.
Qed.

Lemma digits_nonempty fuel n acc : JSText.digits (S fuel) n acc <> "".
Proof.
  revert n acc. induction fuel as [|f IH]; intros n acc; cbn [JSText.digits].
  - destruct (n <? 10); discriminate.
  - destruct (n <? 10); [discriminate|]. apply IH.
Qed.

Lemma natural_nonempty n : JSText.natural n <> "".
Proof. apply digits_nonempty. Qed.

Ltac digit_cases c H :=
  destruct c as [[] [] [] [] [] [] [] []]; vm_compute in H; try discriminate H.

Lemma digitOf_decimal c :
  JS.is_digit c = true -> JSText.digitOf 10 c = Some (JS.digit_value c).
Proof. intros H. digit_cases c H; reflexivity. Qed.

Lemma digitRun_decimal s : forall acc,
  allDigits s = true -> JSText.digitRun 10 acc true s = JS.digits_go acc s.
Proof.
  induction s as [|c r IH]; intros acc Hd; [reflexivity|].
  cbn [allDigits] in Hd. apply andb_prop in Hd as [Hc Hr].
  cbn [JSText.digitRun JS.digits_go]. rewrite (digitOf_decimal c Hc), Hc.
  apply IH, Hr.
Qed.

Lemma digitRun_start c r :
  JS.is_digit c = true -> allDigits r = true ->
  JSText.digitRun 10 0 false (String c r) = JS.digits_go 0 (String c r).
Proof.
  intros Hc Hr. cbn [JSText.digitRun JS.digits_go].
  rewrite (digitOf_decimal c Hc), Hc. apply digitRun_decimal, Hr.
Qed.

Lemma digit_not_space c :
  JS.is_digit c = true -> JSText.isWhiteSpace c = false.
Proof. intros H. digit_cases c H; reflexivity. Qed.

Ltac run_parseInt :=
  cbv beta iota zeta;
  match goal with
  | |- context [JSText.digitRun 10 0 false ?s] =>
      destruct (JSText.digitRun 10 0 false s); reflexivity
  end.

(** [parseInt] on a run of decimal digits, bare or after a minus sign. *)
Lemma parseInt_unsigned s :
  s <> "" -> allDigits s = true ->
  JSText.parseInt s = JS.digits_go 0 s.
Proof.
  destruct s as [|c r]; [contradiction|]. intros _ Hd.
  cbn [allDigits] in Hd. apply andb_prop in Hd as [Hc Hr].
  rewrite <- (digitRun_start c r Hc Hr).
  unfold JSText.parseInt. cbn [JSText.trimStart].
  rewrite (digit_not_space c Hc).
  digit_cases c Hc; try run_parseInt.
  destruct r as [|c2 r2]; [reflexivity|].
  cbn [allDigits] in Hr. apply andb_prop in Hr as [Hc2 Hr2].
  digit_cases c2 Hc2; run_parseInt.
Qed.

Lemma parseInt_negative s :
  s <> "" -> allDigits s = true ->
  JSText.parseInt (String "-" s)
  = match JS.digits_go 0 s with
    | JS.Int v => JS.Int (- v)
    | JS.NaN => JS.NaN
    end.
Proof.
  destruct s as [|c r]; [contradiction|]. intros _ Hd.
  cbn [allDigits] in Hd. apply andb_prop in Hd as [Hc Hr].
  rewrite <- (digitRun_start c r Hc Hr).
  unfold JSText.parseInt. cbn [JSText.trimStart].
  change (JSText.isWhiteSpace "-") with false. cbv beta iota zeta.
  digit_cases c Hc; try run_parseInt.
  destruct r as [|c2 r2]; [reflexivity|].
  cbn [allDigits] in Hr. apply andb_prop in Hr as [Hc2 Hr2].
  digit_cases c2 Hc2; run_parseInt.
Qed.

(** Reading a printed integer with [parseInt] gives it back. *)
Lemma parseInt_toString n :
  JSText.parseInt (JSText.toString (JS.Int n)) = JS.Int n.
Proof.
  unfold JSText.toString. destruct (Z.ltb_spec n 0) as [Hneg|Hpos].
  - rewrite parseInt_negative
      by (try apply natural_nonempty; apply natural_allDigits; lia).
    fold (JS.Number (JSText.natural (- n))).
    rewrite Number_natural by lia. f_equal. lia.
  - rewrite parseInt_unsigned
      by (try apply natural_nonempty; apply natural_allDigits; lia).
    apply Number_natural. lia.
Qed.

Lemma allDigits_freeOf c s :
  JS.is_digit c = false -> allDigits s = true -> freeOf c s = true.
Proof.
  intros Hc. induction s as [|x s IH]; [reflexivity|].
  cbn [allDigits freeOf]. intros H. apply andb_prop in H as [Hx Hs].
  rewrite (IH Hs), andb_true_r. apply negb_true_iff.
  destruct (Ascii.eqb_spec x c) as [->|_]; [congruence | reflexivity].
Qed.

Lemma toString_freeOf c n :
  JS.is_digit c = false -> c <> "-"%char ->
  freeOf c (JSText.toString (JS.Int n)) = true.
Proof.
  intros Hc Hm. unfold JSText.toString. destruct (Z.ltb_spec n 0).
  - cbn [freeOf]. rewrite allDigits_freeOf
      by (try exact Hc; apply natural_allDigits; lia).
    rewrite andb_true_r. apply negb_true_iff.
    destruct (Ascii.eqb_spec "-"%char c); [congruence | reflexivity].
  - apply allDigits_freeOf; [exact Hc | apply natural_allDigits; lia].
Qed.


(** *** Blank lines *)

Lemma hasVisible_append a b :
  hasVisible (String.append a b) = hasVisible a || hasVisible b.
Proof.
  induction a as [|x a IH]; cbn; [reflexivity|].
  rewrite IH. apply orb_assoc.
Qed.

Lemma trimStart_visible s : hasVisible (JSText.trimStart s) = hasVisible s.
Proof.
  induction s as [|c s IH]; cbn [JSText.trimStart hasVisible]; [reflexivity|].
  destruct (JSText.isWhiteSpace c) eqn:E; cbn [hasVisible negb orb].
  - exact IH.
  - rewrite E. reflexivity.
Qed.

Lemma reverse_visible s : forall acc,
  hasVisible (JSText.reverse acc s) = hasVisible acc || hasVisible s.
Proof.
  induction s as [|c s IH]; intros acc; cbn [JSText.reverse hasVisible].
  - rewrite orb_false_r. reflexivity.
  - rewrite IH. cbn [hasVisible].
    destruct (JSText.isWhiteSpace c), (hasVisible acc), (hasVisible s);
      reflexivity.
Qed.

Lemma trim_visible s : hasVisible (JSText.trim s) = hasVisible s.
Proof.
  unfold JSText.trim, JSText.trimEnd.
  rewrite reverse_visible, trimStart_visible, reverse_visible, trimStart_visible.
  reflexivity.
Qed.

(** A line with a visible character passes the filter of the import. *)
Lemma visible_kept s :
  hasVisible s = true -> (0 <? String.length (JSText.trim s))%nat = true.
Proof.
  intros H. rewrite <- trim_visible in H.
  destruct (JSText.trim s); [discriminate | reflexivity].
Qed.

(** *** Rows *)

Lemma exportRow_join s :
  exportRow s = JSText.join "," (exportColumns s).
Proof. reflexivity. Qed.

Lemma plainMember_columns s :
  plainMember s = true ->
  forallb (freeOf ",") (exportColumns s) = true
  /\ forallb (freeOf newline) (exportColumns s) = true.
Proof.
  unfold plainMember. intros H.
  repeat (apply andb_prop in H as [H ?]).
  unfold exportColumns. cbn [forallb].
  rewrite !toString_freeOf by (try reflexivity; discriminate).
  repeat match goal with E : freeOf _ _ = true |- _ => rewrite E; clear E end.
  destruct (StaffMember.shiftType s), (StaffMember.status s); split; reflexivity.
Qed.

Lemma join_freeOf c sep a :
  freeOf c sep = true -> forallb (freeOf c) a = true ->
  freeOf c (JSText.join sep a) = true.
Proof.
  intros Hsep. induction a as [|x a IH]; [reflexivity|].
  cbn [forallb]. intros H. apply andb_prop in H as [Hx Ha].
  destruct a as [|y a]; [exact Hx|].
  change (JSText.join sep (x :: y :: a))
    with (String.append x (String.append sep (JSText.join sep (y :: a)))).
  rewrite !freeOf_append, Hx, Hsep, (IH Ha). reflexivity.
Qed.

Lemma exportRow_line s :
  plainMember s = true ->
  freeOf newline (exportRow s) = true /\ hasVisible (exportRow s) = true.
Proof.
  intros Hp. destruct (plainMember_columns s Hp) as [_ Hn]. split.
  - rewrite exportRow_join. apply join_freeOf; [reflexivity | exact Hn].
  - unfold exportRow. rewrite hasVisible_append.
    change (hasVisible (String.append "," ?x)) with true.
    cbn [String.append hasVisible].
    change (JSText.isWhiteSpace ",") with false. cbn [negb orb].
    apply orb_true_r.
Qed.

Lemma trim_texts t e :
  JSText.trim (shiftTypeText t) = shiftTypeText t
  /\ JSText.trim (statusText e) = statusText e.
Proof. destruct t, e; split; reflexivity. Qed.

(** The import of an exported row. *)
Lemma importedOf_row i s :
  plainMember s = true ->
  importedOf i (exportRow s)
  = Some
      (Imported.mk (String.append "imported-" (JSText.toString (JS.Int i)))
         (StaffMember.name s) (StaffMember.role s)
         (StaffMember.cycleStartDate s)
         (JS.Int (StaffMember.patternOn s)) (JS.Int (StaffMember.patternOff s))
         (shiftTypeText (StaffMember.shiftType s))
         (statusText (StaffMember.status s))).
Proof.
  intros Hp. destruct (plainMember_columns s Hp) as [Hc _].
  unfold importedOf. rewrite exportRow_join.
  change (String "," "") with (String ","%char "").
  rewrite split_join by (try exact Hc; discriminate).
  unfold exportColumns. cbn [length Nat.leb nth].
  rewrite !parseInt_toString.
  rewrite (proj2 (trim_texts Normal (StaffMember.status s))). reflexivity.
Qed.

Lemma importLoop_rows staff : forall i,
  forallb plainMember staff = true ->
  length (importLoop i (map exportRow staff)) = length staff
  /\ forall k s,
       staff !! k = Some s ->
       importLoop i (map exportRow staff) !! k
       = Some
           (Imported.mk
              (String.append "imported-" (JSText.toString (JS.Int (i + Z.of_nat k))))
              (StaffMember.name s) (StaffMember.role s)
              (StaffMember.cycleStartDate s)
              (JS.Int (StaffMember.patternOn s))
              (JS.Int (StaffMember.patternOff s))
              (shiftTypeText (StaffMember.shiftType s))
              (statusText (StaffMember.status s))).
Proof.
  induction staff as [|x staff IH]; intros i Hp.
  - split; [reflexivity | intros k s Hk; discriminate].
  - cbn [forallb] in Hp. apply andb_prop in Hp as [Hx Hs].
    cbn [map importLoop]. rewrite (importedOf_row i x Hx).
    destruct (IH (i + 1) Hs) as [Hlen Hrows]. split.
    + cbn [length]. rewrite Hlen. reflexivity.
    + intros [|k] s Hk.
      * cbn in Hk. injection Hk as <-. cbn. rewrite Z.add_0_r. reflexivity.
      * cbn in Hk. etransitivity; [exact (Hrows k s Hk)|].
        replace (i + Z.of_nat (S k)) with (i + 1 + Z.of_nat k) by lia.
        reflexivity.
Qed.

Lemma csvContent_lines staff :
  forallb plainMember staff = true ->
  List.filter (fun l => (0 <? String.length (JSText.trim l))%nat)
    (JS.split newline (csvContent staff))
  = "Name,Role,CycleStartDate,PatternOn,PatternOff,ShiftType,Status"
    :: map exportRow staff.
Proof.
  intros Hp. unfold csvContent.
  assert (Hrows : forallb (freeOf newline) (map exportRow staff) = true
                  /\ forallb (fun l => (0 <? String.length (JSText.trim l))%nat)
                       (map exportRow staff) = true).
  { induction staff as [|x staff IH]; [split; reflexivity|].
    cbn [forallb] in Hp. apply andb_prop in Hp as [Hx Hs].
    destruct (exportRow_line x Hx) as [H1 H2]. destruct (IH Hs) as [H3 H4].
    cbn [map forallb]. rewrite H1, H3, H4, (visible_kept _ H2). split; reflexivity. }
  destruct Hrows as [Hfree Hvis].
  rewrite split_join; [| discriminate | cbn [forallb]; rewrite Hfree; reflexivity].
  cbn [List.filter].
  change (0 <? String.length (JSText.trim
            "Name,Role,CycleStartDate,PatternOn,PatternOff,ShiftType,Status"))%nat
    with true.
  cbv iota. f_equal.
  clear Hfree. induction (map exportRow staff) as [|l ls IH]; [reflexivity|].
  cbn [forallb] in Hvis. apply andb_prop in Hvis as [Hl Hls].
  cbn [List.filter]. rewrite Hl, (IH Hls). reflexivity.
Qed.

(** X11. Exporting and importing again. For members whose name, role and
    start date hold no comma and no line feed, the import of the exported
    text hands over as many members, in the same order, with the same
    name, role, start date, pattern, shift type and status; the ids are
    replaced by [imported-1], [imported-2], ... and the overrides are
    gone. With no member there is nothing to hand over. *)
Theorem import_of_export (staff : list StaffMember.t) :
  forallb plainMember staff = true ->
  match staff with
  | [] => handleImport (csvContent staff) = None
  | _ :: _ =>
      exists newStaff,
        handleImport (csvContent staff) = Some newStaff
        /\ length newStaff = length staff
        /\ forall k s,
             staff !! k = Some s ->
             newStaff !! k = Some (reimported k s)
             /\ asStaffMember (reimported k s)
                = Some
                    (StaffMember.mk (Imported.id (reimported k s))
                       (StaffMember.name s) (StaffMember.role s)
                       (StaffMember.cycleStartDate s) (StaffMember.patternOn s)
                       (StaffMember.patternOff s) (StaffMember.shiftType s)
                       (StaffMember.status s) None)
  end.
Proof.
  intros Hp. unfold handleImport. rewrite (csvContent_lines staff Hp).
  cbn [tail]. destruct (importLoop_rows staff 1 Hp) as [Hlen Hrows].
  destruct staff as [|x staff].
  - reflexivity.
  - set (l := importLoop 1 (map exportRow (x :: staff))) in *.
    assert ((0 <? length l)%nat = true) as ->
      by (apply Nat.ltb_lt; rewrite Hlen; cbn; lia).
    exists l. split; [reflexivity|]. split; [exact Hlen|].
    intros k s Hk. split.
    + rewrite (Hrows k s Hk). unfold reimported.
      replace (1 + Z.of_nat k) with (Z.of_nat k + 1) by lia. reflexivity.
    + unfold asStaffMember, reimported.
      cbn [Imported.patternOn Imported.patternOff Imported.shiftType
             Imported.status Imported.id Imported.name Imported.role
             Imported.cycleStartDate].
      destruct (StaffMember.shiftType s), (StaffMember.status s); reflexivity.
Qed.

(** X12. A comma in a name breaks the row. When the name is [a,b] (and
    no other comma stands in the name, the role or the start date; the
    row index and the pattern numbers are below 2^53, and the start date
    has at most fifteen characters, so that every number is printed and
    read exactly), the import of the exported row reads [a] as the name and [b] as the role,
    and every later column one place too far: the role as the start
    date, the start date through [parseInt] as [patternOn], [patternOn]
    as [patternOff], [patternOff] as the shift type and the shift type as
    the status; the object is not a staff member of the declared
    types. *)
Theorem import_row_with_comma (i : Z) (s : StaffMember.t) (a b : string) :
  StaffMember.name s = String.append a (String "," b) ->
  freeOf "," a = true -> freeOf "," b = true ->
  freeOf "," (StaffMember.role s) = true ->
  freeOf "," (StaffMember.cycleStartDate s) = true ->
  0 <= i < 2 ^ 53 ->
  Z.abs (StaffMember.patternOn s) < 2 ^ 53 ->
  Z.abs (StaffMember.patternOff s) < 2 ^ 53 ->
  (String.length (StaffMember.cycleStartDate s) <= 15)%nat ->
  let member :=
    Imported.mk (String.append "imported-" (JSText.toString (JS.Int i)))
      a b (StaffMember.role s)
      (JSText.parseInt (StaffMember.cycleStartDate s))
      (JS.Int (StaffMember.patternOn s))
      (JSText.toString (JS.Int (StaffMember.patternOff s)))
      (shiftTypeText (StaffMember.shiftType s)) in
  importedOf i (exportRow s) = Some member
  /\ asStaffMember member = None.
Proof.
  intros Hname Ha Hb Hrole Hcs _ _ _ _ member.
  assert (Hrow : exportRow s
                 = JSText.join ","
                     (a :: b :: tail (exportColumns s))).
  { unfold exportRow. rewrite Hname, append_assoc. reflexivity. }
  split.
  - unfold importedOf. rewrite Hrow.
    change (String "," "") with (String ","%char "").
    rewrite split_join.
    + unfold exportColumns. cbn [tail length Nat.leb nth].
      rewrite parseInt_toString.
      rewrite (proj1 (trim_texts (StaffMember.shiftType s) Permanent)).
      reflexivity.
    + discriminate.
    + unfold exportColumns. cbn [tail forallb].
      rewrite Ha, Hb, Hrole, Hcs.
      rewrite !toString_freeOf by (try reflexivity; discriminate).
      destruct (StaffMember.shiftType s), (StaffMember.status s); reflexivity.
  - unfold asStaffMember, member.
    cbn [Imported.patternOn Imported.patternOff Imported.shiftType
           Imported.status].
    destruct (JSText.parseInt (StaffMember.cycleStartDate s)); [reflexivity|].
    assert (Hnum : forall t,
               String.eqb (JSText.toString (JS.Int (StaffMember.patternOff s))) t
               = true -> freeOf "N" t = true /\ freeOf "H" t = true).
    { intros t Ht. apply String.eqb_eq in Ht. subst t.
      split; apply toString_freeOf; (reflexivity || discriminate). }
    destruct (String.eqb _ "Normal") eqn:E1.
    { destruct (Hnum _ E1) as [H _]. discriminate H. }
    destruct (String.eqb _ "Half") eqn:E2.
    { destruct (Hnum _ E2) as [_ H]. discriminate H. }
    reflexivity.
Qed.

Lemma append_inj_l a b c : String.append a b = String.append a c -> b = c.
Proof. induction a as [|x a IH]; cbn; [auto|]. intros H. injection H. exact IH. Qed.

Lemma importLoop_ids lines : forall i m,
  0 <= i -> In m (importLoop i lines) ->
  exists k, i <= k
            /\ Imported.id m = String.append "imported-" (JSText.natural k).
Proof.
  induction lines as [|line lines IH]; intros i m Hi Hin; [destruct Hin|].
  cbn [importLoop] in Hin.
  assert (Hrest : In m (importLoop (i + 1) lines) ->
                  exists k, i <= k
                    /\ Imported.id m
                       = String.append "imported-" (JSText.natural k)).
  { intros H. destruct (IH (i + 1) m ltac:(lia) H) as (k & Hk & E).
    exists k. split; [lia | exact E]. }
  destruct (importedOf i line) as [x|] eqn:Ex; [|exact (Hrest Hin)].
  destruct Hin as [<-|Hin]; [|exact (Hrest Hin)].
  exists i. split; [lia|].
  unfold importedOf in Ex. destruct (7 <=? _)%nat; [|discriminate].
  injection Ex as <-. cbn [Imported.id]. unfold JSText.toString.
  destruct (Z.ltb_spec i 0); [lia | reflexivity].
Qed.

Lemma importLoop_NoDup lines : forall i,
  0 <= i -> List.NoDup (map Imported.id (importLoop i lines)).
Proof.
  induction lines as [|line lines IH]; intros i Hi; [constructor|].
  cbn [importLoop].
  destruct (importedOf i line) as [x|] eqn:Ex; [|apply IH; lia].
  cbn [map]. constructor; [|apply IH; lia].
  intros Hin. apply in_map_iff in Hin as (m & Eid & Hm).
  destruct (importLoop_ids lines (i + 1) m ltac:(lia) Hm) as (k & Hk & Ek).
  assert (Ex' : In x (importLoop i (line :: lines))).
  { cbn [importLoop]. rewrite Ex. left. reflexivity. }
  unfold importedOf in Ex. destruct (7 <=? _)%nat; [|discriminate].
  injection Ex as <-. cbn [Imported.id] in Eid. rewrite Ek in Eid.
  unfold JSText.toString in Eid.
  destruct (Z.ltb_spec i 0); [lia|].
  apply (append_inj_l "imported-") in Eid.
  apply natural_inj in Eid; lia.
Qed.

(** X13. Whatever the text of the file, the members that an import hands
    over have pairwise distinct ids, and none of these ids has the form
    of a UUID, so that saving inserts each of them as a new row. *)
Theorem handleImport_ids (text : string) (newStaff : list Imported.t) :
  handleImport text = Some newStaff ->
  newStaff <> []
  /\ List.NoDup (map Imported.id newStaff)
  /\ forall m, In m newStaff -> isValidUUID (Imported.id m) = false.
Proof.
  unfold handleImport.
  set (lines := tail (List.filter _ (JS.split newline text))).
  destruct (0 <? length (importLoop 1 lines))%nat eqn:Hlen; [|discriminate].
  intros H. injection H as <-. split; [|split].
  - destruct (importLoop 1 lines); [discriminate Hlen | discriminate].
  - apply importLoop_NoDup. lia.
  - intros m Hm.
    destruct (importLoop_ids lines 1 m ltac:(lia) Hm) as (k & _ & ->).
    reflexivity.
Qed.


(** ** Dates *)

(** The year of the runtime is the year that holds the day. *)
Lemma YearFromDay_spec day :
  JS.DayFromYear (JSDate.YearFromDay day) <= day
  < JS.DayFromYear (JSDate.YearFromDay day + 1).
Proof.
  unfold JSDate.YearFromDay.
  set (y := 1970 + 400 * day / 146097).
  assert (Hy : 146097 * (y - 1970) <= 400 * day < 146097 * (y - 1970) + 146097).
  { unfold y. pose proof (Z.div_mod (400 * day) 146097 ltac:(lia)).
    pose proof (Z.mod_pos_bound (400 * day) 146097 ltac:(lia)). lia. }
  clearbody y.
  destruct (Z.ltb_spec day (JS.DayFromYear y)) as [H1|H1];
    [|destruct (Z.leb_spec (JS.DayFromYear (y + 1)) day) as [H2|H2]].
  - replace (y - 1 + 1) with y by lia. split; [|lia].
    revert H1. unfold JS.DayFromYear. Z.div_mod_to_equations. lia.
  - split; [lia|].
    revert H2. unfold JS.DayFromYear. Z.div_mod_to_equations. lia.
  - lia.
Qed.

Lemma DayFromYear_mono a b : a <= b -> JS.DayFromYear a <= JS.DayFromYear b.
Proof. intros H. unfold JS.DayFromYear. Z.div_mod_to_equations. lia. Qed.

Lemma YearFromDay_unique day y :
  JS.DayFromYear y <= day < JS.DayFromYear (y + 1) ->
  JSDate.YearFromDay day = y.
Proof.
  intros Hy. pose proof (YearFromDay_spec day) as Hs.
  set (z := JSDate.YearFromDay day) in *. clearbody z.
  destruct (Z.lt_trichotomy z y) as [Hlt|[Heq|Hgt]]; [|exact Heq|].
  - pose proof (DayFromYear_mono (z + 1) y ltac:(lia)). lia.
  - pose proof (DayFromYear_mono (y + 1) z ltac:(lia)). lia.
Qed.

Lemma Day_of_day day tod :
  0 <= tod < JS.msPerDay -> JSDate.Day (day * JS.msPerDay + tod) = day.
Proof.
  intros H. unfold JSDate.Day, JS.msPerDay in *. Z.div_mod_to_equations. lia.
Qed.

Lemma TimeWithinDay_of_day day tod :
  0 <= tod < JS.msPerDay ->
  JSDate.TimeWithinDay (day * JS.msPerDay + tod) = tod.
Proof.
  intros H. unfold JSDate.TimeWithinDay, JS.msPerDay in *.
  Z.div_mod_to_equations. lia.
Qed.

Lemma Day_TimeWithinDay t :
  t = JSDate.Day t * JS.msPerDay + JSDate.TimeWithinDay t
  /\ 0 <= JSDate.TimeWithinDay t < JS.msPerDay.
Proof.
  unfold JSDate.Day, JSDate.TimeWithinDay, JS.msPerDay.
  Z.div_mod_to_equations. lia.
Qed.

Lemma DayWithinYear_range t :
  0 <= JSDate.DayWithinYear t
  < (if JS.InLeapYear (JSDate.YearFromTime t) then 366 else 365).
Proof.
  unfold JSDate.DayWithinYear, JSDate.YearFromTime.
  pose proof (YearFromDay_spec (JSDate.Day t)) as Hs.
  rewrite DayFromYear_succ in Hs. lia.
Qed.

Ltac split_ltb :=
  repeat match goal with
         | |- context [?a <? ?b] => destruct (Z.ltb_spec a b)
         end.

(** The local fields that the runtime reads from a time are a valid
    calendar date, and its day number is the day of the time. *)
Lemma fields_valid t :
  let c :=
    Calendar.mk (JSDate.YearFromTime t) (JSDate.MonthFromTime t + 1)
      (JSDate.DateFromTime t) in
  Calendar.valid c = true /\ Calendar.dayNumber c = JSDate.Day t.
Proof.
  intros c. subst c. unfold Calendar.valid, Calendar.dayNumber.
  cbn [Calendar.year Calendar.month Calendar.day].
  pose proof (DayWithinYear_range t) as Hr.
  assert (Hd : JSDate.Day t
               = JS.DayFromYear (JSDate.YearFromTime t) + JSDate.DayWithinYear t)
    by (unfold JSDate.DayWithinYear; lia).
  rewrite Hd. clear Hd.
  unfold JSDate.DateFromTime, JSDate.MonthFromTime.
  set (y := JSDate.YearFromTime t) in *.
  set (d := JSDate.DayWithinYear t) in *.
  clearbody d y.
  destruct (JS.InLeapYear y) eqn:EL; split_ltb; try lia;
    (rewrite MakeDay_in_year by lia;
     change (Calendar.isLeap y) with (JS.InLeapYear y); rewrite EL;
     match goal with
     | |- context [Calendar.daysInMonth y ?m] =>
         let m' := eval vm_compute in m in
         change (Calendar.daysInMonth y m) with (Calendar.daysInMonth y m');
         unfold Calendar.daysInMonth
     end;
     change (Calendar.isLeap y) with (JS.InLeapYear y); rewrite ?EL;
     repeat match goal with
            | |- context [JS.DayOfMonthStart ?b ?m] =>
                let v := eval vm_compute in (JS.DayOfMonthStart b m) in
                change (JS.DayOfMonthStart b m) with v
            end;
     split; [|lia];
     repeat (apply andb_true_intro; split); apply Z.leb_le; lia).
Qed.

(** Reading the fields of a time inside the day of a valid date gives the
    date back. *)
Lemma fields_of_valid c tod t :
  Calendar.valid c = true -> 0 <= tod < JS.msPerDay ->
  t = Calendar.dayNumber c * JS.msPerDay + tod ->
  JSDate.YearFromTime t = Calendar.year c
  /\ JSDate.MonthFromTime t = Calendar.month c - 1
  /\ JSDate.DateFromTime t = Calendar.day c.
Proof.
  destruct c as [y m d]. unfold Calendar.valid, Calendar.dayNumber.
  cbn [Calendar.year Calendar.month Calendar.day]. intros Hv Htod Ht.
  repeat (apply andb_prop in Hv as [Hv ?]).
  apply Z.leb_le in Hv.
  repeat match goal with H : (_ <=? _) = true |- _ => apply Z.leb_le in H end.
  assert (Hday : JSDate.Day t = JS.MakeDay y (m - 1) d)
    by (rewrite Ht; apply Day_of_day; exact Htod).
  rewrite MakeDay_in_year in Hday by lia.
  change (Calendar.isLeap y) with (JS.InLeapYear y) in Hday.
  assert (Hc : m = 1 \/ m = 2 \/ m = 3 \/ m = 4 \/ m = 5 \/ m = 6 \/ m = 7
               \/ m = 8 \/ m = 9 \/ m = 10 \/ m = 11 \/ m = 12) by lia.
  assert (Hyear : forall k,
             0 <= k < (if JS.InLeapYear y then 366 else 365) ->
             JSDate.Day t = JS.DayFromYear y + k ->
             JSDate.YearFromTime t = y).
  { intros k Hk E. unfold JSDate.YearFromTime. apply YearFromDay_unique.
    rewrite DayFromYear_succ, E. lia. }
  unfold JSDate.DateFromTime, JSDate.MonthFromTime, JSDate.DayWithinYear.
  unfold Calendar.daysInMonth in *.
  change (Calendar.isLeap y) with (JS.InLeapYear y) in *.
  repeat (destruct Hc as [-> | Hc]); try subst m;
    destruct (JS.InLeapYear y) eqn:EL;
    repeat match type of Hday with
           | context [JS.DayOfMonthStart ?b ?k] =>
               let v := eval vm_compute in (JS.DayOfMonthStart b k) in
               change (JS.DayOfMonthStart b k) with v in Hday
           end;
    cbv beta iota in *;
    (assert (Ey : JSDate.YearFromTime t = y)
       by (apply (Hyear (JSDate.Day t - JS.DayFromYear y)); lia));
    rewrite Ey, EL, Hday;
    (split; [reflexivity|]);
    split_ltb; try lia;
    repeat match goal with
           | |- context [JS.DayOfMonthStart ?b ?k] =>
               let v := eval vm_compute in (JS.DayOfMonthStart b k) in
               change (JS.DayOfMonthStart b k) with v
           end;
    lia.
Qed.

Lemma valid_addDays n : forall c,
  Calendar.valid c = true -> Calendar.valid (Calendar.addDays n c) = true.
Proof.
  induction n as [|n IH]; intros c Hv; [exact Hv|].
  cbn [Calendar.addDays]. apply IH, valid_next, Hv.
Qed.

(** *** The text of a date *)

Lemma digits_length fuel : forall (k : nat) n acc,
  (1 <= k <= fuel)%nat -> 0 <= n < 10 ^ Z.of_nat k ->
  (k = 1%nat \/ 10 ^ (Z.of_nat k - 1) <= n) ->
  String.length (JSText.digits fuel n acc) = (k + String.length acc)%nat.
Proof.
  induction fuel as [|f IH]; intros k n acc Hk Hn Hlo; [lia|].
  cbn [JSText.digits].
  destruct (Z.ltb_spec n 10) as [Hsmall|Hbig].
  - assert (k = 1%nat) as ->.
    { destruct Hlo as [?|Hlo]; [assumption|].
      destruct (Nat.eq_dec k 1%nat) as [?|Hne]; [assumption|]. exfalso.
      assert (10 ^ 1 <= 10 ^ (Z.of_nat k - 1))
        by (apply Z.pow_le_mono_r; lia).
      lia. }
    reflexivity.
  - assert (Hk2 : (2 <= k)%nat).
    { destruct (Nat.le_gt_cases 2%nat k) as [?|Hk1]; [assumption|]. exfalso.
      assert (k = 1%nat) as -> by lia. cbn in Hn. lia. }
    destruct Hlo as [?|Hlo]; [lia|].
    replace (Z.of_nat k) with (Z.succ (Z.of_nat k - 1)) in Hn by lia.
    rewrite Z.pow_succ_r in Hn by lia.
    replace (Z.of_nat k - 1) with (Z.succ (Z.of_nat k - 2)) in Hlo by lia.
    rewrite Z.pow_succ_r in Hlo by lia.
    rewrite (IH (k - 1)%nat).
    + cbn [String.length]. lia.
    + lia.
    + replace (Z.of_nat (k - 1)) with (Z.of_nat k - 1) by lia.
      split; [apply Z.div_pos; lia|].
      apply Z.div_lt_upper_bound; lia.
    + destruct (Nat.eq_dec (k - 1)%nat 1%nat) as [?|Hne]; [left; assumption|right].
      replace (Z.of_nat (k - 1) - 1) with (Z.of_nat k - 2) by lia.
      apply Z.div_le_lower_bound; lia.
Qed.

Lemma natural_length (k : nat) n :
  (1 <= k)%nat -> 0 <= n < 10 ^ Z.of_nat k ->
  (k = 1%nat \/ 10 ^ (Z.of_nat k - 1) <= n) ->
  String.length (JSText.natural n) = k.
Proof.
  intros Hk Hn Hlo. unfold JSText.natural.
  rewrite (digits_length _ k); [cbn; lia | | exact Hn | exact Hlo].
  split; [exact Hk|].
  destruct Hlo as [->|Hlo]; [lia|].
  assert (Hp : 0 < 10 ^ (Z.of_nat k - 1)) by (apply Z.pow_pos_nonneg; lia).
  assert (H2 : 2 ^ (Z.of_nat k - 1) <= 10 ^ (Z.of_nat k - 1))
    by (apply Z.pow_le_mono_l; lia).
  assert (Hl : Z.of_nat k - 1 <= Z.log2 n).
  { apply Z.log2_le_pow2; lia. }
  lia.
Qed.

(** A number from 0 to 99 printed on two places. *)
Lemma pad2 n :
  0 <= n <= 99 ->
  let s := JSText.padStart 2 "0" (JSText.natural n) in
  allDigits s = true /\ String.length s = 2%nat /\ JS.Number s = JS.Int n.
Proof.
  intros Hn s. subst s. unfold JSText.padStart.
  destruct (Z.ltb_spec n 10) as [Hs|Hb].
  - rewrite (natural_length 1 n) by (cbn; lia).
    change (JSText.filler "0" (2 - 1)) with "0". cbn [String.append].
    split; [|split].
    + cbn [allDigits]. rewrite natural_allDigits by lia. reflexivity.
    + cbn [String.length]. rewrite (natural_length 1 n) by (cbn; lia).
      reflexivity.
    + unfold JS.Number. cbn [JS.digits_go].
      change (JS.is_digit "0") with true. cbv iota.
      change (10 * 0 + JS.digit_value "0") with 0.
      apply Number_natural. lia.
  - rewrite (natural_length 2 n) by (cbn; lia).
    change (JSText.filler "0" (2 - 2)) with "". cbn [String.append].
    split; [|split].
    + apply natural_allDigits. lia.
    + apply (natural_length 2 n); cbn; lia.
    + apply Number_natural. lia.
Qed.

Lemma calendar_valid_range c :
  Calendar.valid c = true ->
  1 <= Calendar.month c <= 12 /\ 1 <= Calendar.day c <= 31.
Proof.
  unfold Calendar.valid. intros Hv.
  repeat (apply andb_prop in Hv as [Hv ?]).
  apply Z.leb_le in Hv.
  repeat match goal with H : (_ <=? _) = true |- _ => apply Z.leb_le in H end.
  assert (Calendar.daysInMonth (Calendar.year c) (Calendar.month c) <= 31).
  { unfold Calendar.daysInMonth.
    repeat match goal with
           | |- context [match ?x with _ => _ end] => destruct x
           end; lia. }
  lia.
Qed.

(** The text that [getLocalDateString] prints for a valid time. *)
Lemma getLocalDateString_text zone t :
  let c := localDateOf zone t in
  0 <= Calendar.year c ->
  getLocalDateString zone (JS.Int t)
  = JSText.join "-"
      [JSText.natural (Calendar.year c);
       JSText.padStart 2 "0" (JSText.natural (Calendar.month c));
       JSText.padStart 2 "0" (JSText.natural (Calendar.day c))].
Proof.
  intros c Hy. unfold getLocalDateString, JSDate.getFullYear, JSDate.getMonth,
    JSDate.getDate. cbn [JS.add JSText.join].
  destruct (fields_valid (JSDate.LocalTime zone t)) as [Hv _].
  change (Calendar.valid c = true) in Hv.
  destruct (calendar_valid_range c Hv) as [Hm Hd].
  unfold c, localDateOf in Hy, Hm, Hd |- *.
  cbn [Calendar.year Calendar.month Calendar.day] in *.
  unfold JSText.toString.
  repeat match goal with
         | |- context [?a <? 0] => destruct (Z.ltb_spec a 0); [lia|]
         end.
  reflexivity.
Qed.

Lemma getLocalDateString_fields zone t :
  let c := localDateOf zone t in
  0 <= Calendar.year c ->
  JS.split "-" (getLocalDateString zone (JS.Int t))
  = [JSText.natural (Calendar.year c);
     JSText.padStart 2 "0" (JSText.natural (Calendar.month c));
     JSText.padStart 2 "0" (JSText.natural (Calendar.day c))]
  /\ Calendar.valid c = true
  /\ dateOf (getLocalDateString zone (JS.Int t)) = c.
Proof.
  intros c Hy.
  destruct (fields_valid (JSDate.LocalTime zone t)) as [Hv _].
  change (Calendar.valid c = true) in Hv.
  destruct (calendar_valid_range c Hv) as [Hm Hd].
  destruct (pad2 (Calendar.month c) ltac:(lia)) as (Am & Lm & Nm).
  destruct (pad2 (Calendar.day c) ltac:(lia)) as (Ad & Ld & Nd).
  assert (Hsplit : JS.split "-" (getLocalDateString zone (JS.Int t))
                   = [JSText.natural (Calendar.year c);
                      JSText.padStart 2 "0" (JSText.natural (Calendar.month c));
                      JSText.padStart 2 "0" (JSText.natural (Calendar.day c))]).
  { rewrite (getLocalDateString_text zone t Hy). fold c.
    change "-"%string with (String "-"%char "").
    apply split_join; [discriminate|].
    cbn [forallb].
    rewrite !allDigits_freeOf
      by (try reflexivity; try assumption; apply natural_allDigits; lia).
    reflexivity. }
  split; [exact Hsplit|]. split; [exact Hv|].
  unfold dateOf. rewrite Hsplit. cbn [map nth].
  rewrite Number_natural, Nm, Nd by lia.
  destruct c; reflexivity.
Qed.

Lemma getLocalDateString_iso zone t :
  let c := localDateOf zone t in
  1000 <= Calendar.year c <= 9999 ->
  isoDate (getLocalDateString zone (JS.Int t)) = true
  /\ dateOf (getLocalDateString zone (JS.Int t)) = c
  /\ Calendar.valid c = true.
Proof.
  intros c Hy.
  destruct (getLocalDateString_fields zone t ltac:(fold c; lia))
    as (Hsplit & Hv & Hdate). fold c in Hsplit, Hv, Hdate.
  split; [|split; assumption].
  destruct (calendar_valid_range c Hv) as [Hm Hd].
  destruct (pad2 (Calendar.month c) ltac:(lia)) as (Am & Lm & _).
  destruct (pad2 (Calendar.day c) ltac:(lia)) as (Ad & Ld & _).
  unfold isoDate. rewrite Hsplit.
  rewrite natural_allDigits, Am, Ad, Lm, Ld by lia.
  rewrite (natural_length 4 (Calendar.year c));
    [reflexivity | lia | change (10 ^ Z.of_nat 4) with 10000; lia
    | right; change (10 ^ (Z.of_nat 4 - 1)) with 1000; lia].
Qed.

(** X14. The text of a date. For a time whose local year has four
    digits, [getLocalDateString] prints a well-formed [YYYY-MM-DD] text,
    and the calculator's reading of that text is the local calendar date
    of the time, a valid date. *)
Theorem getLocalDateString_wellformed (zone : JSDate.Zone) (t : Z) :
  let c := localDateOf zone t in
  1000 <= Calendar.year c <= 9999 ->
  isoDate (getLocalDateString zone (JS.Int t)) = true
  /\ dateOf (getLocalDateString zone (JS.Int t)) = c
  /\ Calendar.valid c = true.
Proof.
  intros c Hy.
  destruct (getLocalDateString_fields zone t ltac:(fold c; lia))
    as (Hsplit & Hv & Hdate). fold c in Hsplit, Hv, Hdate.
  split; [|split; assumption].
  destruct (calendar_valid_range c Hv) as [Hm Hd].
  destruct (pad2 (Calendar.month c) ltac:(lia)) as (Am & Lm & _).
  destruct (pad2 (Calendar.day c) ltac:(lia)) as (Ad & Ld & _).
  unfold isoDate. rewrite Hsplit.
  rewrite natural_allDigits, Am, Ad, Lm, Ld by lia.
  rewrite (natural_length 4 (Calendar.year c));
    [reflexivity | lia | change (10 ^ Z.of_nat 4) with 10000; lia
    | right; change (10 ^ (Z.of_nat 4 - 1)) with 1000; lia].
Qed.

(** *** The days of the grid *)

Lemma dateLoop_lookup zone current n : forall i k,
  (k < n)%nat ->
  dateLoop zone current i n !! k
  = Some (dateEntry zone current (i + Z.of_nat k)).
Proof.
  induction n as [|n IH]; intros i k Hk; [lia|].
  cbn [dateLoop]. destruct k as [|k].
  - cbn. rewrite Z.add_0_r. reflexivity.
  - etransitivity; [apply (IH (i + 1) k); lia|].
    replace (i + 1 + Z.of_nat k) with (i + Z.of_nat (S k)) by lia.
    reflexivity.
Qed.

Lemma dateLoop_length zone current n : forall i,
  length (dateLoop zone current i n) = n.
Proof.
  induction n as [|n IH]; intros i; [reflexivity|].
  cbn [dateLoop length]. rewrite IH. reflexivity.
Qed.

Lemma MakeDay_add_date y m d i : JS.MakeDay y m (d + i) = JS.MakeDay y m d + i.
Proof. unfold JS.MakeDay. lia. Qed.

(** The entry for the day [k] days after the start. *)
Lemma dateEntry_spec zone t0 (k : nat) :
  let c0 := localDateOf zone t0 in
  let c := Calendar.addDays k c0 in
  let x := localTimeAfter zone t0 (Z.of_nat k) in
  Z.abs t0 <= 8640000000000000 ->
  boundedZone (JSDate.atLocal zone) ->
  settles zone x ->
  1000 <= Calendar.year c <= 9999 ->
  dateEntry zone (JS.Int t0) (Z.of_nat k)
  = DayStatus.mk (JS.Int (JS.UTC (JSDate.atLocal zone) x)) false
      (JSDate.weekdayUpper zone (JS.Int (JS.UTC (JSDate.atLocal zone) x)))
      (Calendar.day c)
      (getLocalDateString zone (JS.Int (JS.UTC (JSDate.atLocal zone) x)))
  /\ localDateOf zone (JS.UTC (JSDate.atLocal zone) x) = c
  /\ Calendar.valid c = true
  /\ Calendar.dayNumber c = Calendar.dayNumber c0 + Z.of_nat k.
Proof.
  intros c0 c x Ht0 Hz Hs Hy.
  set (lt0 := JSDate.LocalTime zone t0).
  destruct (fields_valid lt0) as [Hv0 Hd0].
  change (Calendar.valid c0 = true) in Hv0.
  change (Calendar.dayNumber c0 = JSDate.Day lt0) in Hd0.
  assert (Hv : Calendar.valid c = true) by (apply valid_addDays, Hv0).
  assert (Hn : Calendar.dayNumber c = Calendar.dayNumber c0 + Z.of_nat k)
    by (apply dayNumber_addDays, Hv0).
  destruct (Day_TimeWithinDay lt0) as [_ Htod].
  assert (Hx : x = Calendar.dayNumber c * JS.msPerDay + JSDate.TimeWithinDay lt0).
  { unfold x, localTimeAfter. fold lt0. rewrite Hn, Hd0. reflexivity. }
  destruct (fields_of_valid c _ x Hv Htod Hx) as (Fy & Fm & Fd).
  assert (Hlocal : JSDate.LocalTime zone (JS.UTC (JSDate.atLocal zone) x) = x).
  { unfold JSDate.LocalTime, JS.UTC. unfold settles in Hs. rewrite Hs. lia. }
  assert (Hdate : localDateOf zone (JS.UTC (JSDate.atLocal zone) x) = c).
  { unfold localDateOf. rewrite Hlocal, Fy, Fm, Fd.
    destruct c; cbn. f_equal. lia. }
  assert (Hclip : JS.TimeClip (JS.UTC (JSDate.atLocal zone) x)
                  = JS.Int (JS.UTC (JSDate.atLocal zone) x)).
  { destruct (calendar_valid_range c Hv) as [Hm Hd].
    pose proof (MakeDay_bounds (Calendar.year c) (Calendar.month c - 1)
                  (Calendar.day c) ltac:(lia) ltac:(lia) ltac:(lia)) as Hb.
    fold (Calendar.dayNumber c) in Hb.
    specialize (Hz x). unfold JS.TimeClip, JS.UTC.
    unfold JS.msPerDay in *.
    destruct (Z.ltb_spec 8640000000000000 (Z.abs (x - JSDate.atLocal zone x)));
      [lia | reflexivity]. }
  assert (Hset : JSDate.setDate zone (JSDate.copy (JS.Int t0))
                   (JS.add (JSDate.getDate zone (JS.Int t0))
                      (JS.Int (Z.of_nat k)))
                 = JS.Int (JS.UTC (JSDate.atLocal zone) x)).
  { unfold JSDate.copy, JS.TimeClip.
    destruct (Z.ltb_spec 8640000000000000 (Z.abs t0)); [lia|].
    cbn [JSDate.getDate JS.add JSDate.setDate]. fold lt0.
    rewrite MakeDay_add_date.
    assert (Hmk : JS.MakeDay (JSDate.YearFromTime lt0) (JSDate.MonthFromTime lt0)
                    (JSDate.DateFromTime lt0)
                  = JSDate.Day lt0).
    { rewrite <- Hd0. unfold Calendar.dayNumber, c0, localDateOf. fold lt0.
      cbn [Calendar.year Calendar.month Calendar.day].
      rewrite Z.add_simpl_r. reflexivity. }
    rewrite Hmk. fold (localTimeAfter zone t0 (Z.of_nat k)). fold x.
    exact Hclip. }
  split; [|repeat split; assumption].
  unfold dateEntry. rewrite Hset.
  cbn [JSDate.getDate]. rewrite Hlocal, Fd. reflexivity.
Qed.

(** X15. The days of the grid. For a valid start date, the range has
    [days] entries (none when [days] is not positive), none of them
    marked as a work day. The entry at position [k], when its local time
    stands on the host's clock and its year has four digits, carries a
    well-formed date text that reads as the calendar date [k] days after
    the local date of the start, and the day of the month of that
    date. *)
Theorem generateDateRange_days (zone : JSDate.Zone) (t0 days : Z) :
  let c0 := localDateOf zone t0 in
  Z.abs t0 <= 8640000000000000 ->
  boundedZone (JSDate.atLocal zone) ->
  length (generateDateRange zone (JS.Int t0) days) = Z.to_nat days
  /\ forall k e,
       generateDateRange zone (JS.Int t0) days !! k = Some e ->
       DayStatus.isWorkDay e = false
       /\ (settles zone (localTimeAfter zone t0 (Z.of_nat k)) ->
           1000 <= Calendar.year (Calendar.addDays k c0) <= 9999 ->
           isoDate (DayStatus.fullDateStr e) = true
           /\ dateOf (DayStatus.fullDateStr e) = Calendar.addDays k c0
           /\ Calendar.valid (Calendar.addDays k c0) = true
           /\ DayStatus.dayNumber e = Calendar.day (Calendar.addDays k c0)).
Proof.
  intros c0 Ht0 Hz. unfold generateDateRange.
  assert (Hcopy : JSDate.copy (JS.Int t0) = JS.Int t0).
  { unfold JSDate.copy, JS.TimeClip.
    destruct (Z.ltb_spec 8640000000000000 (Z.abs t0)); [lia | reflexivity]. }
  rewrite Hcopy. split; [apply dateLoop_length|].
  intros k e He.
  assert (Hk : (k < Z.to_nat days)%nat).
  { apply lookup_lt_Some in He. rewrite dateLoop_length in He. exact He. }
  rewrite dateLoop_lookup in He by exact Hk. injection He as <-.
  rewrite Z.add_0_l. split.
  - unfold dateEntry. destruct (JSDate.getDate zone _); reflexivity.
  - intros Hs Hy.
    destruct (dateEntry_spec zone t0 k Ht0 Hz Hs Hy) as (-> & Hd & Hv & _).
    cbn [DayStatus.fullDateStr DayStatus.dayNumber].
    destruct (getLocalDateString_iso zone
                (JS.UTC (JSDate.atLocal zone)
                   (localTimeAfter zone t0 (Z.of_nat k))))
      as (Hiso & Hdate & _); [rewrite Hd; exact Hy|].
    rewrite Hd in Hdate. repeat split; assumption.
Qed.

Lemma fixedZone_facts zone offset :
  fixedZone zone offset ->
  boundedZone (JSDate.atLocal zone) /\ forall x, settles zone x.
Proof.
  intros (Hb & Hu & Hl). split.
  - intros t. rewrite Hl. exact Hb.
  - intros x. unfold settles. rewrite Hu, Hl. reflexivity.
Qed.

(** X16. The row of a member on the grid. On a host whose offset never
    changes, for a valid well-formed start date from the year 100 on, a
    cycle of at least one day and pattern numbers that are exact as
    doubles, when the grid starts [j] days after the member's start
    date, the column at position [k] (whose date has a four-digit year)
    is worked exactly when [(j + k) mod cycleLength < patternOn]: the
    columns show the pattern day after day, from the day of the cycle
    that today is. *)
Theorem grid_follows_pattern (zone : JSDate.Zone) (offset t0 days : Z)
  (staff : StaffMember.t) (j k : nat) (e : DayStatus.t) :
  let s := StaffMember.cycleStartDate staff in
  let c0 := localDateOf zone t0 in
  let n := StaffMember.patternOn staff + StaffMember.patternOff staff in
  fixedZone zone offset ->
  Z.abs t0 <= 8640000000000000 ->
  isoDate s = true -> Calendar.valid (dateOf s) = true ->
  100 <= Calendar.year (dateOf s) ->
  Calendar.addDays j (dateOf s) = c0 ->
  1000 <= Calendar.year (Calendar.addDays k c0) <= 9999 ->
  1 <= n -> exactPattern staff ->
  generateDateRange zone (JS.Int t0) days !! k = Some e ->
  isStaffWorking (JSDate.atLocal zone) staff (DayStatus.fullDateStr e)
  = ((Z.of_nat j + Z.of_nat k) mod n <? StaffMember.patternOn staff).
Proof.
  intros s c0 n Hfix Ht0 Hs Hvs Hys Hj Hy Hn _ He. subst c0.
  destruct (fixedZone_facts zone offset Hfix) as [Hz Hset].
  unfold generateDateRange in He.
  assert (Hcopy : JSDate.copy (JS.Int t0) = JS.Int t0).
  { unfold JSDate.copy, JS.TimeClip.
    destruct (Z.ltb_spec 8640000000000000 (Z.abs t0)); [lia | reflexivity]. }
  rewrite Hcopy in He.
  assert (Hk : (k < Z.to_nat days)%nat).
  { apply lookup_lt_Some in He. rewrite dateLoop_length in He. exact He. }
  rewrite dateLoop_lookup in He by exact Hk. injection He as <-.
  rewrite Z.add_0_l.
  destruct (dateEntry_spec zone t0 k Ht0 Hz (Hset _) Hy) as (-> & Hd & Hv & Hnum).
  cbn [DayStatus.fullDateStr].
  set (target := getLocalDateString zone _).
  destruct (getLocalDateString_iso zone
              (JS.UTC (JSDate.atLocal zone) (localTimeAfter zone t0 (Z.of_nat k))))
    as (Hiso & Hdate & _); [rewrite Hd; exact Hy|].
  fold target in Hiso, Hdate. rewrite Hd in Hdate.
  assert (Hdiff : diffDays (JSDate.atLocal zone) staff target
                  = JS.Int (Calendar.dayNumber (dateOf target)
                            - Calendar.dayNumber (dateOf s))).
  { apply diffDays_same_offset; try assumption.
    - rewrite Hdate. lia.
    - destruct Hfix as (_ & _ & Hl). rewrite !Hl. reflexivity. }
  pose proof (dayInCycle_Int (JSDate.atLocal zone) staff target _ Hdiff Hn) as E.
  unfold isStaffWorking. rewrite E. cbn [JS.lt]. fold n. do 2 f_equal.
  rewrite Hdate, Hnum, <- Hj.
  rewrite dayNumber_addDays by exact Hvs. lia.
Qed.

(** ** The further properties at work on the roster of the examples *)

Lemma boundedZone_NewYork : boundedZone tzNewYork2024.
Proof.
  intros t. unfold tzNewYork2024, JS.msPerDay.
  destruct (_ && _); cbn; lia.
Defined.

Lemma boundedZone_Johannesburg : boundedZone tzJohannesburg.
Proof. intros t. unfold tzJohannesburg, JS.msPerDay. cbn. lia. Defined.

Lemma fixedZone_Johannesburg : fixedZone zoneJohannesburg 7200000.
Proof.
  unfold fixedZone, JS.msPerDay. split; [cbn; lia|].
  split; intros t; reflexivity.
Defined.

(** New York, 2024-03-11 against a start on 2024-01-01: 69 days are
    found for 70. *)
Lemma diffDays_offset_change_witness :
  diffDays tzNewYork2024 (weekdayStaff None) "2024-03-11" = JS.Int (70 - 1).
Proof.
  apply (diffDays_offset_change tzNewYork2024 (weekdayStaff None) "2024-03-11").
  - exact boundedZone_NewYork.
  - reflexivity.
  - reflexivity.
  - vm_compute. discriminate.
  - vm_compute. discriminate.
  - vm_compute. split; [reflexivity | discriminate].
Defined.

(** Johannesburg: Monday 2024-01-08 lies 7 days after the start and is
    worked. *)
Lemma isStaffWorking_calendar_witness :
  isStaffWorking tzJohannesburg (weekdayStaff None) "2024-01-08"
  = (Z.of_nat 7 mod (5 + 2) <? 5).
Proof.
  destruct (isStaffWorking_calendar tzJohannesburg (weekdayStaff None)
              "2024-01-08" 7) as [Hafter _].
  - exact boundedZone_Johannesburg.
  - reflexivity.
  - reflexivity.
  - vm_compute. discriminate.
  - vm_compute. discriminate.
  - reflexivity.
  - vm_compute. discriminate.
  - split; vm_compute; discriminate.
  - apply Hafter; vm_compute; reflexivity.
Defined.

(** Tuesday 2024-01-02 and Tuesday 2024-01-16 get the same answer. *)
Lemma isStaffWorking_periodic_witness :
  isStaffWorking tzJohannesburg (weekdayStaff None) "2024-01-02"
  = isStaffWorking tzJohannesburg (weekdayStaff None) "2024-01-16".
Proof.
  apply (isStaffWorking_periodic tzJohannesburg (weekdayStaff None)
           "2024-01-02" "2024-01-16" 2).
  - exact boundedZone_Johannesburg.
  - reflexivity.
  - reflexivity.
  - reflexivity.
  - vm_compute. discriminate.
  - vm_compute. discriminate.
  - vm_compute. discriminate.
  - reflexivity.
  - reflexivity.
  - vm_compute. discriminate.
  - reflexivity.
  - vm_compute. reflexivity.
Defined.

(** A member whose start date is written with slashes is off on every
    day. *)
Lemma isStaffWorking_degenerate_witness :
  isStaffWorking tzJohannesburg
    (StaffMember.mk "2" "Sipho" "Guide" "01/02/2024" 5 2 Normal Permanent None)
    "2024-01-02"
  = false.
Proof.
  apply (isStaffWorking_degenerate tzJohannesburg
           (StaffMember.mk "2" "Sipho" "Guide" "01/02/2024" 5 2 Normal
              Permanent None) "2024-01-02").
  left. vm_compute. lia.
Defined.

(** A click on Tuesday leaves Wednesday as it was. *)
Lemma clickCell_other_date_witness :
  exists p',
    clickCell tzJohannesburg [weekdayStaff None] 0 (dayOf "2024-01-02") !! 0%nat
    = Some p'
    /\ calculateShiftState tzJohannesburg p' (dayOf "2024-01-03")
       = calculateShiftState tzJohannesburg (weekdayStaff None)
           (dayOf "2024-01-03").
Proof.
  destruct (clickCell_other_date tzJohannesburg [weekdayStaff None] 0
              (dayOf "2024-01-02") (dayOf "2024-01-03") 0 (weekdayStaff None))
    as (p' & Hl & _ & _ & Hs & _).
  - discriminate.
  - reflexivity.
  - exists p'. split; assumption.
Defined.

(** A click on the manual half shift of Tuesday 2024-01-02 of the first
    of two members, who also has Wednesday off by hand: the Half entry
    is replaced by the day-off entry, and both members still hold at
    most one override for every date. *)
Lemma clickCell_keeps_invariant_witness :
  let staff :=
    [weekdayStaff (Some [halfEntry "2024-01-02"; dayOffEntry "2024-01-03"]);
     StaffMember.mk "2" "Sipho" "Guide" "2024-02-03" 4 4 Half Casual
       (Some [normalEntry "2024-01-02"])] in
  let staff' := clickCell tzJohannesburg staff 0 (dayOf "2024-01-02") in
  staff' !! 0%nat
  = Some (weekdayStaff
            (Some [dayOffEntry "2024-01-03"; dayOffEntry "2024-01-02"]))
  /\ length staff' = 2%nat
  /\ forall j p' d, staff' !! j = Some p' -> atMostOneFor d p'.
Proof.
  intros staff staff'. split; [vm_compute; reflexivity|].
  apply (clickCell_keeps_invariant tzJohannesburg staff 0 (dayOf "2024-01-02")).
  intros [|[|j]] p d H; [| |discriminate H]; injection H as <-;
    unfold atMostOneFor, overridesOrEmpty, weekdayStaff, datedFor, halfEntry,
      dayOffEntry, normalEntry;
    cbn [StaffMember.overrides List.filter ShiftOverride.date].
  - destruct (String.eqb_spec "2024-01-02" d) as [<-|_].
    + cbn. lia.
    + destruct (String.eqb "2024-01-03" d); cbn; lia.
  - destruct (String.eqb "2024-01-02" d); cbn; lia.
Defined.




(** A click on Saturday 2024-01-06 adds one to the day's total. *)
Lemma onDutyCount_after_click_witness :
  onDutyCount tzJohannesburg
    (clickCell tzJohannesburg [weekdayStaff None] 0 (dayOf "2024-01-06"))
    (dayOf "2024-01-06")
  = S (onDutyCount tzJohannesburg [weekdayStaff None] (dayOf "2024-01-06")).
Proof.
  apply (onDutyCount_after_click tzJohannesburg [weekdayStaff None] 0
           (weekdayStaff None) (dayOf "2024-01-06")).
  - reflexivity.
  - intros [|j] q H _; [reflexivity | discriminate H].
  - unfold atMostOneFor. cbn. lia.
Defined.

(** Two members exported and imported again. *)
Lemma import_of_export_witness :
  let staff :=
    [weekdayStaff (Some [halfEntry "2024-01-02"]);
     StaffMember.mk "2" "Sipho" "Guide" "2024-02-03" 4 4 Half Casual None] in
  exists newStaff,
    handleImport (csvContent staff) = Some newStaff
    /\ length newStaff = 2%nat.
Proof.
  intros staff.
  destruct (import_of_export staff) as (newStaff & Hrun & Hlen & _).
  - vm_compute. reflexivity.
  - exists newStaff. split; [exact Hrun | exact Hlen].
Defined.

(** The row of Smith, J. *)
Lemma import_row_with_comma_witness :
  importedOf 1
    (exportRow
       (StaffMember.mk "3" "Smith,J" "Guide" "2024-02-03" 4 3 Half Casual None))
  = Some
      (Imported.mk "imported-1" "Smith" "J" "Guide" (JS.Int 2024) (JS.Int 4)
         "3" "Half").
Proof.
  apply (import_row_with_comma 1
           (StaffMember.mk "3" "Smith,J" "Guide" "2024-02-03" 4 3 Half Casual
              None) "Smith" "J");
    try reflexivity; cbn; lia.
Defined.

(** A file of three rows whose second row is too short: the two members
    read get the ids of their row numbers, 1 and 3, which differ and are
    no UUIDs. *)
Lemma handleImport_ids_witness :
  let text :=
    JSText.join (String newline "")
      ["Name,Role,CycleStartDate,PatternOn,PatternOff,ShiftType,Status";
       "Thandi,Ranger,2024-01-01,5,2,Normal,Permanent";
       "Sipho,Guide";
       "Lerato,Tracker,2024-02-01,4,4,Half,Casual"] in
  exists newStaff,
    handleImport text = Some newStaff
    /\ map Imported.id newStaff = ["imported-1"; "imported-3"]
    /\ List.NoDup (map Imported.id newStaff)
    /\ forall m, In m newStaff -> isValidUUID (Imported.id m) = false.
Proof.
  intros text.
  destruct (handleImport text) as [newStaff|] eqn:Hrun;
    [|vm_compute in Hrun; discriminate Hrun].
  exists newStaff. split; [reflexivity|].
  destruct (handleImport_ids text newStaff Hrun) as (_ & Hnodup & Huuid).
  split; [|split; assumption].
  vm_compute in Hrun. injection Hrun as <-. reflexivity.
Defined.

(** Two hours after midnight UTC on 2024-01-01, in Johannesburg. *)
Lemma getLocalDateString_wellformed_witness :
  isoDate (getLocalDateString zoneJohannesburg (JS.Int (19723 * 86400000)))
  = true.
Proof.
  apply (getLocalDateString_wellformed zoneJohannesburg (19723 * 86400000)).
  vm_compute. split; discriminate.
Defined.

Lemma generateDateRange_days_witness :
  length (generateDateRange zoneJohannesburg (JS.Int (19723 * 86400000)) 30)
  = 30%nat.
Proof.
  apply (generateDateRange_days zoneJohannesburg (19723 * 86400000) 30).
  - vm_compute. discriminate.
  - exact boundedZone_Johannesburg.
Defined.

(** The grid opened on Wednesday 2024-01-03: the column at position 3 is
    Saturday, day 5 of the cycle, and is off. *)
Lemma grid_follows_pattern_witness :
  exists e,
    generateDateRange zoneJohannesburg (JS.Int (19725 * 86400000)) 30 !! 3%nat
    = Some e
    /\ isStaffWorking tzJohannesburg (weekdayStaff None)
         (DayStatus.fullDateStr e)
       = false.
Proof.
  exists (dateEntry zoneJohannesburg (JS.Int (19725 * 86400000)) 3).
  split; [vm_compute; reflexivity|].
  apply (grid_follows_pattern zoneJohannesburg 7200000 (19725 * 86400000) 30
           (weekdayStaff None) 2 3).
  - exact fixedZone_Johannesburg.
  - vm_compute. discriminate.
  - reflexivity.
  - reflexivity.
  - vm_compute. discriminate.
  - vm_compute. reflexivity.
  - vm_compute. split; discriminate.
  - vm_compute. discriminate.
  - split; vm_compute; discriminate.
  - vm_compute. reflexivity.
Defined.

(** In the example world the second staff object has no start date:
    [isStaffWorking] and [calculateShiftState] throw for it, and
    [getShiftTimes] returns the default window. *)
Lemma calculator_throws_witness :
  isStaffWorkingM (Some 1%nat) "2024-01-02" exampleWorld
  = Runtime.Throws exampleWorld
  /\ calculateShiftStateM (Some 1%nat) (Some 0%nat) exampleWorld
     = Runtime.Throws exampleWorld
  /\ getShiftTimesM (Some 1%nat) "2024-01-02" Half exampleWorld
     = Runtime.Returns ("08:00", "13:00") exampleWorld.
Proof.
  destruct (calculator_throws exampleWorld (Some 1%nat) (Some 0%nat)
              "2024-01-02" Half) as (_ & _ & Hmissing).
  destruct (Hmissing
              (Runtime.mkStaff "2" "Sipho" "Guide" None 4 4 Half Casual None)
              eq_refl eq_refl) as (Hw & Hrest).
  destruct (Hrest eq_refl) as (Hst & Ht).
  split; [exact Hw|]. split; [exact Hst | exact Ht].
Defined.

(** A click on the manual half shift of Tuesday 2024-01-02 in the example
    world: the reference handed over denotes the member with the day-off
    entry in place of the Half entry, the reference on display still
    denotes the member with the Half entry, and the world holds one
    staff object more. *)
Lemma handleQuickCycleM_copies_witness :
  let p :=
    weekdayStaff (Some [halfEntry "2024-01-02"; dayOffEntry "2024-01-03"]) in
  exists r w',
    handleQuickCycleM [Some 0%nat] true (Some 0%nat) (Some 0%nat)
      (calculateShiftState tzJohannesburg p (dayOf "2024-01-02")) exampleWorld
    = Runtime.Returns (Some [r]) w'
    /\ staffAt w' r
       = Some (weekdayStaff
                 (Some [dayOffEntry "2024-01-03"; dayOffEntry "2024-01-02"]))
    /\ staffAt w' (Some 0%nat) = Some p
    /\ length (Runtime.staffObjects w') = 3%nat.
Proof.
  intros p.
  destruct (handleQuickCycleM_copies exampleWorld [Some 0%nat] (Some 0%nat)
              (Some 0%nat)
              (calculateShiftState tzJohannesburg p (dayOf "2024-01-02"))
              [p] p (dayOf "2024-01-02"))
    as (newStaff & w' & Hrun & _ & _ & Hlen & Hold & _ & Hvalue).
  - repeat constructor.
  - reflexivity.
  - reflexivity.
  - destruct Hvalue as (newMembers & Hpure & Hnew).
    + intros t. cbn. unfold tzJohannesburg, JS.msPerDay. lia.
    + reflexivity.
    + intros m [<-|[]]. split; [reflexivity|]. split; cbn; lia.
    + vm_compute in Hpure. injection Hpure as <-.
      inversion Hnew as [|r ? rest ? Hr Hrest]; subst.
      inversion Hrest; subst.
      exists r, w'. split; [exact Hrun|]. split; [exact Hr|].
      split; [apply Hold; reflexivity | exact Hlen].
Defined.
